(** * Task management server: task and user services

    A shallow embedding of the server's service layer
    ([services/task.service.ts], [services/user.service.ts]), of the
    repositories they call ([repositories/taskRepository.ts],
    [repositories/userRepository.ts]) and of the validators
    ([models/task.model.ts], [utils/password.utils.ts]).

    Conventions of the embedding.
    - A JavaScript [Date] is its time value: milliseconds since the epoch,
      or [InvalidDate] when the time value is NaN.  The dates of payloads
      and of rows and the readings of the clock are dates that JavaScript
      has: their time values are in the range of [Date].
    - Strings are ASCII strings without the character NUL, which a string
      of the database cannot hold; [String.length] is then the JavaScript
      [length] and the length that the database counts.
    - Payloads carry the fields their TypeScript interface declares, each
      one absent ([None], JavaScript [undefined]) or a value of its type.
      A number (a key, a count of days) is an integer.
    - A PostgreSQL table is a finite map from its primary key to its rows.
      A query that the database rejects (a parameter that is not a value
      of the type of its column, a value too long for its column, a key
      or a reference that breaks a constraint) raises an error that is
      not an [ApiError]; the [catch] block of the repository function
      that ran the query replaces it by its own [ApiError] of status 500.
      A rejected query writes no row and reads no clock.
    - The lookups by key receive the key that a handler parses from the
      route, which may be any integer.  The queries of the tasks of a
      user, of a category and of a priority receive the key of the
      authenticated user ([req.user.id]) and keys of categories and of
      priorities: values of the types of their columns.
    - [async] functions run to completion; a thrown [ApiError] is the
      [Throw] result.  Failures of the database connection are not
      modelled.  A [catch] block that rethrows every [ApiError] unchanged
      is then the identity; one that replaces every error is written
      out.
    - The host runs in a time zone with a fixed offset to UTC.
    - [new Date()] and the [NOW()] of a query read one clock; the world
      records the instants that its successive readings return. *)

From stdpp Require Import base option list gmap strings sorting.
From Stdlib Require Import ZArith Ascii String.

Local Open Scope Z_scope.

(** ** Errors: [utils/error.utils.ts] *)

Module ApiError.

Record t := mk { message : string; statusCode : Z; code : string }.

Definition badRequest (message code : string) : t := mk message 400 code.
Definition unauthorized (message code : string) : t := mk message 401 code.
Definition forbidden (message code : string) : t := mk message 403 code.
Definition notFound (message code : string) : t := mk message 404 code.

End ApiError.

(** The outcome of a call: a returned value or a thrown [ApiError]. *)
Inductive result (A : Type) : Type :=
  | Ok (a : A)
  | Throw (e : ApiError.t).
Arguments Ok {A} a.
Arguments Throw {A} e.

(** ** JavaScript dates *)

Inductive Date : Type :=
  | ValidDate (t : Z)
  | InvalidDate.

Definition msPerDay : Z := 86400000.

Module JSDate.

(** [isNaN(d.getTime())] *)
Definition isNaN_getTime (d : Date) : bool :=
  match d with ValidDate _ => false | InvalidDate => true end.

(** [a < b], [a <= b], [a >= b] on dates compare the time values; a
    comparison with NaN is false. *)
Definition lt (a b : Date) : bool :=
  match a, b with ValidDate x, ValidDate y => bool_decide (x < y) | _, _ => false end.
Definition le (a b : Date) : bool :=
  match a, b with ValidDate x, ValidDate y => bool_decide (x ≤ y) | _, _ => false end.
Definition ge (a b : Date) : bool :=
  match a, b with ValidDate x, ValidDate y => bool_decide (y ≤ x) | _, _ => false end.

(** The local calendar day of an instant, counted from the epoch, in the
    zone whose local time is UTC + [tz] milliseconds. *)
Definition localDay (tz t : Z) : Z := (t + tz) `div` msPerDay.

(** [d.setHours(0, 0, 0, 0)]: midnight, local time, of the day of [d].
    That instant is in the range of [Date] for every [d] but some of the
    first day of the range, for which [setHours] yields an invalid date;
    the embedding leaves those out, and a statement about every due date
    says so. *)
Definition setHours0 (tz : Z) (d : Date) : Date :=
  match d with
  | ValidDate t => ValidDate (localDay tz t * msPerDay - tz)
  | InvalidDate => InvalidDate
  end.

(** The time values of a [Date] are at most 8.64e15 milliseconds from the
    epoch; [TimeClip] turns any other into NaN. *)
Definition maxTime : Z := 8640000000000000.
Definition timeClip (t : Z) : Date :=
  if bool_decide (- maxTime ≤ t ≤ maxTime) then ValidDate t else InvalidDate.

(** [d.setDate(d.getDate() + days)] for a whole number of days: the same
    local time of day, [days] calendar days later, or an invalid date
    when that instant is out of the range of [Date]; with a fixed offset
    every day has [msPerDay] milliseconds. *)
Definition addDays (d : Date) (days : Z) : Date :=
  match d with
  | ValidDate t => timeClip (t + days * msPerDay)
  | InvalidDate => InvalidDate
  end.

End JSDate.

(** ** Strings *)

Module JSString.

(** White space and line terminators of [String.prototype.trim] within
    ASCII: TAB, LF, VT, FF, CR and SPACE. *)
Definition isWhiteSpace (c : ascii) : bool :=
  let n := nat_of_ascii c in
  bool_decide (n = 9 ∨ n = 10 ∨ n = 11 ∨ n = 12 ∨ n = 13 ∨ n = 32)%nat.

Fixpoint trimStart (s : string) : string :=
  match s with
  | EmptyString => EmptyString
  | String c s' => if isWhiteSpace c then trimStart s' else s
  end.

Definition trim (s : string) : string :=
  String.rev (trimStart (String.rev (trimStart s))).

(** [re.test(s)] for a regular expression that is one character class. *)
Fixpoint test (class : ascii → bool) (s : string) : bool :=
  match s with
  | EmptyString => false
  | String c s' => class c || test class s'
  end.

(** [xs.join(', ')] *)
Fixpoint join (xs : list string) : string :=
  match xs with
  | [] => EmptyString
  | [x] => x
  | x :: rest => x +:+ ", " +:+ join rest
  end.

(** A regular expression that is a sequence of character classes, each
    taken once ([[c]]) or once or more ([[c]+]). *)
Inductive item : Type :=
  | One (class : ascii → bool)
  | Plus (class : ascii → bool).

(** The class of an item. *)
Definition classOf (item : item) : ascii → bool :=
  match item with One class | Plus class => class end.

(** [/^...$/.test(s)] for such a sequence: the whole of [s] matches. *)
Fixpoint matches (re : list item) (s : string) : bool :=
  match re with
  | [] => bool_decide (s = EmptyString)
  | One class :: re' =>
      match s with
      | EmptyString => false
      | String c s' => class c && matches re' s'
      end
  | Plus class :: re' =>
      (fix more (s : string) : bool :=
         match s with
         | EmptyString => false
         | String c s' => class c && (matches re' s' || more s')
         end) s
  end.

(** [xs.includes(x)] *)
Definition includes (xs : list string) (x : string) : bool := bool_decide (x ∈ xs).

(** Truthiness of a string that may be absent. *)
Definition truthy (s : option string) : bool :=
  match s with
  | None => false
  | Some s => negb (bool_decide (s = EmptyString))
  end.

End JSString.

(** Truthiness of a number that may be absent ([0] is falsy). *)
Definition truthyNumber (n : option Z) : bool :=
  match n with
  | None => false
  | Some n => negb (bool_decide (n = 0))
  end.

(** ** PostgreSQL values, after the types and constraints of the schema
    ([CREATE TABLE users], [CREATE TABLE tasks]) *)

Module Sql.

(** The values of the type [INT], which is also the type of a [SERIAL]
    key. *)
Definition isInt (n : Z) : bool := bool_decide (-2147483648 ≤ n ≤ 2147483647).

(** A parameter that may be null is a value of [INT] when it is null or
    such a value. *)
Definition isIntOrNull (n : option Z) : bool :=
  match n with
  | Some n => isInt n
  | None => true
  end.

(** [WHERE key = $1] on a table with an [INT] key.  A table holds keys of
    that type only, so a key that has a row is such a value and the query
    returns the row; for a parameter of that type without a row it
    returns no row; any other parameter the database rejects. *)
Definition selectByKey {V} (table : gmap Z V) (id : Z) : option (option V) :=
  match table !! id with
  | Some row => Some (Some row)
  | None => if isInt id then Some None else None
  end.

(** A value of a column that refers to the key of another table: null, or
    a key of that table. *)
Definition refers (keys : gset Z) (ref : option Z) : bool :=
  match ref with
  | Some key => bool_decide (key ∈ keys)
  | None => true
  end.

(** A [Date] bound to a column of type [DATE].  The driver sends the local
    date and time of the instant, the column keeps the day, and the
    driver reads a day back as midnight, local time, of that day.  [tz]
    is the offset of the host; the range of [DATE], from 4713 BC on, is
    taken to hold the day. *)
Definition date (tz t : Z) : Z := JSDate.localDay tz t * msPerDay - tz.

(** The first [n] characters of a string, and the rest of it. *)
Fixpoint take (n : nat) (s : string) : string :=
  match n, s with
  | S n', String c s' => String c (take n' s')
  | _, _ => EmptyString
  end.
Fixpoint drop (n : nat) (s : string) : string :=
  match n, s with
  | S n', String _ s' => drop n' s'
  | _, _ => s
  end.

Fixpoint onlySpaces (s : string) : bool :=
  match s with
  | EmptyString => true
  | String c s' => bool_decide (c = " "%char) && onlySpaces s'
  end.

(** A string bound to a column of type [VARCHAR(n)].  The column keeps a
    string of at most [n] characters as it is, and the first [n]
    characters of a longer one when all that it cuts is spaces; any other
    string the database rejects. *)
Definition varchar (n : nat) (s : string) : option string :=
  if onlySpaces (drop n s) then Some (take n s) else None.

(** The same for a parameter that may be absent. *)
Definition varcharOrNone (n : nat) (s : option string) : option (option string) :=
  match s with
  | Some s => Some <$> varchar n s
  | None => Some None
  end.

(** The constraint [UNIQUE] on a column, for the row of the key [id]: no
    other row has the value. *)
Definition unique {V} (column : V → string) (table : gmap Z V) (id : Z) (value : string)
    : bool :=
  bool_decide (map_Forall (λ key row, key ≠ id → column row ≠ value) table).

End Sql.

(** ** Interfaces: [interfaces/task.interface.ts], [interfaces/user.interface.ts] *)

Module TaskStatus.

Inductive t : Type := PENDING | IN_PROGRESS | COMPLETED | CANCELLED.

(** The string value of each member of the enum. *)
Definition value (s : t) : string :=
  match s with
  | PENDING => "pending"
  | IN_PROGRESS => "in_progress"
  | COMPLETED => "completed"
  | CANCELLED => "cancelled"
  end.

(** [Object.values(TaskStatus)] *)
Definition values : list string :=
  [value PENDING; value IN_PROGRESS; value COMPLETED; value CANCELLED].

(** [Object.values(TaskStatus).includes(s)] *)
Definition includes (s : string) : bool := bool_decide (s ∈ values).

End TaskStatus.

(** A row of the table [tasks]. *)
Module TaskRow.

Record t := mk {
  task_id : Z;
  user_id : Z;
  category_id : option Z;
  priority_id : option Z;
  title : string;
  description : option string;
  due_date : option Z;
  status : string;
  created_at : Z;
  updated_at : Z
}.

End TaskRow.

Module ITask.

Record t := mk {
  task_id : Z;
  user_id : Z;
  category_id : option Z;
  priority_id : option Z;
  title : string;
  description : option string;
  due_date : option Date;
  status : string;
  created_at : Date;
  updated_at : Date
}.

End ITask.

(** The payload of a creation.  [status] is not a field of the interface:
    the controller spreads the request body into the payload, so a body
    that carries a status reaches [createTask] with it. *)
Module ITaskCreate.

Record t := mk {
  user_id : option Z;
  title : option string;
  description : option string;
  category_id : option Z;
  priority_id : option Z;
  due_date : option Date;
  status : option string
}.

End ITaskCreate.

Module ITaskUpdate.

Record t := mk {
  title : option string;
  description : option string;
  category_id : option Z;
  priority_id : option Z;
  due_date : option Date;
  status : option string
}.

(** [Object.keys(data)]: the names of the fields that are present. *)
Definition keys (data : t) : list string :=
  (if title data is Some _ then ["title"] else []) ++
  (if description data is Some _ then ["description"] else []) ++
  (if category_id data is Some _ then ["category_id"] else []) ++
  (if priority_id data is Some _ then ["priority_id"] else []) ++
  (if due_date data is Some _ then ["due_date"] else []) ++
  (if status data is Some _ then ["status"] else []).

End ITaskUpdate.

(** A row of the table [users]; [IUser] is the row as the driver returns
    it. *)
Module IUser.

Record t := mk {
  user_id : Z;
  username : string;
  email : string;
  password_hash : string;
  role : option string;
  created_at : Z;
  updated_at : Z
}.

End IUser.

(** [Partial<IUser>], the payload of a profile update. *)
Module PartialIUser.

Record t := mk {
  user_id : option Z;
  username : option string;
  email : option string;
  password_hash : option string;
  created_at : option Date;
  role : option string
}.

(** [delete userData.role] *)
Definition delete_role (data : t) : t :=
  mk (user_id data) (username data) (email data) (password_hash data)
     (created_at data) None.

End PartialIUser.

(** The payload of a registration; a field that the request leaves out is
    absent. *)
Module IUserCreate.

Record t := mk {
  username : option string;
  email : option string;
  password : option string;
  role : option string
}.

End IUserCreate.

(** [Omit<IUser, 'password_hash'>] *)
Module SafeUser.

Record t := mk {
  user_id : Z;
  username : string;
  email : string;
  role : option string;
  created_at : Z;
  updated_at : Z
}.

(** [const { password_hash, ...userWithoutPassword } = user] *)
Definition of_user (u : IUser.t) : t :=
  mk (IUser.user_id u) (IUser.username u) (IUser.email u) (IUser.role u)
     (IUser.created_at u) (IUser.updated_at u).

End SafeUser.

Module IUserTokenPayload.

Record t := mk {
  id : Z;
  username : string;
  email : string;
  role : option string
}.

End IUserTokenPayload.

(** ** The world a call runs in *)

Record World := mkWorld {
  (** table [tasks], by [task_id] *)
  tasks : gmap Z TaskRow.t;
  (** the sequence behind [task_id SERIAL]: the next key *)
  tasks_task_id_seq : Z;
  (** table [users], by [user_id] *)
  users : gmap Z IUser.t;
  (** the instants that the successive readings of the clock return *)
  clock : nat → Z;
  (** the number of readings made so far *)
  ticks : nat;
  (** local time is UTC + [tzOffset] milliseconds *)
  tzOffset : Z;
  (** the keys of the tables [categories] and [priorities], values of
      [INT], which the server refers to and never writes *)
  categories : gset Z;
  priorities : gset Z
}.

Definition set_tasks (f : gmap Z TaskRow.t → gmap Z TaskRow.t) (w : World) : World :=
  mkWorld (f (tasks w)) (tasks_task_id_seq w) (users w) (clock w) (ticks w) (tzOffset w)
    (categories w) (priorities w).
Definition set_users (f : gmap Z IUser.t → gmap Z IUser.t) (w : World) : World :=
  mkWorld (tasks w) (tasks_task_id_seq w) (f (users w)) (clock w) (ticks w) (tzOffset w)
    (categories w) (priorities w).

(** A computation reads and writes the world and returns or throws. *)
Definition M (A : Type) : Type := World → result A * World.

Definition ret {A} (a : A) : M A := λ w, (Ok a, w).
Definition throw {A} (e : ApiError.t) : M A := λ w, (Throw e, w).
Definition bind {A B} (m : M A) (k : A → M B) : M B :=
  λ w, match m w with
       | (Ok a, w') => k a w'
       | (Throw e, w') => (Throw e, w')
       end.

Notation "'let!' x ':=' m 'in' k" := (bind m (λ x, k))
  (at level 10, x binder, m at level 100, k at level 200).
Notation "m ';;' k" := (bind m (λ _, k))
  (at level 100, k at level 200, right associativity).

(** The answer of a query that the database may reject: it returns the
    answer, or throws the error [e] that the [catch] block makes of the
    rejection. *)
Definition queried {A} (answer : option A) (e : ApiError.t) : M A :=
  λ w, (match answer with Some a => Ok a | None => Throw e end, w).

(** [try { m } catch (error) { throw e }]: a catch block that replaces
    every error. *)
Definition catchAll {A} (m : M A) (e : ApiError.t) : M A :=
  λ w, match m w with
       | (Ok a, w') => (Ok a, w')
       | (Throw _, w') => (Throw e, w')
       end.

(** [if (c) throw e] *)
Definition throwIf (c : bool) (e : ApiError.t) : M unit :=
  λ w, (if c then Throw e else Ok (), w).

(** [new Date()], and [NOW()] / [CURRENT_TIMESTAMP] in a query: one reading
    of the clock. *)
Definition readClock : M Z :=
  λ w, (Ok (clock w (ticks w)),
        mkWorld (tasks w) (tasks_task_id_seq w) (users w) (clock w) (S (ticks w)) (tzOffset w)
          (categories w) (priorities w)).

Definition getTz : M Z := λ w, (Ok (tzOffset w), w).
Definition getCategories : M (gset Z) := λ w, (Ok (categories w), w).
Definition getPriorities : M (gset Z) := λ w, (Ok (priorities w), w).
Definition getTasks : M (gmap Z TaskRow.t) := λ w, (Ok (tasks w), w).
Definition getUsers : M (gmap Z IUser.t) := λ w, (Ok (users w), w).
Definition modifyTasks (f : gmap Z TaskRow.t → gmap Z TaskRow.t) : M unit :=
  λ w, (Ok (), set_tasks f w).
Definition modifyUsers (f : gmap Z IUser.t → gmap Z IUser.t) : M unit :=
  λ w, (Ok (), set_users f w).

(** [xs.filter(p)] for a callback that reads the world. *)
Fixpoint filterM {A} (p : A → M bool) (xs : list A) : M (list A) :=
  match xs with
  | [] => ret []
  | x :: rest =>
      let! keep := p x in
      let! rest' := filterM p rest in
      ret (if keep then x :: rest' else rest')
  end.

(** ** The task model: [models/task.model.ts] *)

Module Task.

(** [Task.validateCreate] *)
Definition validateCreate (data : ITaskCreate.t) : M unit :=
  throwIf (negb (truthyNumber (ITaskCreate.user_id data)))
    (ApiError.badRequest "User ID is required" "USER_ID_REQUIRED");;
  throwIf (negb (JSString.truthy (ITaskCreate.title data))
           || bool_decide (String.length (JSString.trim (default EmptyString (ITaskCreate.title data))) = 0%nat))
    (ApiError.badRequest "Task title is required" "INVALID_TITLE");;
  throwIf (bool_decide (100 < String.length (default EmptyString (ITaskCreate.title data)))%nat)
    (ApiError.badRequest "Task title must be 100 characters or less" "INVALID_TITLE_LENGTH");;
  throwIf (match ITaskCreate.due_date data with
           | Some d => JSDate.isNaN_getTime d
           | None => false
           end)
    (ApiError.badRequest "Invalid due date format" "INVALID_DUE_DATE").

(** [Task.validateUpdate] *)
Definition validateUpdate (data : ITaskUpdate.t) : M unit :=
  throwIf (bool_decide (List.length (ITaskUpdate.keys data) = 0%nat))
    (ApiError.badRequest "No data provided for update" "NO_UPDATE_DATA");;
  match ITaskUpdate.title data with
  | Some title =>
      throwIf (bool_decide (String.length (JSString.trim title) = 0%nat))
        (ApiError.badRequest "Task title cannot be empty" "INVALID_TITLE");;
      throwIf (bool_decide (100 < String.length title)%nat)
        (ApiError.badRequest "Task title must be 100 characters or less" "INVALID_TITLE_LENGTH")
  | None => ret ()
  end;;
  throwIf (match ITaskUpdate.due_date data with
           | Some d => JSDate.isNaN_getTime d
           | None => false
           end)
    (ApiError.badRequest "Invalid due date format" "INVALID_DUE_DATE");;
  if JSString.truthy (ITaskUpdate.status data) then
    throwIf (negb (TaskStatus.includes (default EmptyString (ITaskUpdate.status data))))
      (ApiError.badRequest
         ("Status must be one of: " +:+ JSString.join TaskStatus.values)
         "INVALID_STATUS")
  else ret ().

(** [Task.fromDatabaseRow]; [x || null] turns [0] and the empty string
    into [null]. *)
Definition fromDatabaseRow (row : TaskRow.t) : ITask.t :=
  ITask.mk
    (TaskRow.task_id row)
    (TaskRow.user_id row)
    (if truthyNumber (TaskRow.category_id row) then TaskRow.category_id row else None)
    (if truthyNumber (TaskRow.priority_id row) then TaskRow.priority_id row else None)
    (TaskRow.title row)
    (if JSString.truthy (TaskRow.description row) then TaskRow.description row else None)
    (ValidDate <$> TaskRow.due_date row)
    (TaskRow.status row)
    (ValidDate (TaskRow.created_at row))
    (ValidDate (TaskRow.updated_at row)).

End Task.

(** ** The task repository: [repositories/taskRepository.ts] *)

Module TaskRepository.

(** [ORDER BY due_date ASC NULLS LAST, created_at DESC] *)
Definition orderBy (r1 r2 : TaskRow.t) : Prop :=
  match TaskRow.due_date r1, TaskRow.due_date r2 with
  | Some a, Some b => a < b ∨ (a = b ∧ TaskRow.created_at r2 ≤ TaskRow.created_at r1)
  | Some _, None => True
  | None, Some _ => False
  | None, None => TaskRow.created_at r2 ≤ TaskRow.created_at r1
  end.

#[global] Instance orderBy_dec : RelDecision orderBy.
Proof.
  intros r1 r2. unfold orderBy.
  destruct (TaskRow.due_date r1), (TaskRow.due_date r2); apply _.
Defined.

(** A date bound to a parameter for the column [due_date DATE]: the
    database accepts a valid date only, and keeps its local day. *)
Definition sqlDate (tz : Z) (d : option Date) : option (option Z) :=
  match d with
  | None => Some None
  | Some (ValidDate t) => Some (Some (Sql.date tz t))
  | Some InvalidDate => None
  end.

(** [findById] *)
Definition findById (id : Z) : M (option ITask.t) :=
  let! rows := getTasks in
  let! row := queried (Sql.selectByKey rows id)
                (ApiError.mk "Error finding task by ID" 500 "SERVER_ERROR") in
  ret (Task.fromDatabaseRow <$> row).

(** The world after [nextval] on the sequence of the keys; the sequence
    keeps the step when the query that made it fails. *)
Definition nextval (w : World) : World :=
  mkWorld (tasks w) (tasks_task_id_seq w + 1) (users w) (clock w) (ticks w) (tzOffset w)
    (categories w) (priorities w).

(** [INSERT INTO tasks ... RETURNING *] in [create]: the key comes from
    the sequence and both timestamps default to [CURRENT_TIMESTAMP].
    The database rejects the query when a parameter of an [INT] column
    is not such a value or the sequence has left that type, and then,
    the key being drawn, when the key is taken ([PRIMARY KEY]) or the
    owner, the category or the priority is not a key of its table
    ([FOREIGN KEY]). *)
Definition insertRow (row : Z → Z → TaskRow.t) : M TaskRow.t :=
  λ w,
    let r := row (tasks_task_id_seq w) (clock w (ticks w)) in
    let rejected := Throw (ApiError.mk "Error creating task" 500 "SERVER_ERROR") in
    if negb (Sql.isInt (TaskRow.user_id r)
             && Sql.isIntOrNull (TaskRow.category_id r)
             && Sql.isIntOrNull (TaskRow.priority_id r)
             && Sql.isInt (tasks_task_id_seq w))
    then (rejected, w)
    else if bool_decide (is_Some (tasks w !! tasks_task_id_seq w))
            || negb (bool_decide (is_Some (users w !! TaskRow.user_id r)))
            || negb (Sql.refers (categories w) (TaskRow.category_id r))
            || negb (Sql.refers (priorities w) (TaskRow.priority_id r))
    then (rejected, nextval w)
    else
      (Ok r,
       mkWorld (<[tasks_task_id_seq w := r]> (tasks w)) (tasks_task_id_seq w + 1)
               (users w) (clock w) (S (ticks w)) (tzOffset w)
               (categories w) (priorities w)).

(** [create]; a query that the database rejects raises an error that is
    not an [ApiError], which the [catch] block replaces. *)
Definition create (data : ITaskCreate.t) : M ITask.t :=
  Task.validateCreate data;;
  let! tz := getTz in
  match ITaskCreate.user_id data, ITaskCreate.title data,
        sqlDate tz (ITaskCreate.due_date data) with
  | Some user_id, Some title, Some due_date =>
      let! row := insertRow (λ task_id now,
        TaskRow.mk task_id user_id
          (ITaskCreate.category_id data) (ITaskCreate.priority_id data)
          title (ITaskCreate.description data) due_date
          (TaskStatus.value TaskStatus.PENDING) now now) in
      ret (Task.fromDatabaseRow row)
  | _, _, _ => throw (ApiError.mk "Error creating task" 500 "SERVER_ERROR")
  end.

(** The [SET] clauses that [update] builds: a clause for each field that
    is not [undefined], and [updated_at = NOW()]. *)
Definition setClauses (data : ITaskUpdate.t) (due_date : option Z) (now : Z)
    (row : TaskRow.t) : TaskRow.t :=
  TaskRow.mk
    (TaskRow.task_id row)
    (TaskRow.user_id row)
    (if ITaskUpdate.category_id data is Some c then Some c else TaskRow.category_id row)
    (if ITaskUpdate.priority_id data is Some p then Some p else TaskRow.priority_id row)
    (default (TaskRow.title row) (ITaskUpdate.title data))
    (if ITaskUpdate.description data is Some d then Some d else TaskRow.description row)
    (if ITaskUpdate.due_date data is Some _ then due_date else TaskRow.due_date row)
    (default (TaskRow.status row) (ITaskUpdate.status data))
    (TaskRow.created_at row)
    now.

(** [update]; the database rejects the [UPDATE] for a due date that is
    not a date, and for a category or a priority that is not a key of its
    table. *)
Definition update (id : Z) (data : ITaskUpdate.t) : M (option ITask.t) :=
  let! existingTask := findById id in
  let! rows := getTasks in
  match existingTask, rows !! id with
  | Some existingTask, Some row =>
      Task.validateUpdate data;;
      if bool_decide (List.length (ITaskUpdate.keys data) = 0%nat) then
        ret (Some existingTask)
      else
        let! tz := getTz in
        let! categories := getCategories in
        let! priorities := getPriorities in
        match sqlDate tz (ITaskUpdate.due_date data) with
        | Some due_date =>
            throwIf (negb (Sql.refers categories (ITaskUpdate.category_id data))
                     || negb (Sql.refers priorities (ITaskUpdate.priority_id data)))
              (ApiError.mk "Error updating task" 500 "SERVER_ERROR");;
            let! now := readClock in
            let row' := setClauses data due_date now row in
            modifyTasks (insert id row');;
            ret (Some (Task.fromDatabaseRow row'))
        | None => throw (ApiError.mk "Error updating task" 500 "SERVER_ERROR")
        end
  | _, _ => ret None
  end.

(** [delete] *)
Definition delete (id : Z) : M bool :=
  let! rows := getTasks in
  let! row := queried (Sql.selectByKey rows id)
                (ApiError.mk "Error deleting task" 500 "SERVER_ERROR") in
  modifyTasks (base.delete id);;
  ret (bool_decide (is_Some row)).

(** [findByUserId(userId)], without query parameters: the way the service
    functions below call it. *)
Definition findByUserId (userId : Z) : M (list ITask.t) :=
  let! rows := getTasks in
  ret (Task.fromDatabaseRow <$>
         merge_sort orderBy
           (filter (λ row, TaskRow.user_id row = userId) (map_to_list rows).*2)).

(** [changeStatus] *)
Definition changeStatus (taskId : Z) (status : string) : M (option ITask.t) :=
  throwIf (negb (TaskStatus.includes status))
    (ApiError.badRequest
       ("Status must be one of: " +:+ JSString.join TaskStatus.values)
       "INVALID_STATUS");;
  let! rows := getTasks in
  let! found := queried (Sql.selectByKey rows taskId)
                  (ApiError.mk "Error changing task status" 500 "SERVER_ERROR") in
  let! now := readClock in
  match found with
  | Some row =>
      let row' :=
        TaskRow.mk (TaskRow.task_id row) (TaskRow.user_id row)
          (TaskRow.category_id row) (TaskRow.priority_id row)
          (TaskRow.title row) (TaskRow.description row) (TaskRow.due_date row)
          status (TaskRow.created_at row) now in
      modifyTasks (insert taskId row');;
      ret (Some (Task.fromDatabaseRow row'))
  | None => ret None
  end.

(** The tasks of the rows that a
    [SELECT * FROM tasks WHERE ... ORDER BY due_date ASC NULLS LAST, created_at DESC]
    returns. *)
Definition selectOrdered (P : TaskRow.t → Prop) `{!∀ row, Decision (P row)}
    : M (list ITask.t) :=
  let! rows := getTasks in
  ret (Task.fromDatabaseRow <$> merge_sort orderBy (filter P (map_to_list rows).*2)).

(** [findByCategoryId]; a row whose category is null has no category to
    compare. *)
Definition findByCategoryId (categoryId : Z) : M (list ITask.t) :=
  selectOrdered (λ row, TaskRow.category_id row = Some categoryId).

(** [findByPriorityId] *)
Definition findByPriorityId (priorityId : Z) : M (list ITask.t) :=
  selectOrdered (λ row, TaskRow.priority_id row = Some priorityId).

(** The condition [AND column = $n] that a query parameter adds when it is
    not [undefined]. *)
Definition andEquals {A} (param : option A) (column : option A) : Prop :=
  match param with
  | None => True
  | Some _ => column = param
  end.

#[global] Instance andEquals_dec {A} `{EqDecision A} (param column : option A) :
  Decision (andEquals param column).
Proof. destruct param; unfold andEquals; apply _. Defined.

(** [findByUserId(userId, queryParams)] for query parameters that have
    neither [due_date] nor [search]: a condition for each of
    [category_id], [priority_id] and [status] that is not [undefined]. *)
Definition findByUserIdWhere (userId : Z) (category_id priority_id : option Z)
    (status : option string) : M (list ITask.t) :=
  selectOrdered (λ row,
    TaskRow.user_id row = userId ∧
    andEquals category_id (TaskRow.category_id row) ∧
    andEquals priority_id (TaskRow.priority_id row) ∧
    andEquals status (Some (TaskRow.status row))).

End TaskRepository.

(** ** The task service: [services/task.service.ts] *)

Module TaskService.

(** [authorizeTaskOperation(task, userId, isAdmin = false)] *)
Definition authorizeTaskOperation (task : ITask.t) (userId : Z) (isAdmin : bool) : M unit :=
  throwIf (bool_decide (ITask.user_id task ≠ userId) && negb isAdmin)
    (ApiError.forbidden "Not authorized to perform this action on this task" "FORBIDDEN").

(** [validateDueDate(dueDate?)] *)
Definition validateDueDate (dueDate : option Date) : M unit :=
  match dueDate with
  | Some dueDate =>
      let! now := readClock in
      let! tz := getTz in
      let today := JSDate.setHours0 tz (ValidDate now) in
      let dueDateObj := JSDate.setHours0 tz dueDate in
      throwIf (JSDate.lt dueDateObj today)
        (ApiError.badRequest "Due date cannot be in the past" "INVALID_DUE_DATE")
  | None => ret ()
  end.

(** [createTask] *)
Definition createTask (taskData : ITaskCreate.t) : M ITask.t :=
  (if ITaskCreate.due_date taskData is Some _
   then validateDueDate (ITaskCreate.due_date taskData)
   else ret ());;
  TaskRepository.create taskData.

(** [updateTask]; every call of [authorizeTaskOperation] leaves [isAdmin]
    to its default. *)
Definition updateTask (taskId : Z) (taskData : ITaskUpdate.t) (userId : Z)
    : M (option ITask.t) :=
  let! existingTask := TaskRepository.findById taskId in
  match existingTask with
  | None => ret None
  | Some existingTask =>
      authorizeTaskOperation existingTask userId false;;
      (if ITaskUpdate.due_date taskData is Some _
       then validateDueDate (ITaskUpdate.due_date taskData)
       else ret ());;
      TaskRepository.update taskId taskData
  end.

(** [deleteTask] *)
Definition deleteTask (taskId userId : Z) : M bool :=
  let! existingTask := TaskRepository.findById taskId in
  match existingTask with
  | None => ret false
  | Some existingTask =>
      authorizeTaskOperation existingTask userId false;;
      TaskRepository.delete taskId
  end.

(** [changeTaskStatus] *)
Definition changeTaskStatus (taskId : Z) (status : string) (userId : Z)
    : M (option ITask.t) :=
  let! existingTask := TaskRepository.findById taskId in
  match existingTask with
  | None => ret None
  | Some existingTask =>
      authorizeTaskOperation existingTask userId false;;
      throwIf (negb (TaskStatus.includes status))
        (ApiError.badRequest
           ("Status must be one of: " +:+ JSString.join TaskStatus.values)
           "INVALID_STATUS");;
      TaskRepository.changeStatus taskId status
  end.

(** The guard that both time-based filters start with:
    [!task.due_date || task.status === TaskStatus.COMPLETED]. *)
Definition noDueDateOrCompleted (task : ITask.t) : bool :=
  bool_decide (ITask.due_date task = None)
  || bool_decide (ITask.status task = TaskStatus.value TaskStatus.COMPLETED).

(** [getTasksDueSoon(userId, days)]; the callback of the filter reads the
    clock again for each task that is due by the cutoff. *)
Definition getTasksDueSoon (userId : Z) (days : Z) : M (list ITask.t) :=
  let! userTasks := TaskRepository.findByUserId userId in
  let! now := readClock in
  let cutoffDate := JSDate.addDays (ValidDate now) days in
  filterM (λ task,
    if noDueDateOrCompleted task then ret false
    else
      let dueDate := default InvalidDate (ITask.due_date task) in
      if JSDate.le dueDate cutoffDate then
        let! now' := readClock in
        ret (JSDate.ge dueDate (ValidDate now'))
      else ret false) userTasks.

(** [getOverdueTasks(userId)] *)
Definition getOverdueTasks (userId : Z) : M (list ITask.t) :=
  let! userTasks := TaskRepository.findByUserId userId in
  let! now := readClock in
  let today := ValidDate now in
  ret (List.filter (λ task,
    if noDueDateOrCompleted task then false
    else
      let dueDate := default InvalidDate (ITask.due_date task) in
      JSDate.lt dueDate today) userTasks).

(** [getTaskById] *)
Definition getTaskById (taskId : Z) : M (option ITask.t) :=
  TaskRepository.findById taskId.

(** [getUserTasks(userId)], without query parameters. *)
Definition getUserTasks (userId : Z) : M (list ITask.t) :=
  TaskRepository.findByUserId userId.

(** [getTasksByCategory] *)
Definition getTasksByCategory (categoryId userId : Z) : M (list ITask.t) :=
  let! tasks := TaskRepository.findByCategoryId categoryId in
  ret (List.filter (λ task, bool_decide (ITask.user_id task = userId)) tasks).

(** [getTasksByPriority] *)
Definition getTasksByPriority (priorityId userId : Z) : M (list ITask.t) :=
  let! tasks := TaskRepository.findByPriorityId priorityId in
  ret (List.filter (λ task, bool_decide (ITask.user_id task = userId)) tasks).

(** [getTasksByStatus]: the filter is [{ status: status }]. *)
Definition getTasksByStatus (userId : Z) (status : string) : M (list ITask.t) :=
  TaskRepository.findByUserIdWhere userId None None (Some status).

End TaskService.

(** ** Password rules: [utils/password.utils.ts] *)

Module PasswordUtils.

Definition inRange (lo hi : nat) (c : ascii) : bool :=
  bool_decide (lo ≤ nat_of_ascii c ≤ hi)%nat.

(** [/[A-Z]/], [/[a-z]/], [/[0-9]/] *)
Definition upper : ascii → bool := inRange 65 90.
Definition lower : ascii → bool := inRange 97 122.
Definition digit : ascii → bool := inRange 48 57.

(** The characters of the class of the last rule, by code: ! @ # $ % ^ & *
    ( ) _ + - = [ ] { } ; ' : the double quote, \ | , . < > / ? *)
Definition specialCodes : list nat :=
  [33; 64; 35; 36; 37; 94; 38; 42; 40; 41; 95; 43; 45; 61; 91; 93; 123; 125;
   59; 39; 58; 34; 92; 124; 44; 46; 60; 62; 47; 63]%nat.
Definition special (c : ascii) : bool := bool_decide (nat_of_ascii c ∈ specialCodes).

(** [validatePasswordStrength] *)
Definition validatePasswordStrength (password : string) : M bool :=
  throwIf (bool_decide (String.length password < 8)%nat)
    (ApiError.badRequest "Password must be at least 8 characters long" "PASSWORD_TOO_SHORT");;
  throwIf (negb (JSString.test upper password))
    (ApiError.badRequest "Password must contain at least one uppercase letter"
       "PASSWORD_NEEDS_UPPERCASE");;
  throwIf (negb (JSString.test lower password))
    (ApiError.badRequest "Password must contain at least one lowercase letter"
       "PASSWORD_NEEDS_LOWERCASE");;
  throwIf (negb (JSString.test digit password))
    (ApiError.badRequest "Password must contain at least one number" "PASSWORD_NEEDS_NUMBER");;
  throwIf (negb (JSString.test special password))
    (ApiError.badRequest "Password must contain at least one special character"
       "PASSWORD_NEEDS_SPECIAL");;
  ret true.

(** [validatePassword]; the check against common passwords is commented
    out in the source. *)
Definition validatePassword (password : string) : M bool :=
  validatePasswordStrength password;;
  ret true.

End PasswordUtils.

(** ** The user repository: [repositories/userRepository.ts] *)

Module UserRepository.

(** The rows that a [SELECT ... FROM users WHERE ...] returns. *)
Definition selectWhere (P : IUser.t → Prop) `{!∀ u, Decision (P u)} : M (list IUser.t) :=
  let! rows := getUsers in
  ret (filter P (map_to_list rows).*2).

(** [findById] *)
Definition findById (id : Z) : M (option IUser.t) :=
  let! rows := getUsers in
  queried (Sql.selectByKey rows id)
    (ApiError.mk "Error finding user by ID" 500 "SERVER_ERROR").

(** [findByEmail]: [result.rows[0] || null] *)
Definition findByEmail (email : string) : M (option IUser.t) :=
  let! rows := selectWhere (λ u, IUser.email u = email) in
  ret (head rows).

(** [emailExists]: [SELECT COUNT( * )] is positive *)
Definition emailExists (email : string) : M bool :=
  let! rows := selectWhere (λ u, IUser.email u = email) in
  ret (bool_decide (0 < List.length rows)%nat).

(** [usernameExists] *)
Definition usernameExists (username : string) : M bool :=
  let! rows := selectWhere (λ u, IUser.username u = username) in
  ret (bool_decide (0 < List.length rows)%nat).

(** The [SET] clauses that [update] builds: a clause for each of
    [username], [email] and [role] that is truthy, and
    [updated_at = NOW()]. *)
Definition setClauses (userData : PartialIUser.t) (now : Z) (row : IUser.t) : IUser.t :=
  IUser.mk
    (IUser.user_id row)
    (if JSString.truthy (PartialIUser.username userData)
     then default (IUser.username row) (PartialIUser.username userData)
     else IUser.username row)
    (if JSString.truthy (PartialIUser.email userData)
     then default (IUser.email row) (PartialIUser.email userData)
     else IUser.email row)
    (IUser.password_hash row)
    (if JSString.truthy (PartialIUser.role userData)
     then PartialIUser.role userData
     else IUser.role row)
    (IUser.created_at row)
    now.

(** The payload as the columns of the [UPDATE] keep it: the name, the
    address and the role in [VARCHAR(50)], [VARCHAR(100)] and
    [VARCHAR(20)].  A string that is cut stays truthy. *)
Definition kept (userData : PartialIUser.t) : option PartialIUser.t :=
  match Sql.varcharOrNone 50 (PartialIUser.username userData),
        Sql.varcharOrNone 100 (PartialIUser.email userData),
        Sql.varcharOrNone 20 (PartialIUser.role userData) with
  | Some username, Some email, Some role =>
      Some (PartialIUser.mk (PartialIUser.user_id userData) username email
              (PartialIUser.password_hash userData) (PartialIUser.created_at userData) role)
  | _, _, _ => None
  end.

(** [update]; the database rejects the [UPDATE] for a name, an address or
    a role that its column does not take, and for a name or an address
    that, as the column keeps it, another row has ([UNIQUE]). *)
Definition update (id : Z) (userData : PartialIUser.t) : M (option IUser.t) :=
  let! existingUser := findById id in
  match existingUser with
  | None => ret None
  | Some existingUser =>
      (if JSString.truthy (PartialIUser.username userData)
          && bool_decide (PartialIUser.username userData ≠ Some (IUser.username existingUser))
       then
         let! usernameExists := usernameExists (default EmptyString (PartialIUser.username userData)) in
         throwIf usernameExists
           (ApiError.badRequest "Username is already in use" "USERNAME_EXISTS")
       else ret ());;
      (if JSString.truthy (PartialIUser.email userData)
          && bool_decide (PartialIUser.email userData ≠ Some (IUser.email existingUser))
       then
         let! emailExists := emailExists (default EmptyString (PartialIUser.email userData)) in
         throwIf emailExists
           (ApiError.badRequest "Email is already in use" "EMAIL_EXISTS")
       else ret ());;
      if negb (JSString.truthy (PartialIUser.username userData))
         && negb (JSString.truthy (PartialIUser.email userData))
         && negb (JSString.truthy (PartialIUser.role userData))
      then ret (Some existingUser)
      else
        let! rows := getUsers in
        match kept userData with
        | Some stored =>
            throwIf (JSString.truthy (PartialIUser.username stored)
                     && negb (Sql.unique IUser.username rows id
                                (default EmptyString (PartialIUser.username stored)))
                     || JSString.truthy (PartialIUser.email stored)
                        && negb (Sql.unique IUser.email rows id
                                   (default EmptyString (PartialIUser.email stored))))
              (ApiError.mk "Error updating user" 500 "SERVER_ERROR");;
            let! now := readClock in
            let row' := setClauses stored now existingUser in
            modifyUsers (insert id row');;
            ret (Some row')
        | None => throw (ApiError.mk "Error updating user" 500 "SERVER_ERROR")
        end
  end.

(** [delete]; the rows of [tasks] that refer to the user go with it
    ([FOREIGN KEY (user_id) REFERENCES users(user_id) ON DELETE CASCADE]). *)
Definition delete (id : Z) : M bool :=
  let! rows := getUsers in
  let! found := queried (Sql.selectByKey rows id)
                  (ApiError.mk "Error deleting user" 500 "SERVER_ERROR") in
  match found with
  | Some _ =>
      modifyUsers (base.delete id);;
      modifyTasks (filter (λ entry, TaskRow.user_id entry.2 ≠ id));;
      ret true
  | None => ret false
  end.

(** The character class [[^\s@]] and the expression
    [/^[^\s@]+@[^\s@]+\.[^\s@]+$/] of [validateUserData]. *)
Definition notSpaceNorAt (c : ascii) : bool :=
  negb (JSString.isWhiteSpace c) && negb (bool_decide (nat_of_ascii c = 64%nat)).
Definition emailRegex : list JSString.item :=
  [JSString.Plus notSpaceNorAt;
   JSString.One (λ c, bool_decide (nat_of_ascii c = 64%nat));
   JSString.Plus notSpaceNorAt;
   JSString.One (λ c, bool_decide (nat_of_ascii c = 46%nat));
   JSString.Plus notSpaceNorAt].

(** The double quote, for the message of INVALID_ROLE. *)
Definition quote : string := String (ascii_of_nat 34) EmptyString.

(** [validateUserData] *)
Definition validateUserData (userData : IUserCreate.t) : M unit :=
  throwIf (negb (JSString.truthy (IUserCreate.username userData))
           || bool_decide (String.length (JSString.trim
                (default EmptyString (IUserCreate.username userData))) < 3)%nat)
    (ApiError.badRequest "Username must be at least 3 characters long" "INVALID_USERNAME");;
  throwIf (negb (JSString.truthy (IUserCreate.email userData))
           || negb (JSString.matches emailRegex
                (default EmptyString (IUserCreate.email userData))))
    (ApiError.badRequest "Please provide a valid email address" "INVALID_EMAIL");;
  throwIf (JSString.truthy (IUserCreate.role userData)
           && negb (JSString.includes ["user"; "admin"]
                (default EmptyString (IUserCreate.role userData))))
    (ApiError.badRequest
       ("Role must be either " +:+ quote +:+ "user" +:+ quote +:+ " or "
        +:+ quote +:+ "admin" +:+ quote)
       "INVALID_ROLE").

Section Hashing.

(** [bcrypt.hash(password, salt)] for the salt that [bcrypt.genSalt(10)]
    draws: a string of 60 characters, which its column, of type
    [VARCHAR(255)], takes. *)
Variable bcrypt_hash : string → string.

(** The key that the sequence behind [user_id SERIAL] yields for an
    [INSERT]. *)
Variable users_user_id_seq : Z.

(** [create].  The [INSERT] fails, with an error that the [catch] block
    replaces, when the password is missing (the rules read its length),
    when the name or the address is one that its column ([VARCHAR(50)],
    [VARCHAR(100)]) does not take, when the sequence has left the type of
    the key or the key is taken, and when a row has the name or the
    address as the column keeps it ([UNIQUE]).  The role is user or
    admin, which its column takes. *)
Definition create (userData : IUserCreate.t) : M IUser.t :=
  validateUserData userData;;
  let! emailExists := emailExists (default EmptyString (IUserCreate.email userData)) in
  throwIf emailExists (ApiError.badRequest "Email is already in use" "EMAIL_EXISTS");;
  let! usernameExists :=
    usernameExists (default EmptyString (IUserCreate.username userData)) in
  throwIf usernameExists (ApiError.badRequest "Username is already in use" "USERNAME_EXISTS");;
  match IUserCreate.username userData, IUserCreate.email userData,
        IUserCreate.password userData with
  | Some username, Some email, Some password =>
      PasswordUtils.validatePassword password;;
      let password_hash := bcrypt_hash password in
      let! rows := getUsers in
      match Sql.varchar 50 username, Sql.varchar 100 email with
      | Some name, Some address =>
          throwIf (negb (Sql.isInt users_user_id_seq)
                   || bool_decide (is_Some (rows !! users_user_id_seq))
                   || negb (Sql.unique IUser.username rows users_user_id_seq name)
                   || negb (Sql.unique IUser.email rows users_user_id_seq address))
            (ApiError.mk "Error creating user" 500 "SERVER_ERROR");;
          let! now := readClock in
          let row :=
            IUser.mk users_user_id_seq name address password_hash
              (if JSString.truthy (IUserCreate.role userData)
               then IUserCreate.role userData else Some "user")
              now now in
          modifyUsers (insert users_user_id_seq row);;
          ret row
      | _, _ => throw (ApiError.mk "Error creating user" 500 "SERVER_ERROR")
      end
  | _, _, _ => throw (ApiError.mk "Error creating user" 500 "SERVER_ERROR")
  end.

(** [changePassword] *)
Definition changePassword (userId : Z) (newPassword : string) : M bool :=
  PasswordUtils.validatePassword newPassword;;
  let password_hash := bcrypt_hash newPassword in
  let! rows := getUsers in
  let! found := queried (Sql.selectByKey rows userId)
                  (ApiError.mk "Error changing password" 500 "SERVER_ERROR") in
  let! now := readClock in
  match found with
  | Some row =>
      modifyUsers (insert userId
        (IUser.mk (IUser.user_id row) (IUser.username row) (IUser.email row)
           password_hash (IUser.role row) (IUser.created_at row) now));;
      ret true
  | None => ret false
  end.

End Hashing.

End UserRepository.

(** ** The user service: [services/user.service.ts] *)

Module UserService.

(** What [login] returns. *)
Record Session := mkSession {
  user : SafeUser.t;
  accessToken : string;
  refreshToken : string
}.

Section Collaborators.

(** [bcrypt.compare(password, hash)] *)
Variable bcrypt_compare : string → string → bool.
Variable bcrypt_hash : string → string.
(** [generateTokens] of [utils/jwt.utils.ts]: the access and the refresh
    token. *)
Variable generateTokens : IUserTokenPayload.t → string * string.

(** [login] *)
Definition login (email password : string) : M Session :=
  let! user := UserRepository.findByEmail email in
  match user with
  | None => throw (ApiError.unauthorized "Invalid credentials" "INVALID_CREDENTIALS")
  | Some user =>
      let isMatch := bcrypt_compare password (IUser.password_hash user) in
      throwIf (negb isMatch)
        (ApiError.unauthorized "Invalid credentials" "INVALID_CREDENTIALS");;
      let tokens := generateTokens
        (IUserTokenPayload.mk (IUser.user_id user) (IUser.username user)
           (IUser.email user) (IUser.role user)) in
      ret (mkSession (SafeUser.of_user user) tokens.1 tokens.2)
  end.

(** [updateUser(userId, userData, currentUserId, isAdmin)] *)
Definition updateUser (userId : Z) (userData : PartialIUser.t) (currentUserId : Z)
    (isAdmin : bool) : M (option SafeUser.t) :=
  let! existingUser := UserRepository.findById userId in
  match existingUser with
  | None => ret None
  | Some existingUser =>
      throwIf (bool_decide (userId ≠ currentUserId) && negb isAdmin)
        (ApiError.forbidden "You are not authorized to update this profile" "FORBIDDEN");;
      (if JSString.truthy (PartialIUser.email userData)
          && bool_decide (PartialIUser.email userData ≠ Some (IUser.email existingUser))
       then
         let! emailExists := UserRepository.emailExists (default EmptyString (PartialIUser.email userData)) in
         throwIf emailExists
           (ApiError.badRequest "Email is already in use" "EMAIL_EXISTS")
       else ret ());;
      (if JSString.truthy (PartialIUser.username userData)
          && bool_decide (PartialIUser.username userData ≠ Some (IUser.username existingUser))
       then
         let! usernameExists := UserRepository.usernameExists (default EmptyString (PartialIUser.username userData)) in
         throwIf usernameExists
           (ApiError.badRequest "Username is already in use" "USERNAME_EXISTS")
       else ret ());;
      let userData :=
        if JSString.truthy (PartialIUser.role userData) && negb isAdmin
        then PartialIUser.delete_role userData
        else userData in
      let! updatedUser := UserRepository.update userId userData in
      ret (SafeUser.of_user <$> updatedUser)
  end.

(** [changePassword(userId, currentPassword, newPassword)] *)
Definition changePassword (userId : Z) (currentPassword newPassword : string) : M bool :=
  let! user := UserRepository.findById userId in
  match user with
  | None => throw (ApiError.notFound "User not found" "USER_NOT_FOUND")
  | Some user =>
      let isMatch := bcrypt_compare currentPassword (IUser.password_hash user) in
      throwIf (negb isMatch)
        (ApiError.badRequest "Current password is incorrect" "INVALID_CURRENT_PASSWORD");;
      PasswordUtils.validatePassword newPassword;;
      throwIf (bool_decide (currentPassword = newPassword))
        (ApiError.badRequest "New password must be different from current password"
           "PASSWORD_SAME");;
      UserRepository.changePassword bcrypt_hash userId newPassword
  end.

(** [jwt.utils]'s [verifyToken(token, isRefreshToken)]: the payload of a
    token that verifies, else null. *)
Variable verifyToken : string → bool → option IUserTokenPayload.t.
Variable users_user_id_seq : Z.

(** [register] *)
Definition register (userData : IUserCreate.t) : M Session :=
  throwIf (negb (JSString.truthy (IUserCreate.email userData))
           || negb (JSString.truthy (IUserCreate.username userData))
           || negb (JSString.truthy (IUserCreate.password userData)))
    (ApiError.badRequest "Email, username and password are required"
       "MISSING_REQUIRED_FIELDS");;
  let! emailExists :=
    UserRepository.emailExists (default EmptyString (IUserCreate.email userData)) in
  throwIf emailExists (ApiError.badRequest "Email is already in use" "EMAIL_EXISTS");;
  let! usernameExists :=
    UserRepository.usernameExists (default EmptyString (IUserCreate.username userData)) in
  throwIf usernameExists (ApiError.badRequest "Username is already in use" "USERNAME_EXISTS");;
  PasswordUtils.validatePassword (default EmptyString (IUserCreate.password userData));;
  let! newUser := UserRepository.create bcrypt_hash users_user_id_seq userData in
  let tokens := generateTokens
    (IUserTokenPayload.mk (IUser.user_id newUser) (IUser.username newUser)
       (IUser.email newUser) (IUser.role newUser)) in
  ret (mkSession (SafeUser.of_user newUser) tokens.1 tokens.2).

(** [deleteUser(userId, currentUserId, isAdmin)] *)
Definition deleteUser (userId currentUserId : Z) (isAdmin : bool) : M bool :=
  let! existingUser := UserRepository.findById userId in
  match existingUser with
  | None => ret false
  | Some _ =>
      throwIf (bool_decide (userId ≠ currentUserId) && negb isAdmin)
        (ApiError.forbidden "You are not authorized to delete this account" "FORBIDDEN");;
      UserRepository.delete userId
  end.

(** [resetPassword(resetToken, newPassword)] *)
Definition resetPassword (resetToken newPassword : string) : M bool :=
  PasswordUtils.validatePassword newPassword;;
  ret true.

(** [refreshAccessToken(refreshToken)]; its [catch] block replaces every
    error. *)
Definition refreshAccessToken (refreshToken : string) : M (option string) :=
  catchAll
    (match verifyToken refreshToken true with
     | None => ret None
     | Some payload =>
         let! user := UserRepository.findById (IUserTokenPayload.id payload) in
         match user with
         | None => ret None
         | Some user =>
             let tokens := generateTokens
               (IUserTokenPayload.mk (IUser.user_id user) (IUser.username user)
                  (IUser.email user) (IUser.role user)) in
             ret (Some tokens.1)
         end
     end)
    (ApiError.mk "Error refreshing access token" 500 "SERVER_ERROR").

End Collaborators.

End UserService.

(** ** The user model: [models/user.model.ts] *)

Module User.

(** [User.update]: the update of the repository, without the hash. *)
Definition update (id : Z) (userData : PartialIUser.t) : M (option SafeUser.t) :=
  let! updatedUser := UserRepository.update id userData in
  ret (SafeUser.of_user <$> updatedUser).

End User.

(** ** Controllers: [controllers/task.controller.ts],
    [controllers/user.controller.ts]

    A handler ends by sending a JSON response with a status, or by handing
    an error to [next]. *)

Inductive Reply (A : Type) : Type :=
  | Json (status : Z) (data : A)
  | Next (e : ApiError.t).
Arguments Json {A} status data.
Arguments Next {A} e.

(** [try { ... } catch (error) { next(error) }] *)
Definition catchNext {A} (handler : M (Reply A)) : M (Reply A) :=
  λ w, match handler w with
       | (Ok reply, w') => (Ok reply, w')
       | (Throw e, w') => (Ok (Next e), w')
       end.

Module TaskController.

(** [getTaskById]; [user] is [req.user] and [taskId] is
    [parseInt(req.params.id)], for an id that parses to a number. *)
Definition getTaskById (user : option IUserTokenPayload.t) (taskId : Z)
    : M (Reply ITask.t) :=
  catchNext (
    match user with
    | Some user =>
        if bool_decide (IUserTokenPayload.id user = 0) then
          ret (Next (ApiError.unauthorized "Not authorized" "NOT_AUTHORIZED"))
        else
          let! task := TaskService.getTaskById taskId in
          match task with
          | None => ret (Next (ApiError.notFound "Task not found" "TASK_NOT_FOUND"))
          | Some task =>
              if bool_decide (ITask.user_id task ≠ IUserTokenPayload.id user)
                 && bool_decide (IUserTokenPayload.role user ≠ Some "admin")
              then ret (Next (ApiError.forbidden "Not authorized to access this task"
                                "FORBIDDEN"))
              else ret (Json 200 task)
          end
    | None => ret (Next (ApiError.unauthorized "Not authorized" "NOT_AUTHORIZED"))
    end).

End TaskController.

Module UserController.

(** [updateUser]; [user] is [req.user], [userId] is
    [parseInt(req.params.id)], for an id that parses to a number, and
    [body] is [req.body]. *)
Definition updateUser (user : option IUserTokenPayload.t) (userId : Z)
    (body : PartialIUser.t) : M (Reply SafeUser.t) :=
  catchNext (
    if match user with
       | None => true
       | Some user =>
           bool_decide (IUserTokenPayload.id user ≠ userId)
           && bool_decide (IUserTokenPayload.role user ≠ Some "admin")
       end
    then ret (Next (ApiError.forbidden "You are not authorized to update this profile"
                      "FORBIDDEN"))
    else
      let! updatedUser := User.update userId body in
      match updatedUser with
      | None => ret (Next (ApiError.notFound "User not found" "USER_NOT_FOUND"))
      | Some updatedUser => ret (Json 200 updatedUser)
      end).

End UserController.

(** ** Vocabulary of the statements *)

(** The errors that the statements name. *)
Definition forbiddenTask : ApiError.t :=
  ApiError.forbidden "Not authorized to perform this action on this task" "FORBIDDEN".
Definition dueDateInPast : ApiError.t :=
  ApiError.badRequest "Due date cannot be in the past" "INVALID_DUE_DATE".
Definition invalidDueDateFormat : ApiError.t :=
  ApiError.badRequest "Invalid due date format" "INVALID_DUE_DATE".
Definition invalidCredentials : ApiError.t :=
  ApiError.unauthorized "Invalid credentials" "INVALID_CREDENTIALS".
Definition passwordSame : ApiError.t :=
  ApiError.badRequest "New password must be different from current password" "PASSWORD_SAME".

(** The errors that the [catch] blocks of the lookups by key make of a
    query that the database rejects. *)
Definition findTaskFailed : ApiError.t :=
  ApiError.mk "Error finding task by ID" 500 "SERVER_ERROR".
Definition findUserFailed : ApiError.t :=
  ApiError.mk "Error finding user by ID" 500 "SERVER_ERROR".

(** The error that the [catch] block of [refreshAccessToken] makes of every
    error. *)
Definition refreshFailed : ApiError.t :=
  ApiError.mk "Error refreshing access token" 500 "SERVER_ERROR".

(** A call fails with the error code [code]. *)
Definition failsWith {A} (code : string) (out : result A * World) : Prop :=
  ∃ e, out.1 = Throw e ∧ ApiError.code e = code.

(** A title that passes the checks of the validators: not blank and of at
    most 100 characters. *)
Definition validTitle (title : string) : Prop :=
  JSString.trim title ≠ EmptyString ∧ (String.length title ≤ 100)%nat.

(** A payload that [Task.validateCreate] accepts: an owner that is present
    and not zero, a valid title, and no due date or a valid one. *)
Definition validCreate (data : ITaskCreate.t) : Prop :=
  truthyNumber (ITaskCreate.user_id data) = true ∧
  (∃ title, ITaskCreate.title data = Some title ∧ validTitle title) ∧
  ITaskCreate.due_date data ≠ Some InvalidDate.

(** A payload that [Task.validateUpdate] accepts: some field is present,
    the title, if present, is valid, the due date, if present, is a valid
    date, and the status, if present and not empty, is a member of the
    enum. *)
Definition validUpdate (data : ITaskUpdate.t) : Prop :=
  ITaskUpdate.keys data ≠ [] ∧
  (∀ title, ITaskUpdate.title data = Some title → validTitle title) ∧
  ITaskUpdate.due_date data ≠ Some InvalidDate ∧
  (∀ status, ITaskUpdate.status data = Some status →
     status = EmptyString ∨ status ∈ TaskStatus.values).

(** The database accepts a new row of [tasks] for this owner, category and
    priority: they are values of [INT], null or not, the sequence yields
    a key of that type that no row has, the owner is a user, and the
    category and the priority are null or rows of their tables. *)
Definition insertable (user_id : Z) (category_id priority_id : option Z) (w : World) : Prop :=
  Sql.isInt user_id = true ∧
  Sql.isIntOrNull category_id = true ∧
  Sql.isIntOrNull priority_id = true ∧
  Sql.isInt (tasks_task_id_seq w) = true ∧
  tasks w !! tasks_task_id_seq w = None ∧
  is_Some (users w !! user_id) ∧
  Sql.refers (categories w) category_id = true ∧
  Sql.refers (priorities w) priority_id = true.

(** The category and the priority of a payload are absent or rows of
    their tables. *)
Definition referable (data : ITaskUpdate.t) (w : World) : Prop :=
  Sql.refers (categories w) (ITaskUpdate.category_id data) = true ∧
  Sql.refers (priorities w) (ITaskUpdate.priority_id data) = true.

(** Every row of the table [tasks] has a status of the enum. *)
Definition statusesValid (w : World) : Prop :=
  ∀ id row, tasks w !! id = Some row → TaskRow.status row ∈ TaskStatus.values.

(** A character of the class occurs in the string. *)
Definition hasChar (class : ascii → bool) (s : string) : Prop :=
  ∃ c, c ∈ list_ascii_of_string s ∧ class c = true.

(** A password that passes the five rules. *)
Definition strongPassword (password : string) : Prop :=
  (8 ≤ String.length password)%nat ∧
  hasChar PasswordUtils.upper password ∧
  hasChar PasswordUtils.lower password ∧
  hasChar PasswordUtils.digit password ∧
  hasChar PasswordUtils.special password.

(** The database accepts a profile update with this payload for the user
    of the key [userId]: a name of the payload that is not empty is the
    name of no other row, and so for the address; and the name, the
    address and the role of the payload are not longer than their
    columns. *)
Definition updatable (userData : PartialIUser.t) (userId : Z) (w : World) : Prop :=
  (∀ name, PartialIUser.username userData = Some name → name ≠ EmptyString →
     ∀ id other, users w !! id = Some other → id ≠ userId →
       IUser.username other ≠ name) ∧
  (∀ email, PartialIUser.email userData = Some email → email ≠ EmptyString →
     ∀ id other, users w !! id = Some other → id ≠ userId →
       IUser.email other ≠ email) ∧
  (String.length (default EmptyString (PartialIUser.username userData)) ≤ 50)%nat ∧
  (String.length (default EmptyString (PartialIUser.email userData)) ≤ 100)%nat ∧
  (String.length (default EmptyString (PartialIUser.role userData)) ≤ 20)%nat.

(** The value of a column after an update that writes the supplied string
    when it is truthy. *)
Definition written (supplied : option string) (old : string) : string :=
  if JSString.truthy supplied then default old supplied else old.

(** The day of the instant [t] starts, in local time, at an instant of the
    range of [Date]: [setHours(0, 0, 0, 0)] yields a valid date for it.
    Of the instants of the range, only some of its first day fail this. *)
Definition dayInRange (tz t : Z) : Prop :=
  - JSDate.maxTime ≤ JSDate.localDay tz t * msPerDay - tz.

(** The world after one reading of the clock. *)
Definition tick (w : World) : World :=
  mkWorld (tasks w) (tasks_task_id_seq w) (users w) (clock w) (S (ticks w)) (tzOffset w)
    (categories w) (priorities w).

(** [row] is a row of the table [tasks]. *)
Definition inTasks (row : TaskRow.t) (w : World) : Prop :=
  ∃ id, tasks w !! id = Some row.

(** The clock stands still at [now] for the length of a call. *)
Definition clockAt (now : Z) (w : World) : Prop :=
  ∀ i, clock w i = now.

(** The test that [getTasksDueSoon] applies to a task when every reading
    of the clock is [now]. *)
Definition dueSoonAt (now days : Z) (task : ITask.t) : bool :=
  negb (TaskService.noDueDateOrCompleted task)
  && JSDate.le (default InvalidDate (ITask.due_date task))
       (JSDate.addDays (ValidDate now) days)
  && JSDate.ge (default InvalidDate (ITask.due_date task)) (ValidDate now).

(** The test that [getOverdueTasks] applies to a task at the reading
    [now]. *)
Definition overdueAt (now : Z) (task : ITask.t) : bool :=
  negb (TaskService.noDueDateOrCompleted task)
  && JSDate.lt (default InvalidDate (ITask.due_date task)) (ValidDate now).

(** ** Example data

    A host at UTC+7 on 2025-07-07, 14:00 local time, two users, a few
    tasks of theirs, and three categories and priorities. *)

Module Fixture.

Definition tz : Z := 7 * 3600000.
Definition now : Z := 1751871600000.
(** Midnight, local time, of the day of [now]: the due dates of the rows
    are days. *)
Definition today : Z := Sql.date tz now.

Definition task (task_id user_id : Z) (title : string) (due_date : option Z)
    (status : TaskStatus.t) : TaskRow.t :=
  TaskRow.mk task_id user_id None None title None due_date (TaskStatus.value status)
    (now - 10 * msPerDay) (now - 10 * msPerDay).

Definition report : TaskRow.t :=
  task 1 1 "Complete project report" (Some (today + 1 * msPerDay)) TaskStatus.PENDING.
Definition review : TaskRow.t :=
  task 2 1 "Review code" (Some (today + 5 * msPerDay)) TaskStatus.CANCELLED.
Definition slides : TaskRow.t :=
  task 3 1 "Prepare slides" (Some (today + 14 * msPerDay)) TaskStatus.PENDING.
Definition invoice : TaskRow.t :=
  task 4 1 "Send invoice" (Some (today + 1 * msPerDay)) TaskStatus.COMPLETED.
Definition backup : TaskRow.t :=
  task 5 1 "Check backup" (Some (today - 1 * msPerDay)) TaskStatus.IN_PROGRESS.
Definition groceries : TaskRow.t :=
  task 6 2 "Buy groceries" (Some (today - 7 * msPerDay)) TaskStatus.PENDING.

(** A toy password hash, and the comparison that goes with it. *)
Definition bcrypt_hash (password : string) : string := "hash:" +:+ password.
Definition bcrypt_compare (password hash : string) : bool :=
  bool_decide (hash = bcrypt_hash password).
Definition generateTokens (payload : IUserTokenPayload.t) : string * string :=
  ("access:" +:+ IUserTokenPayload.username payload,
   "refresh:" +:+ IUserTokenPayload.username payload).

Definition alice : IUser.t :=
  IUser.mk 1 "alice" "alice@example.com" (bcrypt_hash "Valid123!") (Some "user")
    (now - 30 * msPerDay) (now - 30 * msPerDay).
(** An account whose password predates the password rules. *)
Definition bob : IUser.t :=
  IUser.mk 2 "bob" "bob@example.com" (bcrypt_hash "weak") (Some "user")
    (now - 300 * msPerDay) (now - 300 * msPerDay).

Definition world : World :=
  mkWorld
    (list_to_map [(1, report); (2, review); (3, slides); (4, invoice); (5, backup); (6, groceries)])
    7
    (list_to_map [(1, alice); (2, bob)])
    (λ _, now)
    0
    tz
    {[1; 2; 3]}
    {[1; 2; 3]}.

Definition newTask (due_date : option Date) : ITaskCreate.t :=
  ITaskCreate.mk (Some 1) (Some "Water the plants") None None None due_date (Some "completed").

Definition changes (due_date : option Date) : ITaskUpdate.t :=
  ITaskUpdate.mk (Some "Complete the project report") None None None due_date None.

(** [world] after [n] readings of the clock. *)
Definition after (n : nat) : World :=
  mkWorld (tasks world) 7 (users world) (clock world) n tz (categories world)
    (priorities world).

(** The row that creating [newTask] inserts into [world] when the due date
    passes the check, and the world after it. *)
Definition newRow (due_date : Z) : TaskRow.t :=
  TaskRow.mk 7 1 None None "Water the plants" None (Some (Sql.date tz due_date)) "pending"
    now now.

Definition worldWith (row : TaskRow.t) : World :=
  mkWorld (<[7 := row]> (tasks world)) 8 (users world) (clock world) 2 tz
    (categories world) (priorities world).

(** Payloads whose due date is an invalid date. *)
Definition undated : ITaskCreate.t :=
  ITaskCreate.mk (Some 1) (Some "Water the plants") None None None (Some InvalidDate) None.
Definition untitled : ITaskCreate.t :=
  ITaskCreate.mk (Some 1) (Some "   ") None None None (Some InvalidDate) None.
Definition redated : ITaskUpdate.t :=
  ITaskUpdate.mk None (Some "Before the holidays") None None (Some InvalidDate) None.
Definition retitled : ITaskUpdate.t :=
  ITaskUpdate.mk (Some "   ") None None None (Some InvalidDate) None.

(** A profile update that asks for everything. *)
Definition promotion : PartialIUser.t :=
  PartialIUser.mk None (Some "alice2") None (Some "hash:Chosen123!") None (Some "admin").

(** A registration, the row that it stores in [world] when the sequence is
    at 3, the world after it and the session that it returns. *)
Definition carol : IUserCreate.t :=
  IUserCreate.mk (Some "carol") (Some "carol@example.com") (Some "Chosen123!") None.
Definition carolRow : IUser.t :=
  IUser.mk 3 "carol" "carol@example.com" (bcrypt_hash "Chosen123!") (Some "user") now now.
Definition registered : World :=
  mkWorld (tasks world) 7 (<[3 := carolRow]> (users world)) (clock world) 1 tz
    (categories world) (priorities world).
Definition carolSession : UserService.Session :=
  UserService.mkSession (SafeUser.of_user carolRow) "access:carol" "refresh:carol".

End Fixture.

(** ** Running a computation *)

Ltac run :=
  unfold bind, ret, throw, throwIf, queried, getTasks, getUsers, getTz, getCategories,
    getPriorities, modifyTasks, modifyUsers, readClock;
  simpl.

(** Steps of a sequence, leaving the functions of the program folded. *)
Ltac step :=
  cbn [bind ret throw throwIf queried getTasks getUsers getTz getCategories getPriorities
       modifyTasks modifyUsers readClock fst snd fmap option_fmap option_map negb andb orb
       default from_option id] in *.

(** One step of a sequence. *)
Lemma bind_eq {A B} (m : M A) (k : A → M B) w :
  bind m k w =
  match m w with
  | (Ok a, w') => k a w'
  | (Throw e, w') => (Throw e, w')
  end.
Proof. reflexivity. Qed.


(** The outcome of a lookup by key: the row of the key; for a key without
    a row, no row when the key is a value of [INT], and else the error
    that the [catch] block makes of the rejection. *)
Lemma findById_run id w :
  TaskRepository.findById id w
  = (match tasks w !! id with
     | Some row => Ok (Some (Task.fromDatabaseRow row))
     | None =>
         if Sql.isInt id then Ok None
         else Throw (ApiError.mk "Error finding task by ID" 500 "SERVER_ERROR")
     end, w).
Proof.
  unfold TaskRepository.findById, Sql.selectByKey. rewrite !bind_eq. cbn.
  destruct (tasks w !! id); [done|]. by destruct (Sql.isInt id).
Qed.

Lemma findUserById_run id w :
  UserRepository.findById id w
  = (match users w !! id with
     | Some row => Ok (Some row)
     | None =>
         if Sql.isInt id then Ok None
         else Throw (ApiError.mk "Error finding user by ID" 500 "SERVER_ERROR")
     end, w).
Proof.
  unfold UserRepository.findById, Sql.selectByKey. rewrite !bind_eq. cbn.
  destruct (users w !! id); [done|]. by destruct (Sql.isInt id).
Qed.

(** ** Strings in columns of type [VARCHAR(n)] *)

Lemma take_drop n s : Sql.take n s +:+ Sql.drop n s = s.
Proof.
  revert s. induction n as [|n IH]; intros [|c s]; [done..|].
  change (String c (Sql.take n s +:+ Sql.drop n s) = String c s). by rewrite IH.
Qed.

Lemma take_fits n s : (String.length s ≤ n)%nat → Sql.take n s = s.
Proof.
  revert s. induction n as [|n IH]; intros [|c s]; cbn; [done|lia|done|].
  intros Hlen. rewrite IH; [done|lia].
Qed.

Lemma drop_fits n s : (String.length s ≤ n)%nat → Sql.drop n s = EmptyString.
Proof.
  revert s. induction n as [|n IH]; intros [|c s]; cbn; [done|lia|done|].
  intros Hlen. apply IH. lia.
Qed.

(** A column keeps a string that is not longer than the column as it
    is. *)
Lemma varchar_fits n s : (String.length s ≤ n)%nat → Sql.varchar n s = Some s.
Proof.
  intros Hlen. unfold Sql.varchar. by rewrite drop_fits, take_fits.
Qed.

Lemma varcharOrNone_fits n s :
  (String.length (default EmptyString s) ≤ n)%nat → Sql.varcharOrNone n s = Some s.
Proof.
  destruct s as [s|]; [|done]. intros Hlen. cbn. by rewrite varchar_fits.
Qed.

(** What a column keeps of a string that it takes is the first characters
    of the string. *)
Lemma varchar_take n s kept : Sql.varchar n s = Some kept → kept = Sql.take n s.
Proof. unfold Sql.varchar. destruct (Sql.onlySpaces _); congruence. Qed.

Lemma varcharOrNone_take n s kept :
  Sql.varcharOrNone n s = Some kept → kept = Sql.take n <$> s.
Proof.
  destruct s as [s|]; cbn; [|congruence].
  destruct (Sql.varchar n s) as [s'|] eqn:Hs; cbn; [|done].
  intros [= <-]. by rewrite (varchar_take _ _ _ Hs).
Qed.

(** A string that is cut to one character or more is as truthy as it
    was. *)
Lemma truthy_take n s :
  JSString.truthy (Sql.take (S n) <$> s) = JSString.truthy s.
Proof. by destruct s as [[|c s]|]. Qed.

Lemma unique_spec {V} (column : V → string) (table : gmap Z V) id value :
  Sql.unique column table id value = true ↔
  ∀ key row, table !! key = Some row → key ≠ id → column row ≠ value.
Proof. unfold Sql.unique. by rewrite bool_decide_eq_true. Qed.
(** * Task service *)

(** C1.  On an existing task that the caller does not own, [updateTask],
    [deleteTask] and [changeTaskStatus] throw the 403 error with code
    FORBIDDEN and leave the world as it was: none of them succeeds, none
    returns null.  The service is never told the role of the caller (each
    call of [authorizeTaskOperation] keeps [isAdmin = false]), so this
    holds for every caller who is not the owner, whatever their role. *)
Theorem not_owner_forbidden w taskId taskData status callerId row :
  tasks w !! taskId = Some row →
  TaskRow.user_id row ≠ callerId →
  TaskService.updateTask taskId taskData callerId w = (Throw forbiddenTask, w) ∧
  TaskService.deleteTask taskId callerId w = (Throw forbiddenTask, w) ∧
  TaskService.changeTaskStatus taskId status callerId w = (Throw forbiddenTask, w) ∧
  ApiError.code forbiddenTask = "FORBIDDEN".
Proof.
  intros Hrow Hne.
  unfold TaskService.updateTask, TaskService.deleteTask, TaskService.changeTaskStatus,
    TaskRepository.findById, TaskService.authorizeTaskOperation, Sql.selectByKey.
  run. rewrite Hrow. simpl. rewrite bool_decide_true by done. simpl. done.
Qed.

Lemma not_owner_forbidden_witness :
  TaskService.updateTask 1 (Fixture.changes None) 2 Fixture.world
    = (Throw forbiddenTask, Fixture.world) ∧
  TaskService.deleteTask 1 2 Fixture.world = (Throw forbiddenTask, Fixture.world) ∧
  TaskService.changeTaskStatus 1 "completed" 2 Fixture.world
    = (Throw forbiddenTask, Fixture.world) ∧
  ApiError.code forbiddenTask = "FORBIDDEN".
Proof.
  apply (not_owner_forbidden Fixture.world 1 (Fixture.changes None) "completed" 2
           Fixture.report).
  - reflexivity.
  - simpl. lia.
Defined.

(** An [INSERT] that succeeds stores the row under the key of the
    sequence, which was free, for an owner that exists, a category and a
    priority that are null or exist, and steps the sequence and the
    clock. *)
Lemma insertRow_ok row w r w' :
  TaskRepository.insertRow row w = (Ok r, w') →
  r = row (tasks_task_id_seq w) (clock w (ticks w)) ∧
  w' = mkWorld (<[tasks_task_id_seq w := r]> (tasks w)) (tasks_task_id_seq w + 1)
         (users w) (clock w) (S (ticks w)) (tzOffset w) (categories w) (priorities w) ∧
  Sql.isInt (tasks_task_id_seq w) = true ∧
  tasks w !! tasks_task_id_seq w = None ∧
  is_Some (users w !! TaskRow.user_id r) ∧
  Sql.refers (categories w) (TaskRow.category_id r) = true ∧
  Sql.refers (priorities w) (TaskRow.priority_id r) = true.
Proof.
  unfold TaskRepository.insertRow.
  destruct (negb _) eqn:Hbound; [done|].
  destruct (_ || _) eqn:Hbroken; [done|].
  intros [= <- <-].
  apply negb_false_iff in Hbound. rewrite !andb_true_iff in Hbound.
  rewrite !orb_false_iff, !negb_false_iff in Hbroken.
  destruct Hbound as [_ Hseq]. destruct Hbroken as [[[Hkey Howner] Hcategory] Hpriority].
  apply bool_decide_eq_false in Hkey. apply bool_decide_eq_true in Howner.
  split_and!; try done. by apply eq_None_not_Some.
Qed.

(** The [INSERT] of a row that the database accepts succeeds. *)
Lemma insertRow_accepts row w :
  let r := row (tasks_task_id_seq w) (clock w (ticks w)) in
  insertable (TaskRow.user_id r) (TaskRow.category_id r) (TaskRow.priority_id r) w →
  TaskRepository.insertRow row w
  = (Ok r,
     mkWorld (<[tasks_task_id_seq w := r]> (tasks w)) (tasks_task_id_seq w + 1)
       (users w) (clock w) (S (ticks w)) (tzOffset w) (categories w) (priorities w)).
Proof.
  intros r (Howner & Hcategory & Hpriority & Hseq & Hkey & Huser & Hcat & Hprio).
  unfold TaskRepository.insertRow. fold r.
  rewrite Howner, Hcategory, Hpriority, Hseq, Hkey, Hcat, Hprio.
  rewrite bool_decide_false by (by intros [? ?]).
  by rewrite bool_decide_true.
Qed.

(** An [INSERT] that the database rejects leaves the rows, the users and
    the clock as they were. *)
Lemma insertRow_throw row w e w' :
  TaskRepository.insertRow row w = (Throw e, w') →
  tasks w' = tasks w ∧ users w' = users w ∧ ticks w' = ticks w ∧ clock w' = clock w ∧
  tzOffset w' = tzOffset w ∧ e = ApiError.mk "Error creating task" 500 "SERVER_ERROR".
Proof.
  unfold TaskRepository.insertRow.
  destruct (negb _); [by intros [= <- <-]|].
  destruct (_ || _); [by intros [= <- <-]|done].
Qed.

(** The task that [TaskRepository.create] returns is the row it inserted,
    and that row has the status PENDING. *)
Lemma create_inserts_pending data w task w' :
  TaskRepository.create data w = (Ok task, w') →
  ∃ row, tasks w' !! ITask.task_id task = Some row ∧
         task = Task.fromDatabaseRow row ∧
         TaskRow.status row = TaskStatus.value TaskStatus.PENDING.
Proof.
  unfold TaskRepository.create. rewrite bind_eq.
  destruct (Task.validateCreate data w) as [[[]|e] w0]; [|done]. step.
  destruct (ITaskCreate.user_id data); [|done].
  destruct (ITaskCreate.title data); [|done].
  destruct (TaskRepository.sqlDate _ _); [|done].
  rewrite bind_eq.
  destruct (TaskRepository.insertRow _ w0) as [[r|e] w1] eqn:Hinsert; [|done].
  apply insertRow_ok in Hinsert as (-> & -> & _).
  intros [= <- <-]. cbn. eexists. by rewrite lookup_insert_eq.
Qed.

(** C2.  A task that [createTask] returns has the status pending, and so
    has the row stored under its key, whatever status the payload
    carries. *)
Theorem createTask_status_pending taskData w task w' :
  TaskService.createTask taskData w = (Ok task, w') →
  ITask.status task = "pending" ∧
  ∃ row, tasks w' !! ITask.task_id task = Some row ∧
         task = Task.fromDatabaseRow row ∧
         TaskRow.status row = "pending".
Proof.
  unfold TaskService.createTask. unfold bind at 1.
  destruct (_ w) as [[[]|e] w1] eqn:Hcheck; [|done].
  intros (row & Hrow & -> & Hstatus)%create_inserts_pending.
  split; [exact Hstatus|]. by exists row.
Qed.

Lemma createTask_status_pending_witness :
  let taskData := Fixture.newTask (Some (ValidDate Fixture.now)) in
  let task := Task.fromDatabaseRow (Fixture.newRow Fixture.now) in
  let w' := Fixture.worldWith (Fixture.newRow Fixture.now) in
  ITaskCreate.status taskData = Some "completed" ∧
  TaskService.createTask taskData Fixture.world = (Ok task, w') ∧
  ITask.status task = "pending" ∧
  ∃ row, tasks w' !! ITask.task_id task = Some row ∧
         task = Task.fromDatabaseRow row ∧
         TaskRow.status row = "pending".
Proof.
  intros taskData task w'.
  assert (Hrun : TaskService.createTask taskData Fixture.world = (Ok task, w'))
    by (vm_compute; reflexivity).
  split; [reflexivity|]. split; [exact Hrun|].
  exact (createTask_status_pending taskData Fixture.world task w' Hrun).
Defined.

(** * Due dates and titles *)

Lemma length_zero_iff (s : string) : String.length s = 0%nat ↔ s = EmptyString.
Proof. by destruct s. Qed.

(** The blank-title check of [validateCreate] fires exactly on the titles
    that trim to the empty string. *)
Lemma blank_title_check title :
  negb (JSString.truthy (Some title))
  || bool_decide (String.length (JSString.trim title) = 0%nat)
  = bool_decide (JSString.trim title = EmptyString).
Proof.
  unfold JSString.truthy. destruct title as [|c title]; [done|].
  rewrite bool_decide_false by done. cbn [negb orb].
  apply bool_decide_ext, length_zero_iff.
Qed.

(** Midnight of one day is before midnight of another exactly when the
    first day is the earlier one. *)
Lemma setHours0_lt tz a b :
  JSDate.lt (JSDate.setHours0 tz (ValidDate a)) (JSDate.setHours0 tz (ValidDate b))
  = bool_decide (JSDate.localDay tz a < JSDate.localDay tz b).
Proof.
  simpl. apply bool_decide_ext. unfold msPerDay. lia.
Qed.

(** [validateDueDate] reads the clock once and throws exactly when the
    local day of the due date is before the local day of the reading. *)
Lemma validateDueDate_valid w d :
  TaskService.validateDueDate (Some (ValidDate d)) w =
  (if bool_decide (JSDate.localDay (tzOffset w) d
                   < JSDate.localDay (tzOffset w) (clock w (ticks w)))
   then Throw dueDateInPast else Ok (),
   tick w).
Proof.
  unfold TaskService.validateDueDate, bind, readClock, getTz, throwIf, throw, ret.
  cbn -[JSDate.lt JSDate.setHours0]. rewrite setHours0_lt.
  by case_bool_decide.
Qed.

(** The validators of the model do not write: they return the world that
    they received. *)
Lemma validateCreate_world data w : (Task.validateCreate data w).2 = w.
Proof. unfold Task.validateCreate. run. by repeat (case_match; simplify_eq/=). Qed.

Lemma validateUpdate_world data w : (Task.validateUpdate data w).2 = w.
Proof. unfold Task.validateUpdate. run. by repeat (case_match; simplify_eq/=). Qed.


(** With a valid date in the payload, neither validator, and neither
    repository function, fails with INVALID_DUE_DATE. *)
Lemma validateCreate_valid_date data d w :
  ITaskCreate.due_date data = Some (ValidDate d) →
  ¬ failsWith "INVALID_DUE_DATE" (Task.validateCreate data w).
Proof.
  intros Hd (e & He & Hcode). revert He Hcode.
  unfold Task.validateCreate. run. rewrite Hd. simpl.
  repeat (case_match; simplify_eq/=); try done; by intros [= <-].
Qed.

Lemma validateUpdate_valid_date data d w :
  ITaskUpdate.due_date data = Some (ValidDate d) →
  ¬ failsWith "INVALID_DUE_DATE" (Task.validateUpdate data w).
Proof.
  intros Hd (e & He & Hcode). revert He Hcode.
  unfold Task.validateUpdate. run. rewrite Hd. simpl.
  repeat (case_match; simplify_eq/=); try done; by intros [= <-].
Qed.

Lemma create_valid_date data d w :
  ITaskCreate.due_date data = Some (ValidDate d) →
  ¬ failsWith "INVALID_DUE_DATE" (TaskRepository.create data w).
Proof.
  intros Hd (e & He & Hcode). revert He.
  unfold TaskRepository.create. rewrite bind_eq.
  destruct (Task.validateCreate data w) as [[[]|e'] w1] eqn:Hv.
  - rewrite Hd. step.
    destruct (ITaskCreate.user_id data); [|intros [= <-]; by cbn in Hcode].
    destruct (ITaskCreate.title data); [|intros [= <-]; by cbn in Hcode].
    cbn [TaskRepository.sqlDate]. rewrite bind_eq.
    destruct (TaskRepository.insertRow _ w1) as [[r|e'] w2] eqn:Hinsert; [done|].
    apply insertRow_throw in Hinsert as (_ & _ & _ & _ & _ & ->).
    intros [= <-]. by cbn in Hcode.
  - simpl. intros [= ->]. eapply validateCreate_valid_date; [done|].
    exists e. by rewrite Hv.
Qed.

Lemma update_valid_date taskId data d w :
  ITaskUpdate.due_date data = Some (ValidDate d) →
  ¬ failsWith "INVALID_DUE_DATE" (TaskRepository.update taskId data w).
Proof.
  intros Hd (e & He & Hcode). revert He.
  unfold TaskRepository.update. rewrite bind_eq, findById_run.
  destruct (tasks w !! taskId) as [row|] eqn:Hrow;
    [|destruct (Sql.isInt taskId); cbn; [done|intros [= <-]; by cbn in Hcode]].
  step. rewrite Hrow, bind_eq.
  destruct (Task.validateUpdate data w) as [[[]|e'] w1] eqn:Hv.
  - rewrite Hd. step. cbn [TaskRepository.sqlDate].
    case_match; step; [intros [= <-]; by cbn in Hcode|].
    destruct (_ || _); step; intros [= <-]; by cbn in Hcode.
  - simpl. intros [= ->]. eapply validateUpdate_valid_date; [done|].
    exists e. by rewrite Hv.
Qed.

(** [createTask] returns a task whenever the payload passes the checks
    and the database accepts the row: an owner, a title that is not blank
    and of at most 100 characters, and no due date or one that is not
    before the current day. *)
Lemma createTask_returns taskData w user_id title :
  ITaskCreate.user_id taskData = Some user_id →
  user_id ≠ 0 →
  ITaskCreate.title taskData = Some title →
  validTitle title →
  (ITaskCreate.due_date taskData = None ∨
   ∃ d, ITaskCreate.due_date taskData = Some (ValidDate d) ∧
        JSDate.localDay (tzOffset w) (clock w (ticks w)) ≤ JSDate.localDay (tzOffset w) d) →
  insertable user_id (ITaskCreate.category_id taskData) (ITaskCreate.priority_id taskData) w →
  ∃ task w', TaskService.createTask taskData w = (Ok task, w').
Proof.
  intros Huser Hnonzero Htitle [Hblank Hlength] Hdue Hinsertable.
  assert (Hcreate : ∀ w0,
            insertable user_id (ITaskCreate.category_id taskData)
              (ITaskCreate.priority_id taskData) w0 →
            ∃ task w', TaskRepository.create taskData w0 = (Ok task, w')).
  { intros w0 H0. unfold TaskRepository.create, Task.validateCreate. rewrite Huser, Htitle.
    step. rewrite blank_title_check. unfold truthyNumber.
    rewrite (bool_decide_false (user_id = 0)), (bool_decide_false (_ = EmptyString)),
      (bool_decide_false (_ < _)%nat) by (done || lia). step.
    destruct Hdue as [->|(d & -> & _)]; step; cbn [TaskRepository.sqlDate];
      rewrite bind_eq, insertRow_accepts by done; by eexists _, _. }
  unfold TaskService.createTask. rewrite bind_eq.
  destruct Hdue as [->|(d & -> & Hday)].
  - by apply Hcreate.
  - rewrite validateDueDate_valid, bool_decide_false by lia. by apply Hcreate.
Qed.

(** C3, as amended.  [createTask], and [updateTask] called by the owner of
    an existing task, compare the due date of the payload with the reading
    of the clock by local calendar day.  A due date on the day before the
    current one makes both throw INVALID_DUE_DATE before anything is
    written; a due date on the current day makes no call of [createTask] or
    [updateTask] fail with INVALID_DUE_DATE.  The checks that [updateTask]
    makes first decide the other calls, whatever the due date: for a key
    without a task it returns null (the lookup fails with a 500 error when
    the key is not a value of the type of the column), and for a caller
    who does not own the task it throws FORBIDDEN. *)
Theorem due_date_compared_by_day w d :
  let today := JSDate.localDay (tzOffset w) (clock w (ticks w)) in
  let day := JSDate.localDay (tzOffset w) d in
  (day = today - 1 →
     (∀ taskData,
        ITaskCreate.due_date taskData = Some (ValidDate d) →
        TaskService.createTask taskData w = (Throw dueDateInPast, tick w)) ∧
     (∀ taskId updateData row,
        ITaskUpdate.due_date updateData = Some (ValidDate d) →
        tasks w !! taskId = Some row →
        TaskService.updateTask taskId updateData (TaskRow.user_id row) w
          = (Throw dueDateInPast, tick w)) ∧
     ApiError.code dueDateInPast = "INVALID_DUE_DATE") ∧
  (day = today →
     (∀ taskData,
        ITaskCreate.due_date taskData = Some (ValidDate d) →
        ¬ failsWith "INVALID_DUE_DATE" (TaskService.createTask taskData w)) ∧
     (∀ updateData anyId userId,
        ITaskUpdate.due_date updateData = Some (ValidDate d) →
        ¬ failsWith "INVALID_DUE_DATE" (TaskService.updateTask anyId updateData userId w))) ∧
  (∀ taskId updateData userId,
     tasks w !! taskId = None →
     TaskService.updateTask taskId updateData userId w
       = (if Sql.isInt taskId then Ok None else Throw findTaskFailed, w)) ∧
  (∀ taskId updateData userId row,
     tasks w !! taskId = Some row →
     TaskRow.user_id row ≠ userId →
     TaskService.updateTask taskId updateData userId w = (Throw forbiddenTask, w)).
Proof.
  intros today day.
  pose proof (validateDueDate_valid w d) as Hv. fold today day in Hv.
  split_and!.
  - intros Hday. rewrite bool_decide_true in Hv by lia. split_and!; [| |done].
    + intros taskData Hc. unfold TaskService.createTask. by rewrite Hc, bind_eq, Hv.
    + intros taskId updateData row Hu Hrow.
      unfold TaskService.updateTask, TaskService.authorizeTaskOperation.
      rewrite bind_eq, findById_run, Hrow, Hu. step.
      rewrite bool_decide_false by (intros Hne; by apply Hne). step.
      by rewrite !bind_eq, Hv.
  - intros Hday. rewrite bool_decide_false in Hv by lia. split.
    + intros taskData Hc. unfold TaskService.createTask. rewrite Hc, bind_eq, Hv.
      by apply create_valid_date with d.
    + intros updateData anyId userId Hu.
      unfold TaskService.updateTask, TaskService.authorizeTaskOperation.
      rewrite bind_eq, findById_run, Hu.
      destruct (tasks w !! anyId) as [row'|]; step.
      * destruct (bool_decide _); step.
        { intros (e & He & Hcode). simplify_eq/=. }
        rewrite bind_eq, Hv. by apply update_valid_date with d.
      * destruct (Sql.isInt anyId); intros (e & He & Hcode); simplify_eq/=.
  - intros taskId updateData userId Hnone. unfold TaskService.updateTask.
    rewrite bind_eq, findById_run, Hnone. by destruct (Sql.isInt taskId).
  - intros taskId updateData userId row Hrow Hne.
    unfold TaskService.updateTask, TaskService.authorizeTaskOperation.
    rewrite bind_eq, findById_run, Hrow. step. by rewrite bool_decide_true.
Qed.

(** The two days of C3 at the example: a due date the day before makes
    both calls throw, one earlier the same day makes neither fail so. *)
Lemma due_date_compared_by_day_witness :
  let yesterday := Fixture.now - msPerDay in
  let thisMorning := Fixture.now - 13 * 3600000 in
  (TaskService.createTask (Fixture.newTask (Some (ValidDate yesterday))) Fixture.world
     = (Throw dueDateInPast, tick Fixture.world) ∧
   TaskService.updateTask 1 (Fixture.changes (Some (ValidDate yesterday))) 1 Fixture.world
     = (Throw dueDateInPast, tick Fixture.world) ∧
   ApiError.code dueDateInPast = "INVALID_DUE_DATE") ∧
  (¬ failsWith "INVALID_DUE_DATE"
       (TaskService.createTask (Fixture.newTask (Some (ValidDate thisMorning))) Fixture.world) ∧
   ∀ anyId userId,
     ¬ failsWith "INVALID_DUE_DATE"
         (TaskService.updateTask anyId (Fixture.changes (Some (ValidDate thisMorning)))
            userId Fixture.world)).
Proof.
  intros yesterday thisMorning. split.
  - destruct (due_date_compared_by_day Fixture.world yesterday) as [Hbefore _].
    destruct (Hbefore eq_refl) as (Hcreate & Hupdate & Hcode).
    split; [|split]; [| |exact Hcode].
    + apply Hcreate. reflexivity.
    + apply (Hupdate 1 (Fixture.changes (Some (ValidDate yesterday))) Fixture.report);
        reflexivity.
  - destruct (due_date_compared_by_day Fixture.world thisMorning) as (_ & Hsame & _).
    destruct (Hsame eq_refl) as [Hcreate Hupdate].
    split.
    + apply Hcreate. reflexivity.
    + intros anyId userId. apply Hupdate. reflexivity.
Defined.

(** C3 does not hold of every call of [updateTask]: with a due date on the
    previous day, a call for a task that does not exist returns null, and a
    call by someone who does not own the task throws FORBIDDEN; neither
    reaches the check of the due date. *)
Lemma updateTask_previous_day_not_checked :
  let yesterday := Fixture.now - msPerDay in
  let data := Fixture.changes (Some (ValidDate yesterday)) in
  JSDate.localDay Fixture.tz yesterday = JSDate.localDay Fixture.tz Fixture.now - 1 ∧
  TaskService.updateTask 99 data 1 Fixture.world = (Ok None, Fixture.world) ∧
  TaskService.updateTask 1 data 2 Fixture.world = (Throw forbiddenTask, Fixture.world) ∧
  ¬ failsWith "INVALID_DUE_DATE" (TaskService.updateTask 99 data 1 Fixture.world) ∧
  ¬ failsWith "INVALID_DUE_DATE" (TaskService.updateTask 1 data 2 Fixture.world).
Proof.
  intros yesterday data. split; [reflexivity|].
  assert (H1 : TaskService.updateTask 99 data 1 Fixture.world = (Ok None, Fixture.world))
    by (vm_compute; reflexivity).
  assert (H2 : TaskService.updateTask 1 data 2 Fixture.world
               = (Throw forbiddenTask, Fixture.world))
    by (vm_compute; reflexivity).
  rewrite H1, H2. repeat split; intros (e & He & Hcode); simplify_eq/=.
Qed.

(** * Time-based views *)

(** [findByUserId] returns the tasks of the rows that the user owns, and
    does not touch the world. *)
Lemma findByUserId_elem userId w :
  ∃ userTasks,
    TaskRepository.findByUserId userId w = (Ok userTasks, w) ∧
    ∀ task, task ∈ userTasks ↔
      ∃ row, inTasks row w ∧ task = Task.fromDatabaseRow row ∧ TaskRow.user_id row = userId.
Proof.
  unfold TaskRepository.findByUserId. run. eexists. split; [done|].
  intros task. rewrite list_elem_of_fmap. unfold inTasks.
  split.
  - intros (row & -> & Hrow). rewrite merge_sort_Permutation in Hrow.
    apply list_elem_of_filter in Hrow as [Howner Hrow].
    apply list_elem_of_fmap in Hrow as ([id row'] & -> & Hin).
    apply elem_of_map_to_list in Hin. exists row'. eauto.
  - intros (row & (id & Hid) & -> & Howner). exists row. split; [done|].
    rewrite merge_sort_Permutation. apply list_elem_of_filter. split; [done|].
    apply list_elem_of_fmap. exists (id, row). split; [done|].
    by apply elem_of_map_to_list.
Qed.

(** A clock that stands still keeps standing still after a reading. *)
Lemma clockAt_tick now w : clockAt now w → clockAt now (tick w).
Proof. done. Qed.

(** Under a clock that stands still at [now], the filter of
    [getTasksDueSoon] is the plain filter by [dueSoonAt now]. *)
Lemma filterM_dueSoon now days userTasks w :
  clockAt now w →
  ∃ w',
    filterM (λ task,
      if TaskService.noDueDateOrCompleted task then ret false
      else
        let dueDate := default InvalidDate (ITask.due_date task) in
        if JSDate.le dueDate (JSDate.addDays (ValidDate now) days) then
          let! now' := readClock in
          ret (JSDate.ge dueDate (ValidDate now'))
        else ret false) userTasks w
    = (Ok (List.filter (dueSoonAt now days) userTasks), w') ∧
    tasks w' = tasks w.
Proof.
  set (p := λ task : ITask.t, _).
  assert (Hp : ∀ task w, clockAt now w →
            ∃ w', p task w = (Ok (dueSoonAt now days task), w') ∧
                  tasks w' = tasks w ∧ clockAt now w').
  { intros task w0 Hclock. unfold p, dueSoonAt.
    destruct (TaskService.noDueDateOrCompleted task); [by exists w0|].
    destruct (JSDate.le _ _); [|by exists w0].
    exists (tick w0). step. by rewrite (Hclock (ticks w0)). }
  revert w. induction userTasks as [|task rest IH]; intros w Hclock.
  - by exists w.
  - cbn [filterM List.filter]. rewrite bind_eq.
    destruct (Hp task w Hclock) as (w1 & -> & Htasks1 & Hclock1).
    destruct (IH w1 Hclock1) as (w' & Hrest & Htasks).
    rewrite bind_eq, Hrest. exists w'. split; [done|congruence].
Qed.


Lemma overdueAt_row now row :
  overdueAt now (Task.fromDatabaseRow row) = true ↔
  ∃ d, TaskRow.due_date row = Some d ∧ TaskRow.status row ≠ "completed" ∧ d < now.
Proof.
  unfold overdueAt, TaskService.noDueDateOrCompleted. simpl.
  destruct (TaskRow.due_date row) as [d|]; simpl.
  - rewrite !andb_true_iff, negb_true_iff, !bool_decide_eq_true, bool_decide_eq_false.
    split.
    + intros [? ?]. exists d. done.
    + intros (d' & [= <-] & ? & ?). done.
  - split; [done|]. by intros (d & ? & _).
Qed.

(** Under a clock that stands still at [now], [getTasksDueSoon] returns the
    tasks of the user that pass [dueSoonAt now], in the order of the
    repository, and writes nothing. *)
Lemma getTasksDueSoon_run w userId days now :
  clockAt now w →
  ∃ userTasks w',
    TaskRepository.findByUserId userId w = (Ok userTasks, w) ∧
    TaskService.getTasksDueSoon userId days w
      = (Ok (List.filter (dueSoonAt now days) userTasks), w') ∧
    tasks w' = tasks w.
Proof.
  intros Hclock.
  destruct (findByUserId_elem userId w) as (userTasks & Hfind & _).
  destruct (filterM_dueSoon now days userTasks (tick w) (clockAt_tick _ _ Hclock))
    as (w' & Hfilter & Htasks).
  exists userTasks, w'. split; [done|]. split; [|done].
  unfold TaskService.getTasksDueSoon. rewrite bind_eq, Hfind. step.
  fold (tick w). rewrite (Hclock (ticks w)). exact Hfilter.
Qed.

(** [getOverdueTasks] reads the clock once and returns the tasks of the
    user that pass [overdueAt] at that reading. *)
Lemma getOverdueTasks_run w userId :
  ∃ userTasks,
    TaskRepository.findByUserId userId w = (Ok userTasks, w) ∧
    TaskService.getOverdueTasks userId w
      = (Ok (List.filter (overdueAt (clock w (ticks w))) userTasks), tick w).
Proof.
  destruct (findByUserId_elem userId w) as (userTasks & Hfind & _).
  exists userTasks. split; [done|].
  unfold TaskService.getOverdueTasks. rewrite bind_eq, Hfind. step.
  fold (tick w). unfold ret. do 2 f_equal. apply List.filter_ext. intros task.
  unfold overdueAt. by destruct (TaskService.noDueDateOrCompleted task).
Qed.

(** Membership in a filtered list of tasks of the user, by rows. *)
Lemma filter_userTasks_elem (test : ITask.t → bool) (P : TaskRow.t → Prop) userId w userTasks :
  TaskRepository.findByUserId userId w = (Ok userTasks, w) →
  (∀ row, test (Task.fromDatabaseRow row) = true ↔ P row) →
  ∀ task, task ∈ List.filter test userTasks ↔
    ∃ row, inTasks row w ∧ task = Task.fromDatabaseRow row ∧
           TaskRow.user_id row = userId ∧ P row.
Proof.
  intros Hfind Htest task.
  destruct (findByUserId_elem userId w) as (userTasks' & Hfind' & Helem).
  assert (userTasks' = userTasks) as -> by congruence.
  rewrite list_elem_of_In, filter_In, <- list_elem_of_In, Helem. split.
  - intros [(row & Hin & -> & Howner) HP%Htest]. by exists row.
  - intros (row & Hin & -> & Howner & HP). split; [by exists row|by apply Htest].
Qed.

(** No task passes both tests at the same instant. *)
Lemma dueSoonAt_not_overdueAt now days task :
  dueSoonAt now days task = true → overdueAt now task = true → False.
Proof.
  unfold dueSoonAt, overdueAt.
  destruct (default InvalidDate (ITask.due_date task)) as [d|]; simpl.
  - rewrite !andb_true_iff, !bool_decide_eq_true. lia.
  - rewrite !andb_true_iff. by intros [[_ ?] _].
Qed.




(** The case of the test suite: of tasks due in 1, 5 and 14 days and a
    completed one due in 1 day, a window of 7 days keeps the first two;
    the second one is cancelled. *)
Example getTasksDueSoon_example :
  (TaskService.getTasksDueSoon 1 7 Fixture.world).1
  = Ok [Task.fromDatabaseRow Fixture.report; Task.fromDatabaseRow Fixture.review].
Proof. vm_compute. reflexivity. Qed.

(** C5.  [getOverdueTasks userId] reads the clock once and returns exactly
    the tasks of the rows that [userId] owns, whose due date is not null
    and strictly before that reading and whose status is not completed. *)
Theorem getOverdueTasks_exact w userId :
  ∃ overdue,
    TaskService.getOverdueTasks userId w = (Ok overdue, tick w) ∧
    ∀ task, task ∈ overdue ↔
      ∃ row d, inTasks row w ∧ task = Task.fromDatabaseRow row ∧
        TaskRow.user_id row = userId ∧
        TaskRow.due_date row = Some d ∧
        TaskRow.status row ≠ "completed" ∧
        d < clock w (ticks w).
Proof.
  destruct (getOverdueTasks_run w userId) as (userTasks & Hfind & Hrun).
  pose proof (filter_userTasks_elem _ _ userId w userTasks Hfind
                (overdueAt_row (clock w (ticks w)))) as Helem.
  eexists. split; [exact Hrun|].
  intros task. rewrite Helem. split.
  - intros (row & ? & ? & ? & d & ? & ? & ?). by exists row, d.
  - intros (row & d & ? & ? & ? & ? & ? & ?). exists row.
    repeat (split; [done|]). by exists d.
Qed.

(** The case of the test suite: a task due yesterday is overdue, the ones
    due later are not, and neither is a completed one. *)
Example getOverdueTasks_example :
  (TaskService.getOverdueTasks 1 Fixture.world).1
  = Ok [Task.fromDatabaseRow Fixture.backup].
Proof. vm_compute. reflexivity. Qed.

(** C10.  With the clock at the same instant in both calls, no task is
    returned by both [getTasksDueSoon] and [getOverdueTasks]: the first
    keeps due dates at or after that instant, the second due dates
    strictly before it. *)
Theorem dueSoon_overdue_disjoint w1 w2 userId days now dueSoon overdue w1' w2' :
  clockAt now w1 →
  clockAt now w2 →
  TaskService.getTasksDueSoon userId days w1 = (Ok dueSoon, w1') →
  TaskService.getOverdueTasks userId w2 = (Ok overdue, w2') →
  ∀ task, task ∈ dueSoon → task ∈ overdue → False.
Proof.
  intros Hclock1 Hclock2 HdueSoon Hoverdue task.
  destruct (getTasksDueSoon_run w1 userId days now Hclock1)
    as (userTasks1 & w1'' & _ & Hrun1 & _).
  destruct (getOverdueTasks_run w2 userId) as (userTasks2 & _ & Hrun2).
  rewrite (Hclock2 (ticks w2)) in Hrun2.
  rewrite Hrun1 in HdueSoon. rewrite Hrun2 in Hoverdue.
  injection HdueSoon as <- _. injection Hoverdue as <- _.
  rewrite !list_elem_of_In, !filter_In. intros [_ H1] [_ H2].
  by apply (dueSoonAt_not_overdueAt now days task).
Qed.

Lemma dueSoon_overdue_disjoint_witness :
  let dueSoon := [Task.fromDatabaseRow Fixture.report; Task.fromDatabaseRow Fixture.review] in
  let overdue := [Task.fromDatabaseRow Fixture.backup] in
  TaskService.getTasksDueSoon 1 7 Fixture.world = (Ok dueSoon, Fixture.after 4) ∧
  TaskService.getOverdueTasks 1 Fixture.world = (Ok overdue, Fixture.after 1) ∧
  ∀ task, task ∈ dueSoon → task ∈ overdue → False.
Proof.
  intros dueSoon overdue.
  assert (H1 : TaskService.getTasksDueSoon 1 7 Fixture.world = (Ok dueSoon, Fixture.after 4))
    by (vm_compute; reflexivity).
  assert (H2 : TaskService.getOverdueTasks 1 Fixture.world = (Ok overdue, Fixture.after 1))
    by (vm_compute; reflexivity).
  split; [exact H1|]. split; [exact H2|].
  apply (dueSoon_overdue_disjoint Fixture.world Fixture.world 1 7 Fixture.now
           dueSoon overdue (Fixture.after 4) (Fixture.after 1)).
  - intros i. reflexivity.
  - intros i. reflexivity.
  - exact H1.
  - exact H2.
Defined.

(** * Validation of payloads *)

(** C9, as amended.  With a due date that is present and is an invalid
    date, [Task.validateCreate] and [Task.validateUpdate] always throw a
    400 error and write nothing.  The checks run in order and the first
    failure wins: the error is the one with code INVALID_DUE_DATE when the
    earlier checks pass, that is, for [validateCreate], when [user_id] is
    present and not zero and the title is present, not blank and of at most
    100 characters, and for [validateUpdate], when the title is absent, or
    not blank and of at most 100 characters. *)
Theorem unparseable_due_date_rejected create update w :
  ITaskCreate.due_date create = Some InvalidDate →
  ITaskUpdate.due_date update = Some InvalidDate →
  (∃ e, Task.validateCreate create w = (Throw e, w) ∧
        ApiError.statusCode e = 400 ∧
        (truthyNumber (ITaskCreate.user_id create) = true →
         (∃ title, ITaskCreate.title create = Some title ∧ validTitle title) →
         e = invalidDueDateFormat)) ∧
  (∃ e, Task.validateUpdate update w = (Throw e, w) ∧
        ApiError.statusCode e = 400 ∧
        ((∀ title, ITaskUpdate.title update = Some title → validTitle title) →
         e = invalidDueDateFormat)).
Proof.
  intros Hc Hu. split.
  - unfold Task.validateCreate. rewrite Hc. step.
    destruct (truthyNumber (ITaskCreate.user_id create)); step;
      [|eexists; split; [done|]; split; [done|]; done].
    destruct (ITaskCreate.title create) as [title|]; step.
    + rewrite blank_title_check.
      case_bool_decide as Hblank; step.
      { eexists. split; [done|]. split; [done|].
        intros _ (title' & [= <-] & [Hne _]). done. }
      case_bool_decide as Hlong; step.
      { eexists. split; [done|]. split; [done|].
        intros _ (title' & [= <-] & [_ Hle]). lia. }
      eexists. split; [done|]. split; [done|]. done.
    + eexists. split; [done|]. split; [done|].
      intros _ (title' & [=] & _).
  - unfold Task.validateUpdate. rewrite Hu. step.
    rewrite bool_decide_false; step.
    2:{ unfold ITaskUpdate.keys. rewrite Hu, !length_app. simpl. lia. }
    destruct (ITaskUpdate.title update) as [title|]; step.
    + case_bool_decide as Hblank; step.
      { eexists. split; [done|]. split; [done|].
        intros Hvalid. destruct (Hvalid title eq_refl) as [Hne _].
        by apply length_zero_iff in Hblank. }
      case_bool_decide as Hlong; step.
      { eexists. split; [done|]. split; [done|].
        intros Hvalid. destruct (Hvalid title eq_refl) as [_ Hle]. lia. }
      eexists. split; [done|]. split; [done|]. done.
    + eexists. split; [done|]. split; [done|]. done.
Qed.

Lemma unparseable_due_date_rejected_witness :
  (∃ e, Task.validateCreate Fixture.undated Fixture.world = (Throw e, Fixture.world) ∧
        ApiError.statusCode e = 400 ∧
        (truthyNumber (ITaskCreate.user_id Fixture.undated) = true →
         (∃ title, ITaskCreate.title Fixture.undated = Some title ∧ validTitle title) →
         e = invalidDueDateFormat)) ∧
  (∃ e, Task.validateUpdate Fixture.redated Fixture.world = (Throw e, Fixture.world) ∧
        ApiError.statusCode e = 400 ∧
        ((∀ title, ITaskUpdate.title Fixture.redated = Some title → validTitle title) →
         e = invalidDueDateFormat)).
Proof.
  apply (unparseable_due_date_rejected Fixture.undated Fixture.redated Fixture.world);
    reflexivity.
Defined.

(** On the examples, where the earlier checks pass, the error is the one
    with code INVALID_DUE_DATE. *)
Example unparseable_due_date_example :
  Task.validateCreate Fixture.undated Fixture.world
    = (Throw invalidDueDateFormat, Fixture.world) ∧
  Task.validateUpdate Fixture.redated Fixture.world
    = (Throw invalidDueDateFormat, Fixture.world).
Proof. split; vm_compute; reflexivity. Qed.

(** C9 does not hold of every payload: with a blank title and an invalid
    due date, both validators throw INVALID_TITLE, the error of the
    earlier check. *)
Lemma blank_title_before_due_date :
  ITaskCreate.due_date Fixture.untitled = Some InvalidDate ∧
  Task.validateCreate Fixture.untitled Fixture.world
    = (Throw (ApiError.badRequest "Task title is required" "INVALID_TITLE"), Fixture.world) ∧
  ¬ failsWith "INVALID_DUE_DATE" (Task.validateCreate Fixture.untitled Fixture.world) ∧
  ITaskUpdate.due_date Fixture.retitled = Some InvalidDate ∧
  Task.validateUpdate Fixture.retitled Fixture.world
    = (Throw (ApiError.badRequest "Task title cannot be empty" "INVALID_TITLE"), Fixture.world) ∧
  ¬ failsWith "INVALID_DUE_DATE" (Task.validateUpdate Fixture.retitled Fixture.world).
Proof.
  assert (H1 : Task.validateCreate Fixture.untitled Fixture.world
    = (Throw (ApiError.badRequest "Task title is required" "INVALID_TITLE"), Fixture.world))
    by (vm_compute; reflexivity).
  assert (H2 : Task.validateUpdate Fixture.retitled Fixture.world
    = (Throw (ApiError.badRequest "Task title cannot be empty" "INVALID_TITLE"), Fixture.world))
    by (vm_compute; reflexivity).
  rewrite H1, H2. repeat split; try reflexivity.
  - intros (e & He & Hcode). simplify_eq/=.
  - intros (e & He & Hcode). simplify_eq/=.
Qed.

(** * User service *)

(** Without a row for an address, [findByEmail] returns null. *)
Lemma findByEmail_none email w :
  (∀ id user, users w !! id = Some user → IUser.email user ≠ email) →
  UserRepository.findByEmail email w = (Ok None, w).
Proof.
  intros Hnone. unfold UserRepository.findByEmail, UserRepository.selectWhere. step.
  destruct (filter _ _) as [|user rows] eqn:Hrows; [done|].
  assert (Hin : user ∈ user :: rows) by left.
  rewrite <- Hrows in Hin. apply list_elem_of_filter in Hin as [Hemail Hin].
  apply list_elem_of_fmap in Hin as ([id user'] & -> & Hin).
  apply elem_of_map_to_list in Hin. by destruct (Hnone id user' Hin).
Qed.

(** The user that [findByEmail] returns is a row with that address. *)
Lemma findByEmail_some email w user w' :
  UserRepository.findByEmail email w = (Ok (Some user), w') →
  w' = w ∧ IUser.email user = email ∧ ∃ id, users w !! id = Some user.
Proof.
  unfold UserRepository.findByEmail, UserRepository.selectWhere. step.
  destruct (filter _ _) as [|user' rows] eqn:Hrows; [done|].
  intros [= -> ->]. split; [done|].
  assert (Hin : user ∈ user :: rows) by left.
  rewrite <- Hrows in Hin. apply list_elem_of_filter in Hin as [Hemail Hin].
  apply list_elem_of_fmap in Hin as ([id user'] & -> & Hin).
  apply elem_of_map_to_list in Hin. eauto.
Qed.

(** C6.  A login with an address that no user has, and a login with the
    address of a user and a password that fails the comparison with the
    stored hash, throw the same error: 401, message and code
    INVALID_CREDENTIALS alike, and neither writes anything. *)
Theorem login_failures_identical bcrypt_compare generateTokens
    w1 email1 password1 w2 email2 password2 user :
  (∀ id user, users w1 !! id = Some user → IUser.email user ≠ email1) →
  UserRepository.findByEmail email2 w2 = (Ok (Some user), w2) →
  bcrypt_compare password2 (IUser.password_hash user) = false →
  UserService.login bcrypt_compare generateTokens email1 password1 w1
    = (Throw invalidCredentials, w1) ∧
  UserService.login bcrypt_compare generateTokens email2 password2 w2
    = (Throw invalidCredentials, w2) ∧
  ApiError.code invalidCredentials = "INVALID_CREDENTIALS".
Proof.
  intros Hnone Hsome Hmismatch. unfold UserService.login.
  rewrite !bind_eq, (findByEmail_none _ _ Hnone), Hsome. step.
  rewrite Hmismatch. done.
Qed.

Lemma login_failures_identical_witness :
  UserService.login Fixture.bcrypt_compare Fixture.generateTokens
      "carol@example.com" "Valid123!" Fixture.world
    = (Throw invalidCredentials, Fixture.world) ∧
  UserService.login Fixture.bcrypt_compare Fixture.generateTokens
      "alice@example.com" "Wrong123!" Fixture.world
    = (Throw invalidCredentials, Fixture.world) ∧
  ApiError.code invalidCredentials = "INVALID_CREDENTIALS".
Proof.
  apply (login_failures_identical Fixture.bcrypt_compare Fixture.generateTokens
           Fixture.world "carol@example.com" "Valid123!"
           Fixture.world "alice@example.com" "Wrong123!" Fixture.alice).
  - intros id user Hid. unfold Fixture.world in Hid. cbn in Hid.
    apply lookup_insert_Some in Hid as [[_ <-]|[_ Hid]]; [done|].
    apply lookup_insert_Some in Hid as [[_ <-]|[_ Hid]]; [done|].
    by rewrite lookup_empty in Hid.
  - vm_compute. reflexivity.
  - vm_compute. reflexivity.
Defined.

(** A login with the right password returns the session. *)
Example login_example :
  (UserService.login Fixture.bcrypt_compare Fixture.generateTokens
     "alice@example.com" "Valid123!" Fixture.world).1
  = Ok (UserService.mkSession (SafeUser.of_user Fixture.alice) "access:alice" "refresh:alice").
Proof. vm_compute. reflexivity. Qed.

(** The password rules write nothing, and return [true] when they do not
    throw. *)
Lemma validatePassword_run password w :
  (∃ e, PasswordUtils.validatePassword password w = (Throw e, w)) ∨
  PasswordUtils.validatePassword password w = (Ok true, w).
Proof.
  unfold PasswordUtils.validatePassword, PasswordUtils.validatePasswordStrength. run.
  repeat (case_match; simplify_eq/=); by eauto.
Qed.

(** C7, as amended.  When the user exists and the current password
    matches the stored hash, [changePassword] checks the strength of the
    new password first and compares the two passwords, as plain text,
    next.  So with a new password equal to the current one, the call
    throws PASSWORD_SAME when that password passes the strength rules; and
    a new password that breaks the strength rules, equal to the current
    one or not, makes the call throw the error of the rules.  In both
    cases nothing is written. *)
Theorem changePassword_same_password bcrypt_compare bcrypt_hash w userId user password :
  users w !! userId = Some user →
  bcrypt_compare password (IUser.password_hash user) = true →
  (PasswordUtils.validatePassword password w = (Ok true, w) →
   UserService.changePassword bcrypt_compare bcrypt_hash userId password password w
     = (Throw passwordSame, w)) ∧
  (∀ newPassword e, PasswordUtils.validatePassword newPassword w = (Throw e, w) →
   UserService.changePassword bcrypt_compare bcrypt_hash userId password newPassword w
     = (Throw e, w)) ∧
  ApiError.code passwordSame = "PASSWORD_SAME".
Proof.
  intros Huser Hmatch. unfold UserService.changePassword.
  split; [|split; [|done]].
  - intros Hstrong. rewrite bind_eq, findUserById_run, Huser. step. rewrite Hmatch. step.
    rewrite bind_eq, Hstrong. step. by rewrite bool_decide_true.
  - intros newPassword e Hweak. rewrite bind_eq, findUserById_run, Huser. step.
    rewrite Hmatch. step. by rewrite bind_eq, Hweak.
Qed.

Lemma changePassword_same_password_witness :
  UserService.changePassword Fixture.bcrypt_compare Fixture.bcrypt_hash
      1 "Valid123!" "Valid123!" Fixture.world
    = (Throw passwordSame, Fixture.world) ∧
  UserService.changePassword Fixture.bcrypt_compare Fixture.bcrypt_hash
      2 "weak" "weak" Fixture.world
    = (Throw (ApiError.badRequest "Password must be at least 8 characters long"
                "PASSWORD_TOO_SHORT"), Fixture.world).
Proof.
  split.
  - refine (proj1 (changePassword_same_password Fixture.bcrypt_compare
                     Fixture.bcrypt_hash Fixture.world 1 Fixture.alice "Valid123!" _ _) _);
      vm_compute; reflexivity.
  - refine (proj1 (proj2 (changePassword_same_password Fixture.bcrypt_compare
                     Fixture.bcrypt_hash Fixture.world 2 Fixture.bob "weak" _ _)) "weak" _ _);
      vm_compute; reflexivity.
Defined.

(** C7 does not hold as stated: the comparison of the two passwords does
    not come before the strength rules.  For an account whose current
    password is too short, a change to that same password throws
    PASSWORD_TOO_SHORT, not PASSWORD_SAME. *)
Lemma changePassword_weak_same_password :
  users Fixture.world !! 2 = Some Fixture.bob ∧
  Fixture.bcrypt_compare "weak" (IUser.password_hash Fixture.bob) = true ∧
  UserService.changePassword Fixture.bcrypt_compare Fixture.bcrypt_hash
      2 "weak" "weak" Fixture.world
    = (Throw (ApiError.badRequest "Password must be at least 8 characters long"
                "PASSWORD_TOO_SHORT"), Fixture.world) ∧
  ¬ failsWith "PASSWORD_SAME"
      (UserService.changePassword Fixture.bcrypt_compare Fixture.bcrypt_hash
         2 "weak" "weak" Fixture.world).
Proof.
  assert (H : UserService.changePassword Fixture.bcrypt_compare Fixture.bcrypt_hash
      2 "weak" "weak" Fixture.world
    = (Throw (ApiError.badRequest "Password must be at least 8 characters long"
                "PASSWORD_TOO_SHORT"), Fixture.world))
    by (vm_compute; reflexivity).
  rewrite H. repeat split; try reflexivity.
  intros (e & He & Hcode). simplify_eq/=.
Qed.

(** The password rules on the passwords of the test suite. *)
Example validatePassword_examples :
  failsWith "PASSWORD_TOO_SHORT" (PasswordUtils.validatePassword "short1" Fixture.world) ∧
  failsWith "PASSWORD_NEEDS_UPPERCASE" (PasswordUtils.validatePassword "alllowercase1!" Fixture.world) ∧
  failsWith "PASSWORD_NEEDS_LOWERCASE" (PasswordUtils.validatePassword "ALLUPPERCASE1!" Fixture.world) ∧
  failsWith "PASSWORD_NEEDS_NUMBER" (PasswordUtils.validatePassword "NoDigitsHere!" Fixture.world) ∧
  failsWith "PASSWORD_NEEDS_SPECIAL" (PasswordUtils.validatePassword "NoSpecial123" Fixture.world) ∧
  (PasswordUtils.validatePassword "Valid123!" Fixture.world).1 = Ok true.
Proof. repeat split; try (eexists; split; vm_compute; reflexivity). Qed.

(** The existence checks of the repository read the table and write
    nothing. *)
Lemma emailExists_run email w : ∃ b, UserRepository.emailExists email w = (Ok b, w).
Proof. by eexists. Qed.

Lemma usernameExists_run username w :
  ∃ b, UserRepository.usernameExists username w = (Ok b, w).
Proof. by eexists. Qed.

(** A uniqueness check, [if (c) { if (await exists(x)) throw e }], throws
    [e] or passes, and writes nothing. *)
Lemma uniqueness_check_run (c : bool) (found : M bool) (e : ApiError.t) w :
  (∃ b, found w = (Ok b, w)) →
  (if c then let! found := found in throwIf found e else ret ()) w = (Throw e, w) ∨
  (if c then let! found := found in throwIf found e else ret ()) w = (Ok (), w).
Proof.
  intros [b Hb]. destruct c; [|by right].
  rewrite bind_eq, Hb. destruct b; [by left|by right].
Qed.

Ltac check_cases w :=
  let H := fresh in
  match goal with
  | |- context [(if ?c then bind ?m (λ found, throwIf found ?e) else ret ()) w] =>
      destruct (uniqueness_check_run c m e w ltac:(by eexists)) as [H|H];
      rewrite H; clear H
  end.

(** What the columns keep of a payload that the database takes: the
    first characters of the name, of the address and of the role; and
    they keep a payload whose strings are not longer than their columns
    as it is. *)
Lemma kept_spec userData stored :
  UserRepository.kept userData = Some stored →
  stored = PartialIUser.mk (PartialIUser.user_id userData)
             (Sql.take 50 <$> PartialIUser.username userData)
             (Sql.take 100 <$> PartialIUser.email userData)
             (PartialIUser.password_hash userData) (PartialIUser.created_at userData)
             (Sql.take 20 <$> PartialIUser.role userData).
Proof.
  unfold UserRepository.kept.
  destruct (Sql.varcharOrNone 50 _) as [name|] eqn:Hname; [|done].
  destruct (Sql.varcharOrNone 100 _) as [email|] eqn:Hemail; [|done].
  destruct (Sql.varcharOrNone 20 _) as [role|] eqn:Hrole; [|done].
  intros [= <-]. apply varcharOrNone_take in Hname, Hemail, Hrole. by subst.
Qed.

Lemma kept_fits userData :
  (String.length (default EmptyString (PartialIUser.username userData)) ≤ 50)%nat →
  (String.length (default EmptyString (PartialIUser.email userData)) ≤ 100)%nat →
  (String.length (default EmptyString (PartialIUser.role userData)) ≤ 20)%nat →
  UserRepository.kept userData = Some userData.
Proof.
  intros Hname Hemail Hrole. unfold UserRepository.kept.
  rewrite !varcharOrNone_fits by done. by destruct userData.
Qed.

(** An update whose payload has no truthy role either throws and writes
    nothing, or returns the row that it stores under the key; the role, the
    hash, the key and the date of creation of that row are those of the
    row before, and its name and address are the supplied ones, as their
    columns keep them, when they are truthy. *)
Lemma update_without_role id userData user w :
  users w !! id = Some user →
  JSString.truthy (PartialIUser.role userData) = false →
  (∃ e, UserRepository.update id userData w = (Throw e, w)) ∨
  (∃ user' w',
     UserRepository.update id userData w = (Ok (Some user'), w') ∧
     users w' !! id = Some user' ∧
     tasks w' = tasks w ∧
     IUser.role user' = IUser.role user ∧
     IUser.password_hash user' = IUser.password_hash user ∧
     IUser.user_id user' = IUser.user_id user ∧
     IUser.created_at user' = IUser.created_at user ∧
     IUser.username user'
       = written (Sql.take 50 <$> PartialIUser.username userData) (IUser.username user) ∧
     IUser.email user'
       = written (Sql.take 100 <$> PartialIUser.email userData) (IUser.email user)).
Proof.
  intros Huser Hrole.
  unfold UserRepository.update. rewrite bind_eq, findUserById_run, Huser. step.
  rewrite bind_eq. check_cases w; [left; by eexists|].
  rewrite bind_eq. check_cases w; [left; by eexists|].
  rewrite Hrole. unfold written. rewrite !truthy_take.
  destruct (negb (JSString.truthy (PartialIUser.username userData))
            && negb (JSString.truthy (PartialIUser.email userData)) && negb false)
    eqn:Hnone.
  { right. exists user, w. apply andb_true_iff in Hnone as [[Hn He]%andb_true_iff _].
    apply negb_true_iff in Hn, He. by rewrite Hn, He. }
  step. destruct (UserRepository.kept userData) as [stored|] eqn:Hkept;
    [|left; by eexists].
  apply kept_spec in Hkept as ->.
  cbn [PartialIUser.username PartialIUser.email].
  destruct (_ || _); step; [left; by eexists|right].
  eexists _, _. split; [done|]. cbn -[Sql.take]. rewrite lookup_insert_eq, !truthy_take, Hrole. done.
Qed.

(** Sequences with the same first part and continuations that agree. *)
Lemma bind_ext {A B} (m : M A) (k1 k2 : A → M B) w :
  (∀ a w', k1 a w' = k2 a w') → bind m k1 w = bind m k2 w.
Proof. intros Hk. rewrite !bind_eq. destruct (m w) as [[a|e] w']; [apply Hk|done]. Qed.

(** A falsy role in the payload is as good as none. *)
Lemma update_delete_role id userData w :
  JSString.truthy (PartialIUser.role userData) = false →
  UserRepository.update id userData w
  = UserRepository.update id (PartialIUser.delete_role userData) w.
Proof.
  intros Hrole. destruct userData as [uid name mail hash created [[|c role]|]];
    [|done|].
  - unfold UserRepository.update, PartialIUser.delete_role.
    apply bind_ext. intros [existingUser|] w0; [|done].
    cbn [PartialIUser.username PartialIUser.email PartialIUser.role].
    apply bind_ext. intros _ w1. apply bind_ext. intros _ w2.
    destruct (_ && _ && _); [done|].
    apply bind_ext. intros rows w3. unfold UserRepository.kept.
    cbn [PartialIUser.username PartialIUser.email PartialIUser.role].
    destruct (Sql.varcharOrNone 50 name), (Sql.varcharOrNone 100 mail); done.
  - by unfold PartialIUser.delete_role.
Qed.

(** What [updateUser] passes to the repository when the caller is not an
    administrator has no truthy role. *)
Lemma stripped_role userData :
  JSString.truthy (PartialIUser.role
    (if JSString.truthy (PartialIUser.role userData) && true
     then PartialIUser.delete_role userData else userData)) = false.
Proof. by destruct (JSString.truthy (PartialIUser.role userData)) eqn:Hrole. Qed.

(** For a caller who is not an administrator, [updateUser] does with a
    payload what it does with the payload without its role. *)
Lemma updateUser_delete_role userId userData currentUserId w :
  UserService.updateUser userId userData currentUserId false w
  = UserService.updateUser userId (PartialIUser.delete_role userData) currentUserId false w.
Proof.
  unfold UserService.updateUser. apply bind_ext. intros [existingUser|] w0; [|done].
  cbn [PartialIUser.email PartialIUser.username PartialIUser.role PartialIUser.delete_role].
  apply bind_ext. intros _ w1. apply bind_ext. intros _ w2. apply bind_ext. intros _ w3.
  rewrite !bind_eq.
  destruct (JSString.truthy (PartialIUser.role userData)) eqn:Hrole;
    cbn [andb negb]; [done|].
  by rewrite (update_delete_role _ _ _ Hrole).
Qed.

(** The outcome of [updateUser] when a user who is not an administrator
    updates their own profile. *)
Lemma updateUser_self_outcome w userId userData user :
  users w !! userId = Some user →
  (∃ e, UserService.updateUser userId userData userId false w = (Throw e, w)) ∨
  (∃ user' w',
     UserService.updateUser userId userData userId false w
       = (Ok (Some (SafeUser.of_user user')), w') ∧
     users w' !! userId = Some user' ∧
     IUser.role user' = IUser.role user ∧
     IUser.username user'
       = written (Sql.take 50 <$> PartialIUser.username userData) (IUser.username user) ∧
     IUser.email user'
       = written (Sql.take 100 <$> PartialIUser.email userData) (IUser.email user) ∧
     IUser.password_hash user' = IUser.password_hash user ∧
     IUser.user_id user' = IUser.user_id user ∧
     IUser.created_at user' = IUser.created_at user).
Proof.
  intros Huser.
  unfold UserService.updateUser, UserRepository.findById, Sql.selectByKey. step. rewrite Huser.
  rewrite bool_decide_false by (intros Hne; by apply Hne). step.
  rewrite bind_eq. check_cases w; [left; by eexists|].
  rewrite bind_eq. check_cases w; [left; by eexists|].
  rewrite bind_eq.
  destruct (update_without_role userId _ user w Huser (stripped_role userData))
    as [[e ->]|(user' & w' & -> & Hstored & _ & Hrole & Hhash & Hid & Hcreated & Hname & Hmail)].
  - left. by eexists.
  - right. exists user', w'. split; [done|]. split; [done|]. split; [done|].
    revert Hname Hmail. by destruct (JSString.truthy (PartialIUser.role userData)).
Qed.

(** C8, as amended.  When a user updates their own profile with
    [isAdmin = false], a role in the payload changes nothing: the call
    does what it does for the payload without the role, and raises no error
    of its own.  Either the call throws (an address or a name that is
    taken, or that the database rejects) and writes nothing, or it returns
    the stored user, whose role is the role before the call; of the other
    fields of the payload, a truthy name and a truthy address are written,
    as their columns keep them (the first 50 and the first 100
    characters, what is cut of a longer string being spaces), and the
    stored hash, key and date of creation stay as they were. *)
Theorem updateUser_self_role_ignored w userId userData user :
  users w !! userId = Some user →
  UserService.updateUser userId userData userId false w
    = UserService.updateUser userId (PartialIUser.delete_role userData) userId false w ∧
  ((∃ e, UserService.updateUser userId userData userId false w = (Throw e, w)) ∨
   (∃ user' w',
      UserService.updateUser userId userData userId false w
        = (Ok (Some (SafeUser.of_user user')), w') ∧
      users w' !! userId = Some user' ∧
      IUser.role user' = IUser.role user ∧
      IUser.username user'
        = written (Sql.take 50 <$> PartialIUser.username userData) (IUser.username user) ∧
      IUser.email user'
        = written (Sql.take 100 <$> PartialIUser.email userData) (IUser.email user) ∧
      IUser.password_hash user' = IUser.password_hash user ∧
      IUser.user_id user' = IUser.user_id user ∧
      IUser.created_at user' = IUser.created_at user)).
Proof.
  intros Huser. split.
  - apply updateUser_delete_role.
  - by apply updateUser_self_outcome.
Qed.

Lemma updateUser_self_role_ignored_witness :
  UserService.updateUser 1 Fixture.promotion 1 false Fixture.world
    = UserService.updateUser 1 (PartialIUser.delete_role Fixture.promotion) 1 false
        Fixture.world ∧
  ((∃ e, UserService.updateUser 1 Fixture.promotion 1 false Fixture.world
         = (Throw e, Fixture.world)) ∨
   (∃ user' w',
      UserService.updateUser 1 Fixture.promotion 1 false Fixture.world
        = (Ok (Some (SafeUser.of_user user')), w') ∧
      users w' !! 1 = Some user' ∧
      IUser.role user' = IUser.role Fixture.alice ∧
      IUser.username user'
        = written (Sql.take 50 <$> PartialIUser.username Fixture.promotion)
            (IUser.username Fixture.alice) ∧
      IUser.email user'
        = written (Sql.take 100 <$> PartialIUser.email Fixture.promotion)
            (IUser.email Fixture.alice) ∧
      IUser.password_hash user' = IUser.password_hash Fixture.alice ∧
      IUser.user_id user' = IUser.user_id Fixture.alice ∧
      IUser.created_at user' = IUser.created_at Fixture.alice)).
Proof.
  apply (updateUser_self_role_ignored Fixture.world 1 Fixture.promotion Fixture.alice).
  reflexivity.
Defined.

(** C8 does not hold of every field of the payload: a user who updates
    their own profile with a new name, a role and a password hash gets the
    new name, keeps their role, and keeps their hash too; the update
    writes no column but the name, the address and the role. *)
Lemma updateUser_hash_not_written :
  let stored :=
    IUser.mk 1 "alice2" "alice@example.com" (Fixture.bcrypt_hash "Valid123!") (Some "user")
      (Fixture.now - 30 * msPerDay) Fixture.now in
  let out := UserService.updateUser 1 Fixture.promotion 1 false Fixture.world in
  PartialIUser.password_hash Fixture.promotion = Some "hash:Chosen123!" ∧
  out.1 = Ok (Some (SafeUser.of_user stored)) ∧
  users out.2 !! 1 = Some stored ∧
  IUser.password_hash stored ≠ "hash:Chosen123!".
Proof.
  intros stored out. split; [reflexivity|]. split; [vm_compute; reflexivity|].
  split; [vm_compute; reflexivity|]. vm_compute. discriminate.
Qed.

(** * Further properties of the task service *)

(** What a successful [TaskRepository.create] did: it read the clock once
    and inserted, under the next key of the sequence, the row of the
    payload with the status PENDING and the local day of its due date;
    the database had accepted the row. *)
Lemma create_ok data w task w' :
  TaskRepository.create data w = (Ok task, w') →
  ∃ user_id title due_date,
    ITaskCreate.user_id data = Some user_id ∧
    ITaskCreate.title data = Some title ∧
    TaskRepository.sqlDate (tzOffset w) (ITaskCreate.due_date data) = Some due_date ∧
    insertable user_id (ITaskCreate.category_id data) (ITaskCreate.priority_id data) w ∧
    let row :=
      TaskRow.mk (tasks_task_id_seq w) user_id (ITaskCreate.category_id data)
        (ITaskCreate.priority_id data) title (ITaskCreate.description data) due_date
        (TaskStatus.value TaskStatus.PENDING) (clock w (ticks w)) (clock w (ticks w)) in
    task = Task.fromDatabaseRow row ∧
    w' = mkWorld (<[tasks_task_id_seq w := row]> (tasks w)) (tasks_task_id_seq w + 1)
           (users w) (clock w) (S (ticks w)) (tzOffset w) (categories w) (priorities w).
Proof.
  unfold TaskRepository.create. rewrite bind_eq.
  pose proof (validateCreate_world data w) as Hworld.
  destruct (Task.validateCreate data w) as [[[]|e] w0]; [|done].
  cbn in Hworld. subst w0. step.
  destruct (ITaskCreate.user_id data) as [user_id|]; [|done].
  destruct (ITaskCreate.title data) as [title|]; [|done].
  destruct (TaskRepository.sqlDate _ _) as [due_date|]; [|done].
  rewrite bind_eq.
  destruct (TaskRepository.insertRow _ w) as [[r|e] w1] eqn:Hinsert; [|done].
  pose proof Hinsert as Hrow.
  apply insertRow_ok in Hrow as (-> & -> & Hseq & Hkey & Howner & Hcategory & Hpriority).
  intros [= <- <-].
  exists user_id, title, due_date. split_and!; try done.
  revert Hinsert. unfold TaskRepository.insertRow, insertable. cbn.
  destruct (negb _) eqn:Hbound; [done|]. intros _.
  apply negb_false_iff in Hbound. rewrite !andb_true_iff in Hbound.
  destruct Hbound as [[[? ?] ?] ?]. by split_and!.
Qed.

(** The values that a due date of a payload and the column [due_date]
    take: the column holds midnight, local time, of the day of the
    payload. *)
Lemma sqlDate_setHours0 tz dueDate due_date :
  TaskRepository.sqlDate tz dueDate = Some due_date →
  ValidDate <$> due_date = JSDate.setHours0 tz <$> dueDate.
Proof. destruct dueDate as [[t|]|]; by intros [= <-]. Qed.

(** The check of the due date in [createTask] and [updateTask] reads the
    clock at most once and writes nothing else. *)
Lemma validateDueDate_run dueDate w :
  (∃ e, TaskService.validateDueDate dueDate w = (Throw e, tick w)) ∨
  TaskService.validateDueDate dueDate w = (Ok (), tick w) ∨
  (dueDate = None ∧ TaskService.validateDueDate dueDate w = (Ok (), w)).
Proof.
  destruct dueDate as [[d|]|].
  - rewrite validateDueDate_valid. case_bool_decide; [left; by eexists|right; by left].
  - right; by left.
  - right; by right.
Qed.

(** X1.  A task that [createTask] returns can be read back: right after
    the call, [getTaskById] of its key returns the same task.  The task
    has the owner and the title of the payload and the next key of the
    sequence; its due date is the day of the due date of the payload, at
    midnight, local time, since the column keeps the day only.  The key
    was free and the owner is a user, and no other row of the table has
    changed. *)
Theorem createTask_then_getTaskById taskData w task w' :
  TaskService.createTask taskData w = (Ok task, w') →
  TaskService.getTaskById (ITask.task_id task) w' = (Ok (Some task), w') ∧
  ITaskCreate.user_id taskData = Some (ITask.user_id task) ∧
  ITaskCreate.title taskData = Some (ITask.title task) ∧
  ITask.due_date task = JSDate.setHours0 (tzOffset w) <$> ITaskCreate.due_date taskData ∧
  ITask.task_id task = tasks_task_id_seq w ∧
  tasks_task_id_seq w' = tasks_task_id_seq w + 1 ∧
  tasks w !! ITask.task_id task = None ∧
  is_Some (users w !! ITask.user_id task) ∧
  ∀ id, id ≠ ITask.task_id task → tasks w' !! id = tasks w !! id.
Proof.
  unfold TaskService.createTask. rewrite bind_eq.
  match goal with |- context [match ?c w with _ => _ end] => set (check := c) end.
  assert (Hcheck : (∃ e w0, check w = (Throw e, w0)) ∨
            ∃ w0, check w = (Ok (), w0) ∧
                  tasks w0 = tasks w ∧ tasks_task_id_seq w0 = tasks_task_id_seq w ∧
                  users w0 = users w ∧ tzOffset w0 = tzOffset w).
  { unfold check. destruct (ITaskCreate.due_date taskData) as [dueDate|];
      [|right; by exists w].
    destruct (validateDueDate_run (Some dueDate) w) as [[e He]|[He|[? He]]]; rewrite He;
      [left; by exists e, (tick w)|right; by exists (tick w)|right; by exists w]. }
  destruct Hcheck as [(e & w0 & ->)|(w0 & -> & Hw0)]; [done|].
  destruct Hw0 as (Htasks & Hseq & Husers & Htz).
  intros (user_id & title & due_date & Huser & Htitle & Hdue & Hinsertable & -> & ->)%create_ok.
  destruct Hinsertable as (_ & _ & _ & _ & Hkey & Howner & _).
  rewrite Htasks, Hseq, Husers, Htz in *.
  unfold TaskService.getTaskById. rewrite findById_run. cbn.
  rewrite lookup_insert_eq. split_and!; try done.
  - by apply sqlDate_setHours0.
  - intros id Hid. by rewrite lookup_insert_ne.
Qed.

Lemma createTask_then_getTaskById_witness :
  let taskData := Fixture.newTask (Some (ValidDate Fixture.now)) in
  let task := Task.fromDatabaseRow (Fixture.newRow Fixture.now) in
  let w' := Fixture.worldWith (Fixture.newRow Fixture.now) in
  TaskService.getTaskById (ITask.task_id task) w' = (Ok (Some task), w') ∧
  ITaskCreate.user_id taskData = Some (ITask.user_id task) ∧
  ITaskCreate.title taskData = Some (ITask.title task) ∧
  ITask.due_date task
    = JSDate.setHours0 (tzOffset Fixture.world) <$> ITaskCreate.due_date taskData ∧
  ITask.task_id task = tasks_task_id_seq Fixture.world ∧
  tasks_task_id_seq w' = tasks_task_id_seq Fixture.world + 1 ∧
  tasks Fixture.world !! ITask.task_id task = None ∧
  is_Some (users Fixture.world !! ITask.user_id task) ∧
  ∀ id, id ≠ ITask.task_id task → tasks w' !! id = tasks Fixture.world !! id.
Proof.
  intros taskData task w'.
  apply (createTask_then_getTaskById taskData Fixture.world task w').
  vm_compute. reflexivity.
Defined.

(** [Task.validateCreate] accepts the payloads that are [validCreate], and
    throws a 400 error on the others. *)
Lemma validateCreate_run data w :
  (Task.validateCreate data w = (Ok (), w) ∧ validCreate data) ∨
  (∃ e, Task.validateCreate data w = (Throw e, w) ∧ ApiError.statusCode e = 400 ∧
        ¬ validCreate data).
Proof.
  unfold validCreate, Task.validateCreate. step.
  destruct (truthyNumber (ITaskCreate.user_id data)); step.
  2:{ right. eexists. split_and!; [done..|]. by intros [? _]. }
  destruct (ITaskCreate.title data) as [title|]; step.
  2:{ right. eexists. split_and!; [done..|]. by intros (_ & (? & ? & _) & _). }
  rewrite blank_title_check. case_bool_decide as Hblank; step.
  { right. eexists. split_and!; [done..|]. by intros (_ & (? & [= <-] & [? _]) & _). }
  case_bool_decide as Hlong; step.
  { right. eexists. split_and!; [done..|]. intros (_ & (? & [= <-] & [_ ?]) & _). lia. }
  destruct (ITaskCreate.due_date data) as [[d|]|]; step.
  - left. split_and!; [done..| |done]. exists title. repeat split; [done|lia].
  - right. eexists. split_and!; [done..|]. by intros (_ & _ & ?).
  - left. split_and!; [done..| |done]. exists title. repeat split; [done|lia].
Qed.

(** X2.  [Task.validateCreate] accepts a payload exactly when the owner is
    present and not zero, the title is present, not blank and of at most
    100 characters, and the due date is absent or a valid date; every
    other payload makes it throw a 400 error.  It never writes. *)
Theorem validateCreate_accepts data w :
  (Task.validateCreate data w = (Ok (), w) ↔ validCreate data) ∧
  (¬ validCreate data →
   ∃ e, Task.validateCreate data w = (Throw e, w) ∧ ApiError.statusCode e = 400).
Proof.
  destruct (validateCreate_run data w) as [[Hrun Hvalid]|(e & Hrun & Hcode & Hinvalid)];
    rewrite Hrun.
  - split; [done|]. by intros [].
  - split; [split; [done|by intros ?]|]. intros _. by exists e.
Qed.

(** [Task.validateUpdate] accepts the payloads that are [validUpdate], and
    throws a 400 error on the others. *)
Lemma validateUpdate_run data w :
  (Task.validateUpdate data w = (Ok (), w) ∧ validUpdate data) ∨
  (∃ e, Task.validateUpdate data w = (Throw e, w) ∧ ApiError.statusCode e = 400 ∧
        ¬ validUpdate data).
Proof.
  unfold validUpdate, Task.validateUpdate. step.
  case_bool_decide as Hkeys; step.
  { apply length_zero_iff_nil in Hkeys.
    right. eexists. split_and!; [done..|]. by intros [? _]. }
  assert (Hnonempty : ITaskUpdate.keys data ≠ []).
  { intros Hnil. by rewrite Hnil in Hkeys. }
  assert (Htitle :
    (∃ e, match ITaskUpdate.title data with
          | Some title =>
              throwIf (bool_decide (String.length (JSString.trim title) = 0%nat))
                (ApiError.badRequest "Task title cannot be empty" "INVALID_TITLE");;
              throwIf (bool_decide (100 < String.length title)%nat)
                (ApiError.badRequest "Task title must be 100 characters or less"
                   "INVALID_TITLE_LENGTH")
          | None => ret ()
          end w = (Throw e, w) ∧ ApiError.statusCode e = 400 ∧
          ¬ ∀ title, ITaskUpdate.title data = Some title → validTitle title) ∨
    (match ITaskUpdate.title data with
     | Some title =>
         throwIf (bool_decide (String.length (JSString.trim title) = 0%nat))
           (ApiError.badRequest "Task title cannot be empty" "INVALID_TITLE");;
         throwIf (bool_decide (100 < String.length title)%nat)
           (ApiError.badRequest "Task title must be 100 characters or less"
              "INVALID_TITLE_LENGTH")
     | None => ret ()
     end w = (Ok (), w) ∧
     ∀ title, ITaskUpdate.title data = Some title → validTitle title)).
  { destruct (ITaskUpdate.title data) as [title|]; step; [|by right].
    case_bool_decide as Hblank; step.
    { apply length_zero_iff in Hblank. left. eexists. split_and!; [done..|].
      intros Hvalid. by destruct (Hvalid title eq_refl). }
    case_bool_decide as Hlong; step.
    { left. eexists. split_and!; [done..|].
      intros Hvalid. destruct (Hvalid title eq_refl). lia. }
    right. split; [done|]. intros ? [= <-]. split; [|lia].
    intros Hnil. by rewrite Hnil in Hblank. }
  rewrite bind_eq.
  destruct Htitle as [(e & -> & Hcode & Hinvalid)|[-> Hvalid]].
  { right. exists e. split_and!; [done..|]. by intros (_ & ? & _). }
  step. destruct (ITaskUpdate.due_date data) as [[d|]|] eqn:Hdue; step.
  2:{ right. eexists. split_and!; [done..|]. by intros (_ & _ & ? & _). }
  all: destruct (ITaskUpdate.status data) as [status|] eqn:Hstatus; cbn [JSString.truthy];
    [|left; split_and!; by try done].
  all: case_bool_decide as Hempty; step.
  all: try (left; split_and!; [done..|]; intros ? [= <-]; by left).
  all: unfold TaskStatus.includes; case_bool_decide as Hmember; step.
  all: try (left; split_and!; [done..|]; intros ? [= <-]; by right).
  all: right; eexists; split_and!; [done..|]; intros (_ & _ & _ & Hs);
    by destruct (Hs status eq_refl).
Qed.

(** X3.  [Task.validateUpdate] accepts a payload exactly when it has some
    field, its title, if present, is not blank and of at most 100
    characters, its due date, if present, is a valid date, and its status,
    if present, is empty or a member of the enum; every other payload
    makes it throw a 400 error.  It never writes. *)
Theorem validateUpdate_accepts data w :
  (Task.validateUpdate data w = (Ok (), w) ↔ validUpdate data) ∧
  (¬ validUpdate data →
   ∃ e, Task.validateUpdate data w = (Throw e, w) ∧ ApiError.statusCode e = 400).
Proof.
  destruct (validateUpdate_run data w) as [[Hrun Hvalid]|(e & Hrun & Hcode & Hinvalid)];
    rewrite Hrun.
  - split; [done|]. by intros [].
  - split; [split; [done|by intros ?]|]. intros _. by exists e.
Qed.

(** For a caller who does not own the task, the three operations throw and
    write nothing. *)
Lemma not_owner_forbidden_run w taskId taskData userId row :
  tasks w !! taskId = Some row →
  TaskRow.user_id row ≠ userId →
  TaskService.updateTask taskId taskData userId w = (Throw forbiddenTask, w) ∧
  TaskService.deleteTask taskId userId w = (Throw forbiddenTask, w) ∧
  (∀ status, TaskService.changeTaskStatus taskId status userId w = (Throw forbiddenTask, w)).
Proof.
  intros Hrow Hne.
  unfold TaskService.updateTask, TaskService.deleteTask, TaskService.changeTaskStatus,
    TaskService.authorizeTaskOperation.
  split_and!; [| |intros status]; rewrite bind_eq, findById_run, Hrow; step;
    by rewrite bool_decide_true by done.
Qed.

(** What [TaskRepository.update] does to a row that exists: it throws the
    error of the validator, or, for a category or a priority that is not
    a row of its table, the error of the rejected query, and writes
    nothing; or it reads the clock and stores the row with the clauses of
    the payload applied. *)
Lemma update_existing taskId data row w :
  tasks w !! taskId = Some row →
  (∃ e, TaskRepository.update taskId data w = (Throw e, w) ∧ ¬ validUpdate data) ∨
  (validUpdate data ∧
   ¬ referable data w ∧
   TaskRepository.update taskId data w
   = (Throw (ApiError.mk "Error updating task" 500 "SERVER_ERROR"), w)) ∨
  (∃ due_date,
     validUpdate data ∧
     referable data w ∧
     TaskRepository.sqlDate (tzOffset w) (ITaskUpdate.due_date data) = Some due_date ∧
     let row' := TaskRepository.setClauses data due_date (clock w (ticks w)) row in
     TaskRepository.update taskId data w
     = (Ok (Some (Task.fromDatabaseRow row')),
        mkWorld (<[taskId := row']> (tasks w)) (tasks_task_id_seq w) (users w) (clock w)
          (S (ticks w)) (tzOffset w) (categories w) (priorities w))).
Proof.
  intros Hrow. unfold TaskRepository.update. rewrite bind_eq, findById_run, Hrow. step.
  rewrite Hrow. step. rewrite bind_eq.
  destruct (validateUpdate_run data w) as [[-> Hvalid]|(e & -> & _ & Hinvalid)].
  - right. rewrite bool_decide_false.
    2:{ intros Hkeys%length_zero_iff_nil. by destruct Hvalid. }
    assert (Hdue := proj1 (proj2 (proj2 Hvalid))). step.
    destruct (negb _ || negb _) eqn:Hbroken.
    + left. split; [done|]. split; [|by destruct (ITaskUpdate.due_date data) as [[d|]|]].
      intros [Hcategory Hpriority]. by rewrite Hcategory, Hpriority in Hbroken.
    + right. apply orb_false_iff in Hbroken as [Hcategory%negb_false_iff Hpriority%negb_false_iff].
      destruct (ITaskUpdate.due_date data) as [[d|]|]; [| done |];
        [exists (Some (Sql.date (tzOffset w) d))|exists None]; by split_and!.
  - left. by exists e.
Qed.

(** The part of [updateTask] that comes before the repository, for the
    owner of an existing task: the check of the due date. *)
Lemma updateTask_owner taskId taskData row w :
  tasks w !! taskId = Some row →
  TaskService.updateTask taskId taskData (TaskRow.user_id row) w
  = ((if ITaskUpdate.due_date taskData is Some _
      then TaskService.validateDueDate (ITaskUpdate.due_date taskData)
      else ret ());;
     TaskRepository.update taskId taskData) w.
Proof.
  intros Hrow.
  unfold TaskService.updateTask, TaskService.authorizeTaskOperation.
  rewrite (bind_eq (TaskRepository.findById taskId)), findById_run, Hrow. step.
  by rewrite bool_decide_false by (intros Hne; by apply Hne).
Qed.

(** The tasks that [updateTask] can return belong to the caller. *)
Lemma updateTask_some_owner taskId taskData userId w task w' :
  TaskService.updateTask taskId taskData userId w = (Ok (Some task), w') →
  ∃ row, tasks w !! taskId = Some row ∧ TaskRow.user_id row = userId.
Proof.
  unfold TaskService.updateTask, TaskService.authorizeTaskOperation.
  rewrite bind_eq, findById_run.
  destruct (tasks w !! taskId) as [row|]; step; [|by destruct (Sql.isInt taskId)].
  case_bool_decide as Howner; step; [done|].
  intros _. exists row. split; [done|]. by destruct (decide (TaskRow.user_id row = userId)).
Qed.

(** X4.  A successful [updateTask] is a partial update of the caller's own
    task: the key, the owner and the date of creation of the row stay, a
    column whose field is absent from the payload keeps its value, a
    column whose field is present takes it, and no other row changes.  Of
    a due date the column keeps the day: the stored due date is midnight,
    local time, of the day of the payload.  A category and a priority of
    the payload are rows of their tables.  The task returned is the
    stored row. *)
Theorem updateTask_partial taskId taskData userId w task w' :
  TaskService.updateTask taskId taskData userId w = (Ok (Some task), w') →
  ∃ row row',
    tasks w !! taskId = Some row ∧
    TaskRow.user_id row = userId ∧
    tasks w' = <[taskId := row']> (tasks w) ∧
    task = Task.fromDatabaseRow row' ∧
    TaskRow.task_id row' = TaskRow.task_id row ∧
    TaskRow.user_id row' = TaskRow.user_id row ∧
    TaskRow.created_at row' = TaskRow.created_at row ∧
    TaskRow.title row' = default (TaskRow.title row) (ITaskUpdate.title taskData) ∧
    TaskRow.status row' = default (TaskRow.status row) (ITaskUpdate.status taskData) ∧
    TaskRow.description row'
      = ITaskUpdate.description taskData ∪ TaskRow.description row ∧
    TaskRow.category_id row'
      = ITaskUpdate.category_id taskData ∪ TaskRow.category_id row ∧
    TaskRow.priority_id row'
      = ITaskUpdate.priority_id taskData ∪ TaskRow.priority_id row ∧
    (ValidDate <$> TaskRow.due_date row')
      = (JSDate.setHours0 (tzOffset w) <$> ITaskUpdate.due_date taskData)
        ∪ (ValidDate <$> TaskRow.due_date row) ∧
    referable taskData w.
Proof.
  intros Hrun.
  destruct (updateTask_some_owner _ _ _ _ _ _ Hrun) as (row & Hrow & <-).
  rewrite (updateTask_owner _ _ _ _ Hrow), bind_eq in Hrun.
  match type of Hrun with context [match ?c w with _ => _ end] => set (check := c) in * end.
  assert (Hcheck : (∃ e w0, check w = (Throw e, w0)) ∨
            ∃ w0, check w = (Ok (), w0) ∧ tasks w0 = tasks w ∧ tzOffset w0 = tzOffset w ∧
                  categories w0 = categories w ∧ priorities w0 = priorities w).
  { unfold check. destruct (ITaskUpdate.due_date taskData) as [dueDate|];
      [|right; by exists w].
    destruct (validateDueDate_run (Some dueDate) w) as [[e He]|[He|[? He]]]; rewrite He;
      [left; by exists e, (tick w)|right; by exists (tick w)|right; by exists w]. }
  destruct Hcheck as [(e & w0 & Hc)|(w0 & Hc & Htasks & Htz & Hcategories & Hpriorities)];
    rewrite Hc in Hrun; [done|].
  rewrite <- Htasks in Hrow.
  destruct (update_existing taskId taskData row w0 Hrow)
    as [(e & He & _)|[(_ & _ & He)|(due_date & _ & Hreferable & Hdue & Hupdate)]];
    rewrite ?He, ?Hupdate in Hrun; [done..|].
  injection Hrun as <- <-. rewrite Htasks in Hrow. cbn [tasks]. rewrite Htasks.
  rewrite Htz in Hdue. unfold referable in *. rewrite Hcategories, Hpriorities in Hreferable.
  eexists row, _. split_and!; try done.
  - cbn. by destruct (ITaskUpdate.description taskData), (TaskRow.description row).
  - cbn. by destruct (ITaskUpdate.category_id taskData), (TaskRow.category_id row).
  - cbn. by destruct (ITaskUpdate.priority_id taskData), (TaskRow.priority_id row).
  - cbn. destruct (ITaskUpdate.due_date taskData) as [[d|]|]; simplify_eq/=;
      by destruct (TaskRow.due_date row).
  - apply Hreferable.
  - apply Hreferable.
Qed.

(** The example: the report, due the next day, is put off to the
    afternoon three days from now; the row keeps the day. *)
Lemma updateTask_partial_witness :
  let taskData := Fixture.changes (Some (ValidDate (Fixture.now + 3 * msPerDay))) in
  let row' :=
    TaskRow.mk 1 1 None None "Complete the project report" None
      (Some (Fixture.today + 3 * msPerDay)) "pending"
      (Fixture.now - 10 * msPerDay) Fixture.now in
  let w' :=
    mkWorld (<[1 := row']> (tasks Fixture.world)) 7 (users Fixture.world)
      (clock Fixture.world) 2 Fixture.tz (categories Fixture.world)
      (priorities Fixture.world) in
  TaskService.updateTask 1 taskData 1 Fixture.world
    = (Ok (Some (Task.fromDatabaseRow row')), w') ∧
  ∃ row row',
    tasks Fixture.world !! 1 = Some row ∧
    TaskRow.user_id row = 1 ∧
    tasks w' = <[1 := row']> (tasks Fixture.world) ∧
    Task.fromDatabaseRow (TaskRow.mk 1 1 None None "Complete the project report" None
      (Some (Fixture.today + 3 * msPerDay)) "pending"
      (Fixture.now - 10 * msPerDay) Fixture.now) = Task.fromDatabaseRow row' ∧
    TaskRow.task_id row' = TaskRow.task_id row ∧
    TaskRow.user_id row' = TaskRow.user_id row ∧
    TaskRow.created_at row' = TaskRow.created_at row ∧
    TaskRow.title row' = default (TaskRow.title row) (ITaskUpdate.title taskData) ∧
    TaskRow.status row' = default (TaskRow.status row) (ITaskUpdate.status taskData) ∧
    TaskRow.description row'
      = ITaskUpdate.description taskData ∪ TaskRow.description row ∧
    TaskRow.category_id row'
      = ITaskUpdate.category_id taskData ∪ TaskRow.category_id row ∧
    TaskRow.priority_id row'
      = ITaskUpdate.priority_id taskData ∪ TaskRow.priority_id row ∧
    (ValidDate <$> TaskRow.due_date row')
      = (JSDate.setHours0 (tzOffset Fixture.world) <$> ITaskUpdate.due_date taskData)
        ∪ (ValidDate <$> TaskRow.due_date row) ∧
    referable taskData Fixture.world.
Proof.
  intros taskData row' w'.
  assert (Hrun : TaskService.updateTask 1 taskData 1 Fixture.world
                 = (Ok (Some (Task.fromDatabaseRow row')), w'))
    by (vm_compute; reflexivity).
  split; [exact Hrun|].
  exact (updateTask_partial 1 taskData 1 Fixture.world _ w' Hrun).
Defined.

(** X5.  An update with an empty payload changes nothing: for the owner of
    an existing task, [updateTask] throws NO_UPDATE_DATA and leaves the
    world as it was. *)
Theorem updateTask_empty_payload taskId taskData row w :
  tasks w !! taskId = Some row →
  ITaskUpdate.keys taskData = [] →
  TaskService.updateTask taskId taskData (TaskRow.user_id row) w
  = (Throw (ApiError.badRequest "No data provided for update" "NO_UPDATE_DATA"), w).
Proof.
  intros Hrow Hkeys. rewrite (updateTask_owner _ _ _ _ Hrow).
  assert (Hdue : ITaskUpdate.due_date taskData = None).
  { unfold ITaskUpdate.keys in Hkeys.
    destruct (ITaskUpdate.due_date taskData); [|done].
    by repeat (apply app_eq_nil in Hkeys as [? Hkeys]). }
  rewrite Hdue. step.
  unfold TaskRepository.update. rewrite bind_eq, findById_run, Hrow. step. rewrite Hrow.
  unfold Task.validateUpdate. step. by rewrite Hkeys.
Qed.

Lemma updateTask_empty_payload_witness :
  TaskService.updateTask 1 (ITaskUpdate.mk None None None None None None) 1 Fixture.world
  = (Throw (ApiError.badRequest "No data provided for update" "NO_UPDATE_DATA"),
     Fixture.world).
Proof.
  apply (updateTask_empty_payload 1 (ITaskUpdate.mk None None None None None None)
           Fixture.report Fixture.world); reflexivity.
Defined.

(** X6.  For a key that has no task, the lookup that every operation
    starts with decides the outcome, whatever the payload, the status and
    the caller, before any check of them, and nothing is written.  When
    the key is a value of the type of the column, [updateTask],
    [changeTaskStatus] and [getTaskById] return null and [deleteTask]
    returns false.  When it is not, the database rejects the query and
    all four throw the 500 error of the lookup. *)
Theorem missing_task_is_null taskId taskData status userId w :
  tasks w !! taskId = None →
  (Sql.isInt taskId = true →
   TaskService.updateTask taskId taskData userId w = (Ok None, w) ∧
   TaskService.changeTaskStatus taskId status userId w = (Ok None, w) ∧
   TaskService.deleteTask taskId userId w = (Ok false, w) ∧
   TaskService.getTaskById taskId w = (Ok None, w)) ∧
  (Sql.isInt taskId = false →
   TaskService.updateTask taskId taskData userId w = (Throw findTaskFailed, w) ∧
   TaskService.changeTaskStatus taskId status userId w = (Throw findTaskFailed, w) ∧
   TaskService.deleteTask taskId userId w = (Throw findTaskFailed, w) ∧
   TaskService.getTaskById taskId w = (Throw findTaskFailed, w) ∧
   ApiError.statusCode findTaskFailed = 500).
Proof.
  intros Hnone.
  unfold TaskService.updateTask, TaskService.changeTaskStatus, TaskService.deleteTask,
    TaskService.getTaskById.
  rewrite !bind_eq, !findById_run, Hnone. split; intros ->; by split_and!.
Qed.

Lemma missing_task_is_null_witness :
  (Sql.isInt 99 = true →
   TaskService.updateTask 99 (Fixture.changes (Some InvalidDate)) 1 Fixture.world
     = (Ok None, Fixture.world) ∧
   TaskService.changeTaskStatus 99 "no such status" 1 Fixture.world
     = (Ok None, Fixture.world) ∧
   TaskService.deleteTask 99 1 Fixture.world = (Ok false, Fixture.world) ∧
   TaskService.getTaskById 99 Fixture.world = (Ok None, Fixture.world)) ∧
  (Sql.isInt 99 = false →
   TaskService.updateTask 99 (Fixture.changes (Some InvalidDate)) 1 Fixture.world
     = (Throw findTaskFailed, Fixture.world) ∧
   TaskService.changeTaskStatus 99 "no such status" 1 Fixture.world
     = (Throw findTaskFailed, Fixture.world) ∧
   TaskService.deleteTask 99 1 Fixture.world = (Throw findTaskFailed, Fixture.world) ∧
   TaskService.getTaskById 99 Fixture.world = (Throw findTaskFailed, Fixture.world) ∧
   ApiError.statusCode findTaskFailed = 500).
Proof.
  apply (missing_task_is_null 99 (Fixture.changes (Some InvalidDate)) "no such status" 1
           Fixture.world).
  reflexivity.
Defined.

(** The two cases of X6 at the example: the key 99 has no task and is a
    value of the type of the column; 2147483648 is not. *)
Example missing_task_examples :
  TaskService.getTaskById 99 Fixture.world = (Ok None, Fixture.world) ∧
  TaskService.deleteTask 99 1 Fixture.world = (Ok false, Fixture.world) ∧
  TaskService.getTaskById 2147483648 Fixture.world = (Throw findTaskFailed, Fixture.world) ∧
  TaskService.deleteTask 2147483648 1 Fixture.world = (Throw findTaskFailed, Fixture.world).
Proof. split_and!; vm_compute; reflexivity. Qed.

(** What [changeTaskStatus] does for the owner of a task. *)
Lemma changeTaskStatus_owner_run taskId status row w :
  tasks w !! taskId = Some row →
  let row' :=
    TaskRow.mk (TaskRow.task_id row) (TaskRow.user_id row) (TaskRow.category_id row)
      (TaskRow.priority_id row) (TaskRow.title row) (TaskRow.description row)
      (TaskRow.due_date row) status (TaskRow.created_at row) (clock w (ticks w)) in
  (status ∈ TaskStatus.values →
   TaskService.changeTaskStatus taskId status (TaskRow.user_id row) w
   = (Ok (Some (Task.fromDatabaseRow row')),
      mkWorld (<[taskId := row']> (tasks w)) (tasks_task_id_seq w) (users w) (clock w)
        (S (ticks w)) (tzOffset w) (categories w) (priorities w))) ∧
  (status ∉ TaskStatus.values →
   TaskService.changeTaskStatus taskId status (TaskRow.user_id row) w
   = (Throw (ApiError.badRequest
               "Status must be one of: pending, in_progress, completed, cancelled"
               "INVALID_STATUS"), w)).
Proof.
  intros Hrow row'.
  unfold TaskService.changeTaskStatus, TaskRepository.changeStatus,
    TaskService.authorizeTaskOperation, TaskStatus.includes, Sql.selectByKey.
  rewrite !bind_eq, !findById_run, Hrow. step.
  rewrite bool_decide_false by (intros Hne; by apply Hne). step.
  split; intros Hstatus.
  - rewrite bool_decide_true by done. step. rewrite Hrow. by step.
  - by rewrite bool_decide_false by done.
Qed.


(** X7.  [changeTaskStatus] by the owner of a task accepts any of the four
    statuses whatever the current one: it stores the status and the time
    of the call in the row, changes no other column and no other row, and
    returns the stored row.  Any other status makes it throw
    INVALID_STATUS and write nothing. *)
Theorem changeTaskStatus_owner taskId status row w :
  tasks w !! taskId = Some row →
  let row' :=
    TaskRow.mk (TaskRow.task_id row) (TaskRow.user_id row) (TaskRow.category_id row)
      (TaskRow.priority_id row) (TaskRow.title row) (TaskRow.description row)
      (TaskRow.due_date row) status (TaskRow.created_at row) (clock w (ticks w)) in
  (status ∈ TaskStatus.values →
   TaskService.changeTaskStatus taskId status (TaskRow.user_id row) w
   = (Ok (Some (Task.fromDatabaseRow row')),
      mkWorld (<[taskId := row']> (tasks w)) (tasks_task_id_seq w) (users w) (clock w)
        (S (ticks w)) (tzOffset w) (categories w) (priorities w))) ∧
  (status ∉ TaskStatus.values →
   TaskService.changeTaskStatus taskId status (TaskRow.user_id row) w
   = (Throw (ApiError.badRequest
               "Status must be one of: pending, in_progress, completed, cancelled"
               "INVALID_STATUS"), w)).
Proof. apply changeTaskStatus_owner_run. Qed.

Lemma changeTaskStatus_owner_witness :
  let reopened :=
    TaskRow.mk 4 1 None None "Send invoice" None (Some (Fixture.today + 1 * msPerDay))
      "pending" (Fixture.now - 10 * msPerDay) Fixture.now in
  TaskService.changeTaskStatus 4 "pending" 1 Fixture.world
    = (Ok (Some (Task.fromDatabaseRow reopened)),
       mkWorld (<[4 := reopened]> (tasks Fixture.world)) 7 (users Fixture.world)
         (clock Fixture.world) 1 Fixture.tz (categories Fixture.world)
         (priorities Fixture.world)) ∧
  TaskService.changeTaskStatus 4 "done" 1 Fixture.world
    = (Throw (ApiError.badRequest
                "Status must be one of: pending, in_progress, completed, cancelled"
                "INVALID_STATUS"), Fixture.world).
Proof.
  split.
  - refine (proj1 (changeTaskStatus_owner 4 "pending" Fixture.invoice Fixture.world _) _).
    + reflexivity.
    + vm_compute. by left.
  - refine (proj2 (changeTaskStatus_owner 4 "done" Fixture.invoice Fixture.world _) _).
    + reflexivity.
    + vm_compute. intros H. by repeat (apply elem_of_cons in H as [H|H]; [done|]);
        apply elem_of_nil in H.
Defined.

(** X8.  [deleteTask] by the owner of a task returns true and removes the
    row and no other: right after the call, [getTaskById] of the key
    finds no task.  It returns null, the key being a value of the type of
    the column as the keys of the table are; for a key that is not, the
    lookup throws its 500 error. *)
Theorem deleteTask_owner taskId row w :
  tasks w !! taskId = Some row →
  let w' := set_tasks (base.delete taskId) w in
  TaskService.deleteTask taskId (TaskRow.user_id row) w = (Ok true, w') ∧
  TaskService.getTaskById taskId w'
    = (if Sql.isInt taskId then Ok None else Throw findTaskFailed, w') ∧
  tasks w' !! taskId = None ∧
  ∀ id, id ≠ taskId → tasks w' !! id = tasks w !! id.
Proof.
  intros Hrow w'.
  unfold TaskService.deleteTask, TaskRepository.delete, TaskService.getTaskById,
    TaskService.authorizeTaskOperation, Sql.selectByKey.
  rewrite !bind_eq, !findById_run, Hrow. step.
  rewrite bool_decide_false by (intros Hne; by apply Hne). step.
  rewrite Hrow. step. rewrite bool_decide_true by done. cbn.
  rewrite lookup_delete_eq. split_and!; [done..|].
  intros id Hid. by rewrite lookup_delete_ne.
Qed.

Lemma deleteTask_owner_witness :
  let w' := set_tasks (base.delete 3) Fixture.world in
  TaskService.deleteTask 3 1 Fixture.world = (Ok true, w') ∧
  TaskService.getTaskById 3 w' = (if Sql.isInt 3 then Ok None else Throw findTaskFailed, w') ∧
  tasks w' !! 3 = None ∧
  ∀ id, id ≠ 3 → tasks w' !! id = tasks Fixture.world !! id.
Proof.
  apply (deleteTask_owner 3 Fixture.slides Fixture.world). reflexivity.
Defined.

(** The table after [createTask]: as before, or with one more row, whose
    status is PENDING. *)
Lemma createTask_tasks taskData w :
  tasks (TaskService.createTask taskData w).2 = tasks w ∨
  ∃ id row, TaskRow.status row = TaskStatus.value TaskStatus.PENDING ∧
            tasks (TaskService.createTask taskData w).2 = <[id := row]> (tasks w).
Proof.
  unfold TaskService.createTask. rewrite bind_eq.
  match goal with |- context [match ?c w with _ => _ end] => set (check := c) end.
  assert (Hcheck : ∃ r w0, check w = (r, w0) ∧ tasks w0 = tasks w).
  { unfold check. destruct (ITaskCreate.due_date taskData) as [dueDate|];
      [|by exists (Ok ()), w].
    destruct (validateDueDate_run (Some dueDate) w) as [[e He]|[He|[? He]]]; rewrite He;
      [by exists (Throw e), (tick w)|by exists (Ok ()), (tick w)|by exists (Ok ()), w]. }
  destruct Hcheck as (r & w0 & -> & Htasks). destruct r as [[]|e]; [|by left].
  destruct (TaskRepository.create taskData w0) as [[task|e] w'] eqn:Hcreate.
  - apply create_ok in Hcreate as (u & t & d & _ & _ & _ & _ & _ & ->).
    right. eexists _, _. split; [|by rewrite <- Htasks]. done.
  - left. rewrite <- Htasks. clear Htasks check. revert Hcreate.
    unfold TaskRepository.create. rewrite bind_eq.
    pose proof (validateCreate_world taskData w0) as Hworld.
    destruct (Task.validateCreate taskData w0) as [[[]|e'] w1]; cbn in Hworld; subst w1;
      [|by intros [= _ <-]].
    step.
    destruct (ITaskCreate.user_id taskData); [|by intros [= _ <-]].
    destruct (ITaskCreate.title taskData); [|by intros [= _ <-]].
    destruct (TaskRepository.sqlDate _ _); [|by intros [= _ <-]].
    rewrite bind_eq.
    destruct (TaskRepository.insertRow _ w0) as [[r|e''] w2] eqn:Hinsert; [done|].
    apply insertRow_throw in Hinsert as (Hrows & _). by intros [= _ <-].
Qed.

(** The table after [updateTask]: as before, or with the row of the key
    replaced, its status being the one of a payload that the validator
    accepts, or else the one it had. *)
Lemma updateTask_tasks taskId taskData userId w :
  tasks (TaskService.updateTask taskId taskData userId w).2 = tasks w ∨
  ∃ row row',
    tasks w !! taskId = Some row ∧ validUpdate taskData ∧
    TaskRow.status row' = default (TaskRow.status row) (ITaskUpdate.status taskData) ∧
    tasks (TaskService.updateTask taskId taskData userId w).2 = <[taskId := row']> (tasks w).
Proof.
  destruct (tasks w !! taskId) as [row|] eqn:Hrow.
  2:{ left. unfold TaskService.updateTask. rewrite bind_eq, findById_run, Hrow.
      by destruct (Sql.isInt taskId). }
  destruct (decide (TaskRow.user_id row = userId)) as [<-|Hne].
  2:{ left. by rewrite (proj1 (not_owner_forbidden_run w taskId taskData userId row Hrow Hne)). }
  rewrite (updateTask_owner _ _ _ _ Hrow), bind_eq.
  match goal with |- context [match ?c w with _ => _ end] => set (check := c) end.
  assert (Hcheck : ∃ r w0, check w = (r, w0) ∧ tasks w0 = tasks w).
  { unfold check. destruct (ITaskUpdate.due_date taskData) as [dueDate|];
      [|by exists (Ok ()), w].
    destruct (validateDueDate_run (Some dueDate) w) as [[e He]|[He|[? He]]]; rewrite He;
      [by exists (Throw e), (tick w)|by exists (Ok ()), (tick w)|by exists (Ok ()), w]. }
  destruct Hcheck as (r & w0 & -> & Htasks). destruct r as [[]|e]; [|by left].
  rewrite <- Htasks in Hrow.
  destruct (update_existing taskId taskData row w0 Hrow)
    as [(e & -> & _)|[(_ & _ & ->)|(due_date & Hvalid & _ & _ & ->)]]; [by left..|].
  right. exists row, (TaskRepository.setClauses taskData due_date (clock w0 (ticks w0)) row).
  rewrite <- Htasks. by split_and!.
Qed.

(** The table after [changeTaskStatus]: as before, or with the row of the
    key replaced by a row with a status of the enum. *)
Lemma changeTaskStatus_tasks taskId status userId w :
  tasks (TaskService.changeTaskStatus taskId status userId w).2 = tasks w ∨
  ∃ row', TaskRow.status row' ∈ TaskStatus.values ∧
          tasks (TaskService.changeTaskStatus taskId status userId w).2
          = <[taskId := row']> (tasks w).
Proof.
  destruct (tasks w !! taskId) as [row|] eqn:Hrow.
  2:{ left. unfold TaskService.changeTaskStatus. rewrite bind_eq, findById_run, Hrow.
      by destruct (Sql.isInt taskId). }
  destruct (decide (TaskRow.user_id row = userId)) as [<-|Hne].
  2:{ left. destruct (not_owner_forbidden_run w taskId
              (ITaskUpdate.mk None None None None None None) userId row Hrow Hne)
        as (_ & _ & Hforbidden). by rewrite Hforbidden. }
  destruct (changeTaskStatus_owner_run taskId status row w Hrow) as [Hvalid Hinvalid].
  destruct (decide (status ∈ TaskStatus.values)) as [Hstatus|Hstatus].
  - right. rewrite (Hvalid Hstatus). eexists. split; [|done]. done.
  - left. by rewrite (Hinvalid Hstatus).
Qed.

(** The table after [deleteTask]: as before, or without the row of the
    key. *)
Lemma deleteTask_tasks taskId userId w :
  tasks (TaskService.deleteTask taskId userId w).2 = tasks w ∨
  tasks (TaskService.deleteTask taskId userId w).2 = base.delete taskId (tasks w).
Proof.
  unfold TaskService.deleteTask, TaskRepository.delete,
    TaskService.authorizeTaskOperation, Sql.selectByKey.
  rewrite bind_eq, findById_run.
  destruct (tasks w !! taskId) as [row|] eqn:Hrow; [|left; by destruct (Sql.isInt taskId)].
  step. case_bool_decide; step; [by left|]. rewrite Hrow. by right.
Qed.

(** X9.  The service keeps the statuses of the table within the enum: if
    every row has one of the four statuses before a call of [createTask],
    [changeTaskStatus] or [deleteTask], or of [updateTask] with a payload
    whose status is not the empty string, then every row has one after it,
    whatever the outcome of the call. *)
Theorem statuses_stay_valid w :
  statusesValid w →
  (∀ taskData, statusesValid (TaskService.createTask taskData w).2) ∧
  (∀ taskId status userId,
     statusesValid (TaskService.changeTaskStatus taskId status userId w).2) ∧
  (∀ taskId userId, statusesValid (TaskService.deleteTask taskId userId w).2) ∧
  (∀ taskId taskData userId,
     ITaskUpdate.status taskData ≠ Some EmptyString →
     statusesValid (TaskService.updateTask taskId taskData userId w).2).
Proof.
  intros Hvalid.
  assert (Hinsert : ∀ id row, TaskRow.status row ∈ TaskStatus.values →
            ∀ id' row', <[id := row]> (tasks w) !! id' = Some row' →
            TaskRow.status row' ∈ TaskStatus.values).
  { intros id row Hrow id' row' [[_ <-]|[_ Hold]]%lookup_insert_Some; [done|].
    by apply (Hvalid id'). }
  split_and!.
  - intros taskData id' row'.
    destruct (createTask_tasks taskData w) as [->|(id & row & Hstatus & ->)];
      [apply Hvalid|].
    apply Hinsert. rewrite Hstatus. by left.
  - intros taskId status userId id' row'.
    destruct (changeTaskStatus_tasks taskId status userId w) as [->|(row & Hstatus & ->)];
      [apply Hvalid|by apply Hinsert].
  - intros taskId userId id' row'.
    destruct (deleteTask_tasks taskId userId w) as [->| ->]; [apply Hvalid|].
    intros [_ Hold]%lookup_delete_Some. by apply (Hvalid id').
  - intros taskId taskData userId Hnonempty id' row'.
    destruct (updateTask_tasks taskId taskData userId w)
      as [->|(row & new & Hrow & (_ & _ & _ & Hstatus) & Hnew & ->)]; [apply Hvalid|].
    apply Hinsert. rewrite Hnew.
    destruct (ITaskUpdate.status taskData) as [status|]; cbn.
    + by destruct (Hstatus status eq_refl) as [->|?].
    + by apply (Hvalid taskId).
Qed.

Lemma statuses_stay_valid_witness :
  (∀ taskData, statusesValid (TaskService.createTask taskData Fixture.world).2) ∧
  (∀ taskId status userId,
     statusesValid (TaskService.changeTaskStatus taskId status userId Fixture.world).2) ∧
  (∀ taskId userId, statusesValid (TaskService.deleteTask taskId userId Fixture.world).2) ∧
  (∀ taskId taskData userId,
     ITaskUpdate.status taskData ≠ Some EmptyString →
     statusesValid (TaskService.updateTask taskId taskData userId Fixture.world).2).
Proof.
  apply (statuses_stay_valid Fixture.world).
  intros id row Hrow. unfold Fixture.world in Hrow. cbn in Hrow.
  repeat (apply lookup_insert_Some in Hrow as [[_ <-]|[_ Hrow]];
          [vm_compute; set_solver|]).
  by rewrite lookup_empty in Hrow.
Defined.

(** The empty string is the exception: the validator does not look at an
    empty status and the update stores it. *)
Example updateTask_empty_status :
  ∃ row, tasks (TaskService.updateTask 1
                  (ITaskUpdate.mk None None None None None (Some EmptyString)) 1
                  Fixture.world).2 !! 1 = Some row ∧
         TaskRow.status row = EmptyString.
Proof. eexists. split; [vm_compute; reflexivity|reflexivity]. Qed.

(** * Queries *)

#[local] Instance orderBy_total : Total TaskRepository.orderBy.
Proof.
  intros r1 r2. unfold TaskRepository.orderBy.
  destruct (TaskRow.due_date r1), (TaskRow.due_date r2); lia || tauto.
Qed.

#[local] Instance orderBy_transitive : Transitive TaskRepository.orderBy.
Proof.
  intros r1 r2 r3. unfold TaskRepository.orderBy.
  destruct (TaskRow.due_date r1), (TaskRow.due_date r2), (TaskRow.due_date r3);
    lia || tauto.
Qed.

(** In a strongly sorted list, an earlier element is related to every
    later one. *)
Lemma StronglySorted_lookup_lt {A} (R : relation A) (l : list A) i j x y :
  StronglySorted R l → l !! i = Some x → l !! j = Some y → (i < j)%nat → R x y.
Proof.
  intros Hsorted. revert i j.
  induction Hsorted as [|z l Hsorted IH Hall]; intros i j Hi Hj Hlt; [done|].
  destruct j as [|j]; [lia|]. destruct i as [|i]; simplify_eq/=.
  - by eapply Forall_lookup_1.
  - apply (IH i j); [done..|lia].
Qed.

(** An ordered selection returns the tasks of the rows that satisfy its
    condition, each row as often as it is in the table, sorted by
    [orderBy], and writes nothing. *)
Lemma selectOrdered_run (P : TaskRow.t → Prop) `{!∀ row, Decision (P row)} w :
  ∃ rows,
    TaskRepository.selectOrdered P w = (Ok (Task.fromDatabaseRow <$> rows), w) ∧
    StronglySorted TaskRepository.orderBy rows ∧
    ∀ row, row ∈ rows ↔ inTasks row w ∧ P row.
Proof.
  unfold TaskRepository.selectOrdered. step. eexists. split; [done|].
  split; [apply StronglySorted_merge_sort; apply _|].
  intros row. rewrite merge_sort_Permutation, list_elem_of_filter, list_elem_of_fmap.
  unfold inTasks. split.
  - intros [HP ([id row'] & -> & Hin%elem_of_map_to_list)]. eauto.
  - intros [[id Hid] HP]. split; [done|]. exists (id, row). split; [done|].
    by apply elem_of_map_to_list.
Qed.

(** The tasks of an ordered selection that belong to a user. *)
Lemma selectOrdered_owned (P : TaskRow.t → Prop) `{!∀ row, Decision (P row)} userId w :
  ∃ tasks,
    TaskRepository.selectOrdered P w = (Ok tasks, w) ∧
    ∀ task,
      task ∈ List.filter (λ task, bool_decide (ITask.user_id task = userId)) tasks ↔
      ∃ row, inTasks row w ∧ task = Task.fromDatabaseRow row ∧
             TaskRow.user_id row = userId ∧ P row.
Proof.
  destruct (selectOrdered_run P w) as (rows & Hrun & _ & Helem).
  eexists. split; [done|]. intros task.
  rewrite list_elem_of_In, filter_In, <- list_elem_of_In, list_elem_of_fmap,
    bool_decide_eq_true.
  split.
  - intros [(row & -> & [Hin HP]%Helem) Howner]. by exists row.
  - intros (row & Hin & -> & Howner & HP). split; [|done]. exists row.
    split; [done|]. by apply Helem.
Qed.

(** X10.  [getTasksByCategory] and [getTasksByPriority] return exactly the
    caller's own tasks of the category, or of the priority: a task of
    another user is never among them, whatever the role of the caller.
    They write nothing. *)
Theorem tasks_by_category_and_priority categoryId priorityId userId w :
  ∃ byCategory byPriority,
    TaskService.getTasksByCategory categoryId userId w = (Ok byCategory, w) ∧
    TaskService.getTasksByPriority priorityId userId w = (Ok byPriority, w) ∧
    (∀ task, task ∈ byCategory ↔
       ∃ row, inTasks row w ∧ task = Task.fromDatabaseRow row ∧
              TaskRow.user_id row = userId ∧
              TaskRow.category_id row = Some categoryId) ∧
    (∀ task, task ∈ byPriority ↔
       ∃ row, inTasks row w ∧ task = Task.fromDatabaseRow row ∧
              TaskRow.user_id row = userId ∧
              TaskRow.priority_id row = Some priorityId).
Proof.
  destruct (selectOrdered_owned (λ row, TaskRow.category_id row = Some categoryId) userId w)
    as (tasks1 & Hrun1 & Helem1).
  destruct (selectOrdered_owned (λ row, TaskRow.priority_id row = Some priorityId) userId w)
    as (tasks2 & Hrun2 & Helem2).
  eexists _, _.
  unfold TaskService.getTasksByCategory, TaskService.getTasksByPriority,
    TaskRepository.findByCategoryId, TaskRepository.findByPriorityId.
  rewrite !bind_eq, Hrun1, Hrun2. by split_and!.
Qed.

(** X11.  [getTasksByStatus] returns exactly the tasks of the user whose
    status is the given string, and writes nothing. *)
Theorem getTasksByStatus_exact userId status w :
  ∃ tasks,
    TaskService.getTasksByStatus userId status w = (Ok tasks, w) ∧
    ∀ task, task ∈ tasks ↔
      ∃ row, inTasks row w ∧ task = Task.fromDatabaseRow row ∧
             TaskRow.user_id row = userId ∧ TaskRow.status row = status.
Proof.
  unfold TaskService.getTasksByStatus, TaskRepository.findByUserIdWhere.
  destruct (selectOrdered_run
    (λ row, TaskRow.user_id row = userId ∧
            TaskRepository.andEquals None (TaskRow.category_id row) ∧
            TaskRepository.andEquals None (TaskRow.priority_id row) ∧
            TaskRepository.andEquals (Some status) (Some (TaskRow.status row))) w)
    as (rows & Hrun & _ & Helem).
  eexists. split; [exact Hrun|]. intros task. rewrite list_elem_of_fmap. split.
  - intros (row & -> & [Hin (Howner & _ & _ & Hstatus)]%Helem). exists row.
    split_and!; try done. cbn in Hstatus. by simplify_eq.
  - intros (row & Hin & -> & Howner & Hstatus). exists row. split; [done|].
    apply Helem. split; [done|]. split_and!; try done. cbn. by rewrite Hstatus.
Qed.

(** X12.  [getUserTasks] returns the tasks of the rows of the user, in the
    order of the query: a task with a due date comes before every task
    without one, due dates ascend, and tasks with the same due date, or
    with none, are ordered by date of creation, the newest first. *)
Theorem getUserTasks_sorted userId w :
  ∃ rows,
    TaskService.getUserTasks userId w = (Ok (Task.fromDatabaseRow <$> rows), w) ∧
    StronglySorted TaskRepository.orderBy rows ∧
    (∀ row, row ∈ rows ↔ inTasks row w ∧ TaskRow.user_id row = userId) ∧
    ∀ i j r1 r2, rows !! i = Some r1 → rows !! j = Some r2 → (i < j)%nat →
      match TaskRow.due_date r1, TaskRow.due_date r2 with
      | Some d1, Some d2 =>
          d1 < d2 ∨ (d1 = d2 ∧ TaskRow.created_at r2 ≤ TaskRow.created_at r1)
      | Some _, None => True
      | None, Some _ => False
      | None, None => TaskRow.created_at r2 ≤ TaskRow.created_at r1
      end.
Proof.
  destruct (selectOrdered_run (λ row, TaskRow.user_id row = userId) w)
    as (rows & Hrun & Hsorted & Helem).
  exists rows. split; [exact Hrun|]. split; [done|]. split; [done|].
  intros i j r1 r2 Hi Hj Hlt.
  apply (StronglySorted_lookup_lt TaskRepository.orderBy rows i j r1 r2); done.
Qed.
(** X13.  The rule on due dates, for any number of days: with a valid due
    date in the payload, [createTask], and [updateTask] called by the owner
    of an existing task, fail with INVALID_DUE_DATE exactly when the local
    day of the due date is before the local day of the call; a due date on
    the day of the call or on any later day never fails so.  The due date
    is any date whose day starts within the range of [Date]: every date
    but some of the first day of that range, in the year -271821. *)
Theorem due_date_rejected_iff_earlier_day w d :
  dayInRange (tzOffset w) d →
  let today := JSDate.localDay (tzOffset w) (clock w (ticks w)) in
  let day := JSDate.localDay (tzOffset w) d in
  (∀ taskData,
     ITaskCreate.due_date taskData = Some (ValidDate d) →
     failsWith "INVALID_DUE_DATE" (TaskService.createTask taskData w) ↔ day < today) ∧
  (∀ taskId updateData row,
     ITaskUpdate.due_date updateData = Some (ValidDate d) →
     tasks w !! taskId = Some row →
     failsWith "INVALID_DUE_DATE"
       (TaskService.updateTask taskId updateData (TaskRow.user_id row) w) ↔ day < today).
Proof.
  intros _ today day.
  pose proof (validateDueDate_valid w d) as Hv. fold today day in Hv.
  split.
  - intros taskData Hc. unfold TaskService.createTask. rewrite Hc, !bind_eq, Hv.
    case_bool_decide as Hday.
    + split; [done|]. intros _. by exists dueDateInPast.
    + split; [|lia]. intros Hfails. exfalso.
      by apply (create_valid_date taskData d (tick w)).
  - intros taskId updateData row Hu Hrow.
    rewrite (updateTask_owner _ _ _ _ Hrow). rewrite Hu, !bind_eq, Hv.
    case_bool_decide as Hday.
    + split; [done|]. intros _. by exists dueDateInPast.
    + split; [|lia]. intros Hfails. exfalso.
      by apply (update_valid_date taskId updateData d (tick w)).
Qed.

Lemma due_date_rejected_iff_earlier_day_witness :
  let lastWeek := Fixture.now - 7 * msPerDay in
  dayInRange Fixture.tz lastWeek ∧
  (failsWith "INVALID_DUE_DATE"
     (TaskService.createTask (Fixture.newTask (Some (ValidDate lastWeek))) Fixture.world)
   ↔ JSDate.localDay Fixture.tz lastWeek < JSDate.localDay Fixture.tz Fixture.now) ∧
  (failsWith "INVALID_DUE_DATE"
     (TaskService.updateTask 1 (Fixture.changes (Some (ValidDate lastWeek))) 1 Fixture.world)
   ↔ JSDate.localDay Fixture.tz lastWeek < JSDate.localDay Fixture.tz Fixture.now).
Proof.
  intros lastWeek.
  assert (Hrange : dayInRange (tzOffset Fixture.world) lastWeek) by by vm_compute.
  destruct (due_date_rejected_iff_earlier_day Fixture.world lastWeek Hrange)
    as [Hcreate Hupdate].
  split; [exact Hrange|]. split.
  - apply Hcreate. reflexivity.
  - apply (Hupdate 1 (Fixture.changes (Some (ValidDate lastWeek))) Fixture.report);
      reflexivity.
Defined.

(** * Further properties of the user service *)

(** A test against a character class succeeds exactly when a character of
    the class occurs. *)
Lemma test_hasChar class s : JSString.test class s = true ↔ hasChar class s.
Proof.
  unfold hasChar. induction s as [|c s IH]; cbn.
  - split; [done|]. by intros (c & Hin%elem_of_nil & _).
  - rewrite orb_true_iff, IH. split.
    + intros [Hc|(c' & Hin & Hc')]; [exists c; split; [left|done]|].
      exists c'. split; [by right|done].
    + intros (c' & [->|Hin]%elem_of_cons & Hc'); [by left|]. right. by exists c'.
Qed.

(** X14.  [validatePasswordStrength] returns true exactly for the
    passwords of at least 8 characters that have an uppercase letter, a
    lowercase letter, a digit and a character of the punctuation class.
    On any other password it throws the error of the first rule, in that
    order, that the password breaks.  It never writes. *)
Theorem validatePasswordStrength_rules password w :
  let out := PasswordUtils.validatePasswordStrength password w in
  let long := (8 ≤ String.length password)%nat in
  let upper := hasChar PasswordUtils.upper password in
  let lower := hasChar PasswordUtils.lower password in
  let digit := hasChar PasswordUtils.digit password in
  let special := hasChar PasswordUtils.special password in
  out.2 = w ∧
  (out.1 = Ok true ↔ strongPassword password) ∧
  (¬ long → failsWith "PASSWORD_TOO_SHORT" out) ∧
  (long → ¬ upper → failsWith "PASSWORD_NEEDS_UPPERCASE" out) ∧
  (long → upper → ¬ lower → failsWith "PASSWORD_NEEDS_LOWERCASE" out) ∧
  (long → upper → lower → ¬ digit → failsWith "PASSWORD_NEEDS_NUMBER" out) ∧
  (long → upper → lower → digit → ¬ special → failsWith "PASSWORD_NEEDS_SPECIAL" out).
Proof.
  cbv zeta. unfold strongPassword. rewrite <- !test_hasChar.
  unfold PasswordUtils.validatePasswordStrength, failsWith. step.
  case_bool_decide as Hlength; step;
    [|destruct (JSString.test PasswordUtils.upper password); step;
      [destruct (JSString.test PasswordUtils.lower password); step;
       [destruct (JSString.test PasswordUtils.digit password); step;
        [destruct (JSString.test PasswordUtils.special password); step|]|]|]].
  all: split_and!; try done; try (intros; lia); try (by intros; eexists);
    (split; [done || (intros _; split_and!; done || lia)|]);
    try done; by (intros (? & ? & ? & ? & ?); done || lia).
Qed.

(** X15.  [login] returns a session exactly when a user has the address
    and the password passes the comparison with the stored hash.  The
    session carries that user without the hash and the tokens made from
    the stored key, name, address and role, and the call writes nothing. *)
Theorem login_succeeds_iff bcrypt_compare generateTokens email password w session w' :
  UserService.login bcrypt_compare generateTokens email password w = (Ok session, w') ↔
  ∃ user,
    UserRepository.findByEmail email w = (Ok (Some user), w) ∧
    bcrypt_compare password (IUser.password_hash user) = true ∧
    (let tokens := generateTokens
       (IUserTokenPayload.mk (IUser.user_id user) (IUser.username user)
          (IUser.email user) (IUser.role user)) in
     session = UserService.mkSession (SafeUser.of_user user) tokens.1 tokens.2) ∧
    w' = w.
Proof.
  unfold UserService.login. rewrite bind_eq.
  destruct (UserRepository.findByEmail email w) as [[[user|]|e] w0] eqn:Hfind.
  - apply findByEmail_some in Hfind as Hw0. destruct Hw0 as [-> _]. step.
    destruct (bcrypt_compare password (IUser.password_hash user)) eqn:Hmatch; step.
    + split.
      * intros [= <- <-]. by exists user.
      * by intros (user' & [= <-] & _ & -> & ->).
    + split; [done|]. intros (user' & [= <-] & Hmatch' & _). congruence.
  - split; [done|]. by intros (user & [=] & _).
  - split; [done|]. by intros (user & [=] & _).
Qed.

(** X16.  A caller who is not an administrator and asks to update or to
    delete the account of somebody else is refused with FORBIDDEN, and
    nothing is written.  The account is looked up first: when it does not
    exist, [updateUser] returns null and [deleteUser] returns false
    instead, for a key that is a value of the type of the column; for a
    key that is not, the database rejects the lookup and both throw its
    500 error. *)
Theorem not_self_not_admin userId userData currentUserId w :
  userId ≠ currentUserId →
  match users w !! userId with
  | Some _ =>
      UserService.updateUser userId userData currentUserId false w
        = (Throw (ApiError.forbidden "You are not authorized to update this profile"
                    "FORBIDDEN"), w) ∧
      UserService.deleteUser userId currentUserId false w
        = (Throw (ApiError.forbidden "You are not authorized to delete this account"
                    "FORBIDDEN"), w)
  | None =>
      UserService.updateUser userId userData currentUserId false w
        = (if Sql.isInt userId then Ok None else Throw findUserFailed, w) ∧
      UserService.deleteUser userId currentUserId false w
        = (if Sql.isInt userId then Ok false else Throw findUserFailed, w)
  end.
Proof.
  intros Hne. unfold UserService.updateUser, UserService.deleteUser.
  rewrite !bind_eq, !findUserById_run.
  destruct (users w !! userId); step; [|by destruct (Sql.isInt userId)].
  by rewrite bool_decide_true by done.
Qed.

Lemma not_self_not_admin_witness :
  (UserService.updateUser 1 Fixture.promotion 2 false Fixture.world
     = (Throw (ApiError.forbidden "You are not authorized to update this profile"
                 "FORBIDDEN"), Fixture.world) ∧
   UserService.deleteUser 1 2 false Fixture.world
     = (Throw (ApiError.forbidden "You are not authorized to delete this account"
                 "FORBIDDEN"), Fixture.world)) ∧
  (UserService.updateUser 9 Fixture.promotion 2 false Fixture.world
     = (Ok None, Fixture.world) ∧
   UserService.deleteUser 9 2 false Fixture.world = (Ok false, Fixture.world)) ∧
  (UserService.updateUser 2147483648 Fixture.promotion 2 false Fixture.world
     = (Throw findUserFailed, Fixture.world) ∧
   UserService.deleteUser 2147483648 2 false Fixture.world
     = (Throw findUserFailed, Fixture.world)).
Proof.
  split_and!.
  - apply (not_self_not_admin 1 Fixture.promotion 2 Fixture.world). lia.
  - apply (not_self_not_admin 1 Fixture.promotion 2 Fixture.world). lia.
  - apply (not_self_not_admin 9 Fixture.promotion 2 Fixture.world). lia.
  - apply (not_self_not_admin 9 Fixture.promotion 2 Fixture.world). lia.
  - apply (not_self_not_admin 2147483648 Fixture.promotion 2 Fixture.world). lia.
  - apply (not_self_not_admin 2147483648 Fixture.promotion 2 Fixture.world). lia.
Defined.

(** The existence checks answer true when a row has the address, or the
    name. *)
Lemma selectWhere_nonempty (P : IUser.t → Prop) `{!∀ u, Decision (P u)} w id user :
  users w !! id = Some user → P user →
  ∃ rows, UserRepository.selectWhere P w = (Ok rows, w) ∧ (0 < List.length rows)%nat.
Proof.
  intros Hid HP. unfold UserRepository.selectWhere. step. eexists. split; [done|].
  assert (Hin : user ∈ filter P (map_to_list (users w)).*2).
  { apply list_elem_of_filter. split; [done|]. apply list_elem_of_fmap.
    exists (id, user). split; [done|]. by apply elem_of_map_to_list. }
  destruct (filter P _); [by apply elem_of_nil in Hin|cbn; lia].
Qed.

Lemma emailExists_taken email w id user :
  users w !! id = Some user → IUser.email user = email →
  UserRepository.emailExists email w = (Ok true, w).
Proof.
  intros Hid Hemail. unfold UserRepository.emailExists. rewrite bind_eq.
  destruct (selectWhere_nonempty (λ u, IUser.email u = email) w id user Hid Hemail)
    as (rows & -> & Hlen). step. by rewrite bool_decide_true.
Qed.

Lemma usernameExists_taken username w id user :
  users w !! id = Some user → IUser.username user = username →
  UserRepository.usernameExists username w = (Ok true, w).
Proof.
  intros Hid Hname. unfold UserRepository.usernameExists. rewrite bind_eq.
  destruct (selectWhere_nonempty (λ u, IUser.username u = username) w id user Hid Hname)
    as (rows & -> & Hlen). step. by rewrite bool_decide_true.
Qed.

(** The existence checks answer false exactly when no row has the
    address, or the name. *)
Lemma selectWhere_empty (P : IUser.t → Prop) `{!∀ u, Decision (P u)} w :
  (∀ id user, users w !! id = Some user → ¬ P user) ↔
  UserRepository.selectWhere P w = (Ok [], w).
Proof.
  unfold UserRepository.selectWhere. step. split.
  - intros Hnone. do 2 f_equal.
    destruct (filter P _) as [|user rows] eqn:Hrows; [done|].
    assert (Hin : user ∈ user :: rows) by left.
    rewrite <- Hrows in Hin. apply list_elem_of_filter in Hin as [HP Hin].
    apply list_elem_of_fmap in Hin as ([id user'] & -> & Hin%elem_of_map_to_list).
    by destruct (Hnone id user' Hin).
  - intros [= Hrows] id user Hid HP.
    assert (Hin : user ∈ filter P (map_to_list (users w)).*2).
    { apply list_elem_of_filter. split; [done|]. apply list_elem_of_fmap.
      exists (id, user). split; [done|]. by apply elem_of_map_to_list. }
    rewrite Hrows in Hin. by apply elem_of_nil in Hin.
Qed.

Lemma emailExists_free email w :
  (∀ id user, users w !! id = Some user → IUser.email user ≠ email) ↔
  UserRepository.emailExists email w = (Ok false, w).
Proof.
  rewrite (selectWhere_empty (λ u, IUser.email u = email)).
  unfold UserRepository.emailExists. rewrite bind_eq.
  destruct (UserRepository.selectWhere _ w) as [[rows|e] w0] eqn:Hselect; [|done].
  step. split.
  - by intros [= -> ->].
  - intros [= Hlen ->]. apply bool_decide_eq_false in Hlen.
    destruct rows; [done|cbn in Hlen; lia].
Qed.

Lemma usernameExists_free username w :
  (∀ id user, users w !! id = Some user → IUser.username user ≠ username) ↔
  UserRepository.usernameExists username w = (Ok false, w).
Proof.
  rewrite (selectWhere_empty (λ u, IUser.username u = username)).
  unfold UserRepository.usernameExists. rewrite bind_eq.
  destruct (UserRepository.selectWhere _ w) as [[rows|e] w0] eqn:Hselect; [|done].
  step. split.
  - by intros [= -> ->].
  - intros [= Hlen ->]. apply bool_decide_eq_false in Hlen.
    destruct rows; [done|cbn in Hlen; lia].
Qed.

(** A uniqueness check passes for a value that is falsy, the current one,
    or the value of no row. *)
Lemma uniqueness_check_passes (supplied : option string) (current : string)
    (found : string → M bool) (e : ApiError.t) w :
  (∀ value, supplied = Some value → value ≠ EmptyString → value ≠ current →
     found value w = (Ok false, w)) →
  (if JSString.truthy supplied && bool_decide (supplied ≠ Some current)
   then let! found := found (default EmptyString supplied) in throwIf found e
   else ret ()) w = (Ok (), w).
Proof.
  intros Hfree. destruct supplied as [value|]; [|done]. cbn [JSString.truthy default].
  destruct (decide (value = EmptyString)) as [->|Hnonempty]; [done|].
  rewrite (bool_decide_false (value = EmptyString)) by done. cbn [negb andb].
  case_bool_decide as Hdiffers; [|done].
  rewrite bind_eq. change (id value) with value.
  rewrite (Hfree value eq_refl Hnonempty) by congruence. done.
Qed.

(** The constraint [UNIQUE] holds of a value that is falsy or the value of
    no other row. *)
Lemma unique_passes {V} (column : V → string) (table : gmap Z V) id
    (supplied : option string) :
  (∀ value, supplied = Some value → value ≠ EmptyString →
     ∀ key row, table !! key = Some row → key ≠ id → column row ≠ value) →
  JSString.truthy supplied && negb (Sql.unique column table id (default EmptyString supplied))
  = false.
Proof.
  intros Hfree. destruct supplied as [value|]; [|done]. cbn [JSString.truthy default].
  destruct (decide (value = EmptyString)) as [->|Hnonempty]; [done|].
  rewrite (bool_decide_false (value = EmptyString)) by done. cbn [negb andb].
  apply negb_false_iff, unique_spec. by apply Hfree.
Qed.

(** A name that no other row has and that is not the name of the row of
    the key is the name of no row. *)
Lemma free_of_others {V} (column : V → string) (table : gmap Z V) id current value :
  table !! id = Some current →
  (∀ key row, table !! key = Some row → key ≠ id → column row ≠ value) →
  value ≠ column current →
  ∀ key row, table !! key = Some row → column row ≠ value.
Proof.
  intros Hcurrent Hothers Hdiffers key row Hrow.
  destruct (decide (key = id)) as [->|Hkey]; [|by apply (Hothers key)].
  rewrite Hcurrent in Hrow. injection Hrow as <-. congruence.
Qed.

(** What [UserRepository.update] does to a row that exists, for a payload
    that the database accepts: it returns the row that it leaves under
    the key.  That row has the truthy name, address and role of the
    payload, and the values of the row before in every other column but
    the time of the update; no other row changes. *)
Lemma update_user_accepts id userData user w :
  users w !! id = Some user →
  updatable userData id w →
  ∃ user' w',
    UserRepository.update id userData w = (Ok (Some user'), w') ∧
    users w' !! id = Some user' ∧
    (∀ id', id' ≠ id → users w' !! id' = users w !! id') ∧
    tasks w' = tasks w ∧
    IUser.username user' = written (PartialIUser.username userData) (IUser.username user) ∧
    IUser.email user' = written (PartialIUser.email userData) (IUser.email user) ∧
    IUser.role user'
      = (if JSString.truthy (PartialIUser.role userData)
         then PartialIUser.role userData else IUser.role user) ∧
    IUser.password_hash user' = IUser.password_hash user ∧
    IUser.user_id user' = IUser.user_id user ∧
    IUser.created_at user' = IUser.created_at user.
Proof.
  intros Huser (Hname & Hemail & Hfits1 & Hfits2 & Hfits3).
  unfold UserRepository.update. rewrite bind_eq, findUserById_run, Huser. step.
  rewrite bind_eq, uniqueness_check_passes.
  2:{ intros name Hsupplied Hnonempty Hdiffers. apply usernameExists_free.
      apply (free_of_others IUser.username (users w) id user name Huser); [|done].
      by apply Hname. }
  rewrite bind_eq, uniqueness_check_passes.
  2:{ intros email Hsupplied Hnonempty Hdiffers. apply emailExists_free.
      apply (free_of_others IUser.email (users w) id user email Huser); [|done].
      by apply Hemail. }
  unfold written. step.
  destruct (negb (JSString.truthy (PartialIUser.username userData))
            && negb (JSString.truthy (PartialIUser.email userData))
            && negb (JSString.truthy (PartialIUser.role userData))) eqn:Hnone; step.
  - exists user, w. apply andb_true_iff in Hnone as [[Hn He]%andb_true_iff Hr].
    apply negb_true_iff in Hn, He, Hr. rewrite Hn, He, Hr. by split_and!.
  - rewrite kept_fits by done.
    rewrite (unique_passes IUser.username (users w) id _ Hname).
    rewrite (unique_passes IUser.email (users w) id _ Hemail). step.
    eexists _, _. split; [done|]. cbn. rewrite lookup_insert_eq. split_and!; try done.
    intros id' Hid'. by rewrite lookup_insert_ne.
Qed.

(** For a caller who may update the account, [updateUser] passes a
    payload that the database accepts on to the repository: neither of
    its own checks of the address and of the name throws. *)
Lemma updateUser_allowed userId userData currentUserId isAdmin user w :
  users w !! userId = Some user →
  userId = currentUserId ∨ isAdmin = true →
  updatable userData userId w →
  UserService.updateUser userId userData currentUserId isAdmin w
  = (let! updatedUser :=
       UserRepository.update userId
         (if JSString.truthy (PartialIUser.role userData) && negb isAdmin
          then PartialIUser.delete_role userData else userData) in
     ret (SafeUser.of_user <$> updatedUser)) w.
Proof.
  intros Huser Hmay (Hname & Hemail & _).
  assert (Hauth : bool_decide (userId ≠ currentUserId) && negb isAdmin = false).
  { destruct Hmay as [<-| ->]; [|apply andb_false_r].
    by rewrite bool_decide_false by (intros Hne; by apply Hne). }
  unfold UserService.updateUser.
  rewrite (bind_eq (UserRepository.findById userId)), findUserById_run, Huser. step.
  rewrite Hauth. step.
  rewrite bind_eq, uniqueness_check_passes.
  2:{ intros email Hsupplied Hnonempty Hdiffers. apply emailExists_free.
      apply (free_of_others IUser.email (users w) userId user email Huser); [|done].
      by apply Hemail. }
  rewrite bind_eq, uniqueness_check_passes.
  2:{ intros name Hsupplied Hnonempty Hdiffers. apply usernameExists_free.
      apply (free_of_others IUser.username (users w) userId user name Huser); [|done].
      by apply Hname. }
  done.
Qed.

(** X17.  With [isAdmin = true], [updateUser] writes the role of the
    payload, whatever string it is: the role is not checked against the
    roles user and admin.  For a payload that the database accepts (a
    name and an address that no other row has, and a name, an address and
    a role that are not longer than their columns, the role at most 20
    characters), the call returns the stored user, and the stored role is
    the role that was asked for. *)
Theorem updateUser_admin_sets_role userId userData currentUserId role user w :
  users w !! userId = Some user →
  PartialIUser.role userData = Some role →
  role ≠ EmptyString →
  updatable userData userId w →
  ∃ user' w',
    UserService.updateUser userId userData currentUserId true w
      = (Ok (Some (SafeUser.of_user user')), w') ∧
    users w' !! userId = Some user' ∧
    IUser.role user' = Some role ∧
    (∀ id, id ≠ userId → users w' !! id = users w !! id).
Proof.
  intros Huser Hrole Hnonempty Hupdatable.
  rewrite (updateUser_allowed _ _ _ _ _ _ Huser (or_intror eq_refl) Hupdatable).
  rewrite andb_false_r, bind_eq.
  destruct (update_user_accepts userId userData user w Huser Hupdatable)
    as (user' & w' & -> & Hstored & Hothers & _ & _ & _ & Hnew & _).
  exists user', w'. split_and!; [done..| |done].
  rewrite Hnew, Hrole. cbn. by rewrite bool_decide_false.
Qed.

Lemma updateUser_admin_sets_role_witness :
  ∃ user' w',
    UserService.updateUser 2 Fixture.promotion 1 true Fixture.world
      = (Ok (Some (SafeUser.of_user user')), w') ∧
    users w' !! 2 = Some user' ∧
    IUser.role user' = Some "admin" ∧
    (∀ id, id ≠ 2 → users w' !! id = users Fixture.world !! id).
Proof.
  apply (updateUser_admin_sets_role 2 Fixture.promotion 1 "admin" Fixture.bob Fixture.world);
    [reflexivity|reflexivity|discriminate|].
  split_and!; [| |cbn; lia..].
  - intros name [= <-] _ id other Hother Hid. unfold Fixture.world in Hother.
    cbn in Hother.
    repeat (apply lookup_insert_Some in Hother as [[_ <-]|[_ Hother]]; [done|]).
    by rewrite lookup_empty in Hother.
  - by intros email [=].
Defined.

(** A role that does not fit its column: the database rejects the update,
    and the administrator gets the 500 error of the repository; nothing
    is written. *)
Example updateUser_role_too_long :
  UserService.updateUser 2
    (PartialIUser.mk None None None None None (Some "administrator-in-chief")) 1 true
    Fixture.world
  = (Throw (ApiError.mk "Error updating user" 500 "SERVER_ERROR"), Fixture.world).
Proof. vm_compute. reflexivity. Qed.

(** A role that is longer than its column by spaces only: the column
    keeps its first 20 characters. *)
Example updateUser_role_cut :
  let role := "auditor              " in
  String.length role = 21%nat ∧
  (UserService.updateUser 2 (PartialIUser.mk None None None None None (Some role)) 1 true
     Fixture.world).1
  = Ok (Some (SafeUser.mk 2 "bob" "bob@example.com" (Some "auditor             ")
                (Fixture.now - 300 * msPerDay) Fixture.now)).
Proof. split; [reflexivity|]. vm_compute. reflexivity. Qed.

(** X18.  [updateUser] refuses an address or a name that another row has,
    and checks the address first: for a caller who may update the account,
    a non-empty address that differs from the current one and is taken
    makes it throw EMAIL_EXISTS whatever the rest of the payload, and, when
    the payload has no address, a non-empty name that differs from the
    current one and is taken makes it throw USERNAME_EXISTS.  Nothing is
    written. *)
Theorem updateUser_taken userId userData currentUserId isAdmin user id other w :
  users w !! userId = Some user →
  userId = currentUserId ∨ isAdmin = true →
  users w !! id = Some other →
  (PartialIUser.email userData = Some (IUser.email other) →
   IUser.email other ≠ EmptyString →
   IUser.email other ≠ IUser.email user →
   UserService.updateUser userId userData currentUserId isAdmin w
   = (Throw (ApiError.badRequest "Email is already in use" "EMAIL_EXISTS"), w)) ∧
  (PartialIUser.email userData = None →
   PartialIUser.username userData = Some (IUser.username other) →
   IUser.username other ≠ EmptyString →
   IUser.username other ≠ IUser.username user →
   UserService.updateUser userId userData currentUserId isAdmin w
   = (Throw (ApiError.badRequest "Username is already in use" "USERNAME_EXISTS"), w)).
Proof.
  intros Huser Hmay Hother.
  assert (Hauth : bool_decide (userId ≠ currentUserId) && negb isAdmin = false).
  { destruct Hmay as [<-| ->]; [|apply andb_false_r].
    by rewrite bool_decide_false by (intros Hne; by apply Hne). }
  unfold UserService.updateUser.
  rewrite bind_eq, findUserById_run, Huser. step. rewrite Hauth.
  step. split.
  - intros -> Hnonempty Hdiffers. cbn [JSString.truthy].
    rewrite bool_decide_false, bool_decide_true by congruence. step.
    by rewrite !bind_eq, (emailExists_taken _ w id other Hother eq_refl).
  - intros -> -> Hnonempty Hdiffers. cbn [JSString.truthy]. step.
    rewrite bool_decide_false, bool_decide_true by congruence. step.
    by rewrite !bind_eq, (usernameExists_taken _ w id other Hother eq_refl).
Qed.

Lemma updateUser_taken_witness :
  UserService.updateUser 1
      (PartialIUser.mk None (Some "bob") (Some "bob@example.com") None None None)
      1 false Fixture.world
    = (Throw (ApiError.badRequest "Email is already in use" "EMAIL_EXISTS"),
       Fixture.world) ∧
  UserService.updateUser 1 (PartialIUser.mk None (Some "bob") None None None None)
      1 false Fixture.world
    = (Throw (ApiError.badRequest "Username is already in use" "USERNAME_EXISTS"),
       Fixture.world).
Proof.
  split.
  - refine (proj1 (updateUser_taken 1
      (PartialIUser.mk None (Some "bob") (Some "bob@example.com") None None None)
      1 false Fixture.alice 2 Fixture.bob Fixture.world _ _ _) _ _ _);
      [reflexivity|by left|reflexivity|reflexivity|discriminate|discriminate].
  - refine (proj2 (updateUser_taken 1
      (PartialIUser.mk None (Some "bob") None None None None)
      1 false Fixture.alice 2 Fixture.bob Fixture.world _ _ _) _ _ _ _);
      [reflexivity|by left|reflexivity|reflexivity|reflexivity|discriminate|discriminate].
Defined.

(** A password that passes the five rules passes [validatePassword]. *)
Lemma validatePassword_strong password w :
  strongPassword password → PasswordUtils.validatePassword password w = (Ok true, w).
Proof.
  intros (Hlong & Hupper & Hlower & Hdigit & Hspecial).
  apply test_hasChar in Hupper, Hlower, Hdigit, Hspecial.
  unfold PasswordUtils.validatePassword, PasswordUtils.validatePasswordStrength.
  rewrite !bind_eq. unfold throwIf.
  rewrite Hupper, Hlower, Hdigit, Hspecial, bool_decide_false by lia. done.
Qed.

(** X19.  The outcomes of [changePassword]: for a user that does not exist
    it throws the 404 error USER_NOT_FOUND, when the key is a value of the
    type of the column, and the 500 error of the rejected lookup when it
    is not; for a current password that fails the comparison with the
    stored hash it throws INVALID_CURRENT_PASSWORD; in these cases nothing
    is written.  For a current password that passes and a new password
    that passes the five rules and differs from it, it returns true and
    replaces the hash of that user with the hash of the new password,
    leaving the other columns but the time of the update, the other users
    and the tasks as they were. *)
Theorem changePassword_outcomes bcrypt_compare bcrypt_hash userId currentPassword
    newPassword w :
  let out :=
    UserService.changePassword bcrypt_compare bcrypt_hash userId currentPassword
      newPassword w in
  match users w !! userId with
  | None =>
      out = (Throw (if Sql.isInt userId
                    then ApiError.notFound "User not found" "USER_NOT_FOUND"
                    else findUserFailed), w)
  | Some user =>
      if bcrypt_compare currentPassword (IUser.password_hash user) then
        strongPassword newPassword →
        currentPassword ≠ newPassword →
        out = (Ok true,
               mkWorld (tasks w) (tasks_task_id_seq w)
                 (<[userId :=
                      IUser.mk (IUser.user_id user) (IUser.username user) (IUser.email user)
                        (bcrypt_hash newPassword) (IUser.role user)
                        (IUser.created_at user) (clock w (ticks w))]> (users w))
                 (clock w) (S (ticks w)) (tzOffset w) (categories w) (priorities w))
      else
        out = (Throw (ApiError.badRequest "Current password is incorrect"
                        "INVALID_CURRENT_PASSWORD"), w)
  end.
Proof.
  cbv zeta. unfold UserService.changePassword. rewrite bind_eq, findUserById_run.
  destruct (users w !! userId) as [user|] eqn:Huser; step;
    [|by destruct (Sql.isInt userId)].
  destruct (bcrypt_compare currentPassword (IUser.password_hash user)); step; [|done].
  intros Hstrong Hdiffers.
  rewrite bind_eq, (validatePassword_strong _ _ Hstrong).
  rewrite bool_decide_false by done. step.
  unfold UserRepository.changePassword, Sql.selectByKey.
  rewrite bind_eq, (validatePassword_strong _ _ Hstrong). step. by rewrite Huser.
Qed.

(** On the fixture: a change that succeeds, after which the old password
    fails the comparison and the new one passes it. *)
Example changePassword_example :
  let out :=
    UserService.changePassword Fixture.bcrypt_compare Fixture.bcrypt_hash 1 "Valid123!"
      "Better456?" Fixture.world in
  out.1 = Ok true ∧
  (UserService.login Fixture.bcrypt_compare Fixture.generateTokens "alice@example.com"
     "Valid123!" out.2).1 = Throw invalidCredentials ∧
  ∃ session,
    (UserService.login Fixture.bcrypt_compare Fixture.generateTokens "alice@example.com"
       "Better456?" out.2).1 = Ok session.
Proof. split; [|split; [|eexists]]; vm_compute; reflexivity. Qed.

(** X20.  [resetPassword] resets nothing: whatever the token and the
    password, it leaves the world, and so every stored hash, as it was.
    It returns true when the password passes the five rules, for any
    token, and throws the error of the rules otherwise. *)
Theorem resetPassword_writes_nothing resetToken newPassword w :
  (UserService.resetPassword resetToken newPassword w).2 = w ∧
  (strongPassword newPassword →
   UserService.resetPassword resetToken newPassword w = (Ok true, w)) ∧
  (¬ strongPassword newPassword →
   ∃ e, UserService.resetPassword resetToken newPassword w = (Throw e, w) ∧
        ApiError.statusCode e = 400).
Proof.
  unfold UserService.resetPassword. rewrite bind_eq.
  destruct (validatePassword_run newPassword w) as [[e He]| He]; rewrite He; step.
  - split; [done|]. split.
    + intros Hstrong. by rewrite (validatePassword_strong _ _ Hstrong) in He.
    + intros _. exists e. split; [done|]. revert He.
      unfold PasswordUtils.validatePassword, PasswordUtils.validatePasswordStrength. run.
      repeat (case_match; simplify_eq/=); by intros [= <-].
  - split; [done|]. split; [done|]. intros Hweak. exfalso. apply Hweak.
    revert He.
    unfold PasswordUtils.validatePassword, PasswordUtils.validatePasswordStrength,
      strongPassword.
    rewrite <- !test_hasChar. run.
    repeat (case_match; simplify_eq/=); try done. intros _.
    repeat match goal with H : negb _ = false |- _ => apply negb_false_iff in H end.
    repeat match goal with H : bool_decide _ = false |- _ => apply bool_decide_eq_false in H end.
    split_and!; [lia|done..].
Qed.

Lemma changePassword_outcomes_witness :
  UserService.changePassword Fixture.bcrypt_compare Fixture.bcrypt_hash 1 "Valid123!"
    "Better456?" Fixture.world
  = (Ok true,
     mkWorld (tasks Fixture.world) 7
       (<[1 := IUser.mk 1 "alice" "alice@example.com" (Fixture.bcrypt_hash "Better456?")
                 (Some "user") (Fixture.now - 30 * msPerDay) Fixture.now]>
          (users Fixture.world))
       (clock Fixture.world) 1 Fixture.tz (categories Fixture.world)
       (priorities Fixture.world)).
Proof.
  refine (changePassword_outcomes Fixture.bcrypt_compare Fixture.bcrypt_hash 1 "Valid123!"
            "Better456?" Fixture.world _ _).
  - split_and!; [vm_compute; lia|apply test_hasChar; vm_compute; reflexivity..].
  - discriminate.
Defined.

(** What [UserRepository.delete] does to a user that exists. *)
Lemma delete_user_run id user w :
  users w !! id = Some user →
  UserRepository.delete id w
  = (Ok true,
     set_tasks (filter (λ entry, TaskRow.user_id entry.2 ≠ id))
       (set_users (base.delete id) w)).
Proof.
  intros Huser. unfold UserRepository.delete, Sql.selectByKey. step. by rewrite Huser.
Qed.

(** X21.  [deleteUser] by the user themselves or by an administrator
    returns true and removes the account: the row of the user is gone, the
    other users stay, and of the tasks exactly those of the user go with
    it. *)
Theorem deleteUser_removes userId currentUserId isAdmin user w :
  users w !! userId = Some user →
  userId = currentUserId ∨ isAdmin = true →
  ∃ w',
    UserService.deleteUser userId currentUserId isAdmin w = (Ok true, w') ∧
    users w' = base.delete userId (users w) ∧
    ∀ id row, tasks w' !! id = Some row ↔
              tasks w !! id = Some row ∧ TaskRow.user_id row ≠ userId.
Proof.
  intros Huser Hmay.
  assert (Hauth : bool_decide (userId ≠ currentUserId) && negb isAdmin = false).
  { destruct Hmay as [<-| ->]; [|apply andb_false_r].
    by rewrite bool_decide_false by (intros Hne; by apply Hne). }
  unfold UserService.deleteUser. rewrite bind_eq, findUserById_run, Huser. step.
  rewrite Hauth. step.
  rewrite (delete_user_run _ _ _ Huser). eexists. split; [done|]. split; [done|].
  intros id row. cbn. by rewrite map_lookup_filter_Some.
Qed.

Lemma deleteUser_removes_witness :
  ∃ w',
    UserService.deleteUser 2 1 true Fixture.world = (Ok true, w') ∧
    users w' = base.delete 2 (users Fixture.world) ∧
    ∀ id row, tasks w' !! id = Some row ↔
              tasks Fixture.world !! id = Some row ∧ TaskRow.user_id row ≠ 2.
Proof.
  apply (deleteUser_removes 2 1 true Fixture.bob Fixture.world); [reflexivity|by right].
Defined.

(** X22.  [refreshAccessToken] trusts the stored user, not the token: for
    a refresh token that verifies, the access token is made from the key,
    name, address and role of the row that the payload names, whatever
    name, address and role the payload itself carries.  When no row has
    the key of the payload, it returns null, for a key that is a value of
    the type of the column; for a key that is not, the lookup is
    rejected and the [catch] block throws its 500 error.  So after a
    [deleteUser] that succeeds, a refresh token of the deleted user
    yields no token. *)
Theorem refreshAccessToken_rereads generateTokens verifyToken refreshToken payload w :
  verifyToken refreshToken true = Some payload →
  let userId := IUserTokenPayload.id payload in
  let absent w0 :=
    UserService.refreshAccessToken generateTokens verifyToken refreshToken w0
    = (if Sql.isInt userId then Ok None else Throw refreshFailed, w0) in
  (∀ user, users w !! userId = Some user →
     UserService.refreshAccessToken generateTokens verifyToken refreshToken w
     = (Ok (Some (generateTokens
                    (IUserTokenPayload.mk (IUser.user_id user) (IUser.username user)
                       (IUser.email user) (IUser.role user))).1), w)) ∧
  (users w !! userId = None → absent w) ∧
  (∀ user currentUserId isAdmin w',
     users w !! userId = Some user →
     UserService.deleteUser userId currentUserId isAdmin w = (Ok true, w') →
     absent w').
Proof.
  intros Hverify userId absent.
  assert (Hnone : ∀ w0, users w0 !! userId = None → absent w0).
  { intros w0 H0. unfold absent, UserService.refreshAccessToken, catchAll.
    rewrite Hverify, bind_eq, findUserById_run. fold userId. rewrite H0.
    by destruct (Sql.isInt userId). }
  split_and!.
  - intros user Huser. unfold UserService.refreshAccessToken, catchAll.
    rewrite Hverify, bind_eq, findUserById_run. fold userId. by rewrite Huser.
  - apply Hnone.
  - intros user currentUserId isAdmin w' Huser Hdelete. apply Hnone.
    revert Hdelete. unfold UserService.deleteUser.
    rewrite bind_eq, findUserById_run, Huser. step. destruct (_ && _); step; [done|].
    rewrite (delete_user_run _ _ _ Huser). intros [= <-]. cbn.
    apply lookup_delete_eq.
Qed.

Lemma refreshAccessToken_rereads_witness :
  let verifyToken (token : string) (isRefresh : bool) :=
    if isRefresh && bool_decide (token = "refresh:bob")
    then Some (IUserTokenPayload.mk 2 "bob" "bob@example.com" (Some "admin"))
    else None in
  UserService.refreshAccessToken Fixture.generateTokens verifyToken "refresh:bob"
    Fixture.world = (Ok (Some "access:bob"), Fixture.world) ∧
  ∃ w', UserService.deleteUser 2 2 false Fixture.world = (Ok true, w') ∧
        UserService.refreshAccessToken Fixture.generateTokens verifyToken "refresh:bob" w'
        = (Ok None, w').
Proof.
  intros verifyToken.
  destruct (refreshAccessToken_rereads Fixture.generateTokens verifyToken "refresh:bob"
              (IUserTokenPayload.mk 2 "bob" "bob@example.com" (Some "admin"))
              Fixture.world eq_refl) as (Hsome & _ & Hdeleted).
  split; [exact (Hsome Fixture.bob eq_refl)|].
  exists (set_tasks (filter (λ entry, TaskRow.user_id entry.2 ≠ 2))
            (set_users (base.delete 2) Fixture.world)).
  assert (Hdelete : UserService.deleteUser 2 2 false Fixture.world
    = (Ok true, set_tasks (filter (λ entry, TaskRow.user_id entry.2 ≠ 2))
                  (set_users (base.delete 2) Fixture.world))).
  { vm_compute. reflexivity. }
  split; [exact Hdelete|]. exact (Hdeleted Fixture.bob 2 false _ eq_refl Hdelete).
Defined.

(** * Registration *)

(** A password that [validatePassword] accepts passes the five rules. *)
Lemma validatePassword_ok_strong password w r w' :
  PasswordUtils.validatePassword password w = (Ok r, w') → strongPassword password.
Proof.
  unfold PasswordUtils.validatePassword, PasswordUtils.validatePasswordStrength,
    strongPassword.
  rewrite <- !test_hasChar. run.
  repeat (case_match; simplify_eq/=); try done. intros _.
  repeat match goal with H : negb _ = false |- _ => apply negb_false_iff in H end.
  repeat match goal with H : bool_decide _ = false |- _ => apply bool_decide_eq_false in H end.
  split_and!; [lia|done..].
Qed.

(** [validateUserData] writes nothing. *)
Lemma validateUserData_world userData w : (UserRepository.validateUserData userData w).2 = w.
Proof.
  unfold UserRepository.validateUserData. run. by repeat (case_match; simplify_eq/=).
Qed.

(** ** Addresses in their column *)

Lemma drop_empty n s : Sql.drop n s = EmptyString → (String.length s ≤ n)%nat.
Proof.
  revert s. induction n as [|n IH]; intros [|c s]; cbn; [lia|done|lia|].
  intros Hdrop%IH. lia.
Qed.

Lemma drop_chars n s c :
  c ∈ list_ascii_of_string (Sql.drop n s) → c ∈ list_ascii_of_string s.
Proof.
  revert s. induction n as [|n IH]; intros [|c' s]; cbn; [done..|].
  intros Hin%IH. by right.
Qed.

Lemma onlySpaces_chars s :
  Sql.onlySpaces s = true →
  (∀ c, c ∈ list_ascii_of_string s → c ≠ " "%char) →
  s = EmptyString.
Proof.
  destruct s as [|c s]; [done|]. cbn.
  intros [Hspace%bool_decide_eq_true _]%andb_true_iff Hnone.
  destruct (Hnone c); [by left|done].
Qed.

(** Every character of a string that matches a sequence of classes is in
    one of the classes. *)
Lemma matches_chars (P : ascii → Prop) re s :
  Forall (λ item, ∀ c, JSString.classOf item c = true → P c) re →
  JSString.matches re s = true →
  ∀ c, c ∈ list_ascii_of_string s → P c.
Proof.
  intros Hre. revert s. induction Hre as [|item re Hitem Hre IH]; intros s.
  - cbn. intros ->%bool_decide_eq_true c Hin. by apply elem_of_nil in Hin.
  - destruct item as [class|class]; cbn [JSString.matches].
    + destruct s as [|c0 s]; [done|]. intros [Hc0 Hrest]%andb_true_iff c Hin.
      cbn in Hin. apply elem_of_cons in Hin as [->|Hin]; [by apply Hitem|].
      by apply (IH s).
    + induction s as [|c0 s IHs]; [done|].
      intros [Hc0 Hrest]%andb_true_iff c Hin.
      cbn in Hin. apply elem_of_cons in Hin as [->|Hin]; [by apply Hitem|].
      apply orb_true_iff in Hrest as [Hrest|Hrest]; [by apply (IH s)|by apply IHs].
Qed.

(** An address that [validateUserData] accepts has no space, so its
    column keeps it as it is, or the database rejects it. *)
Lemma email_no_space email c :
  JSString.matches UserRepository.emailRegex email = true →
  c ∈ list_ascii_of_string email → c ≠ " "%char.
Proof.
  intros Hmatches. revert c.
  apply (matches_chars (λ c, c ≠ " "%char) UserRepository.emailRegex email); [|done].
  unfold UserRepository.emailRegex.
  repeat (apply Forall_cons_2; [cbn; intros c' Hclass ->; by vm_compute in Hclass|]).
  apply Forall_nil_2.
Qed.

Lemma email_kept email address :
  JSString.matches UserRepository.emailRegex email = true →
  Sql.varchar 100 email = Some address →
  address = email ∧ (String.length email ≤ 100)%nat.
Proof.
  intros Hmatches. unfold Sql.varchar.
  destruct (Sql.onlySpaces (Sql.drop 100 email)) eqn:Hspaces; [|done]. intros Hkept.
  assert (address = Sql.take 100 email) as -> by congruence. clear Hkept.
  apply onlySpaces_chars in Hspaces.
  - apply drop_empty in Hspaces. split; [by apply take_fits|done].
  - intros c Hin%drop_chars. by apply (email_no_space email).
Qed.

Lemma validateUserData_email userData w u w' email :
  UserRepository.validateUserData userData w = (Ok u, w') →
  IUserCreate.email userData = Some email →
  JSString.matches UserRepository.emailRegex email = true.
Proof.
  unfold UserRepository.validateUserData. intros Hvalid Hemail. rewrite Hemail in Hvalid.
  cbn [default from_option id] in Hvalid.
  destruct (JSString.matches UserRepository.emailRegex email); [done|].
  revert Hvalid. run. rewrite orb_true_r. by destruct (_ || _).
Qed.

(** What [UserRepository.create] does: it throws and leaves both tables as
    they were, or it stores and returns, under the key of the sequence, a
    row with the name of the payload as its column keeps it, the address
    of the payload, the hash of its password, and its role, or the role
    user when it has none. *)
Lemma create_user_run bcrypt_hash users_user_id_seq userData w :
  (∃ e w', UserRepository.create bcrypt_hash users_user_id_seq userData w = (Throw e, w') ∧
           users w' = users w ∧ tasks w' = tasks w) ∨
  (∃ username email password,
     IUserCreate.username userData = Some username ∧
     IUserCreate.email userData = Some email ∧
     IUserCreate.password userData = Some password ∧
     strongPassword password ∧
     UserRepository.emailExists email w = (Ok false, w) ∧
     UserRepository.usernameExists username w = (Ok false, w) ∧
     users w !! users_user_id_seq = None ∧
     Sql.isInt users_user_id_seq = true ∧
     Sql.varchar 50 username = Some (Sql.take 50 username) ∧
     (String.length email ≤ 100)%nat ∧
     (∀ id user, users w !! id = Some user →
        IUser.username user ≠ Sql.take 50 username) ∧
     let row :=
       IUser.mk users_user_id_seq (Sql.take 50 username) email (bcrypt_hash password)
         (if JSString.truthy (IUserCreate.role userData)
          then IUserCreate.role userData else Some "user")
         (clock w (ticks w)) (clock w (ticks w)) in
     UserRepository.create bcrypt_hash users_user_id_seq userData w
     = (Ok row,
        mkWorld (tasks w) (tasks_task_id_seq w) (<[users_user_id_seq := row]> (users w))
          (clock w) (S (ticks w)) (tzOffset w) (categories w) (priorities w))).
Proof.
  unfold UserRepository.create. rewrite bind_eq.
  pose proof (validateUserData_world userData w) as Hworld.
  destruct (UserRepository.validateUserData userData w) as [[[]|e] w0] eqn:Hvalid;
    cbn in Hworld; subst w0; [|left; by eexists _, _].
  rewrite bind_eq.
  destruct (emailExists_run (default EmptyString (IUserCreate.email userData)) w)
    as [taken1 Hemail]. rewrite Hemail. step.
  destruct taken1; step; [left; by eexists _, _|].
  rewrite bind_eq.
  destruct (usernameExists_run (default EmptyString (IUserCreate.username userData)) w)
    as [taken2 Hname]. rewrite Hname. step.
  destruct taken2; step; [left; by eexists _, _|].
  destruct (IUserCreate.username userData) as [username|]; [|left; by eexists _, _].
  destruct (IUserCreate.email userData) as [email|] eqn:Hsupplied; [|left; by eexists _, _].
  destruct (IUserCreate.password userData) as [password|]; [|left; by eexists _, _].
  rewrite bind_eq.
  destruct (validatePassword_run password w) as [[e He]|He]; rewrite He;
    [left; by eexists _, _|].
  step.
  destruct (Sql.varchar 50 username) as [name|] eqn:Hkept; [|left; by eexists _, _].
  destruct (Sql.varchar 100 email) as [address|] eqn:Hkept'; [|left; by eexists _, _].
  apply varchar_take in Hkept as Hcut. subst name.
  apply (email_kept email address (validateUserData_email _ _ _ _ _ Hvalid Hsupplied))
    in Hkept' as [-> Hfits].
  step. destruct (_ || _) eqn:Hrejected; step; [left; by eexists _, _|].
  apply orb_false_iff in Hrejected as [Hrejected _].
  apply orb_false_iff in Hrejected as [Hrejected Hunique].
  apply orb_false_iff in Hrejected as [Hint Hkey].
  apply negb_false_iff in Hint, Hunique. apply bool_decide_eq_false in Hkey.
  right. exists username, email, password. split_and!; try done.
  - by apply validatePassword_ok_strong in He.
  - by apply eq_None_not_Some.
  - intros id user Hid. apply eq_None_not_Some in Hkey.
    apply (proj1 (unique_spec _ _ _ _) Hunique id user Hid). congruence.
Qed.

(** An error of [validatePassword] has status 400. *)
Lemma validatePassword_throw password w e w' :
  PasswordUtils.validatePassword password w = (Throw e, w') →
  ApiError.statusCode e = 400 ∧ w' = w.
Proof.
  unfold PasswordUtils.validatePassword, PasswordUtils.validatePasswordStrength. run.
  repeat (case_match; simplify_eq/=); by intros [= <- <-].
Qed.

(** X23.  The checks of [register] and their order.  A payload without a
    non-empty address, name or password is refused with
    MISSING_REQUIRED_FIELDS.  Otherwise an address that a row has is
    refused with EMAIL_EXISTS, whatever the name and the password; then a
    name that a row has, with USERNAME_EXISTS, whatever the password; then
    a password that breaks the rules, with an error of status 400.  A
    registration that throws leaves both tables as they were. *)
Theorem register_checks bcrypt_hash generateTokens users_user_id_seq userData w :
  let out :=
    UserService.register bcrypt_hash generateTokens users_user_id_seq userData w in
  let present :=
    JSString.truthy (IUserCreate.email userData) = true ∧
    JSString.truthy (IUserCreate.username userData) = true ∧
    JSString.truthy (IUserCreate.password userData) = true in
  let emailTaken :=
    ∃ id user, users w !! id = Some user ∧ IUserCreate.email userData = Some (IUser.email user) in
  let usernameTaken :=
    ∃ id user, users w !! id = Some user ∧
               IUserCreate.username userData = Some (IUser.username user) in
  (¬ present →
   out = (Throw (ApiError.badRequest "Email, username and password are required"
                   "MISSING_REQUIRED_FIELDS"), w)) ∧
  (present → emailTaken →
   out = (Throw (ApiError.badRequest "Email is already in use" "EMAIL_EXISTS"), w)) ∧
  (present → ¬ emailTaken → usernameTaken →
   out = (Throw (ApiError.badRequest "Username is already in use" "USERNAME_EXISTS"), w)) ∧
  (present → ¬ emailTaken → ¬ usernameTaken →
   (∀ password, IUserCreate.password userData = Some password → ¬ strongPassword password) →
   ∃ e, out = (Throw e, w) ∧ ApiError.statusCode e = 400) ∧
  (∀ e w', out = (Throw e, w') → users w' = users w ∧ tasks w' = tasks w).
Proof.
  cbv zeta. unfold UserService.register. step.
  destruct (JSString.truthy (IUserCreate.email userData)) eqn:Hemail; step.
  2:{ split_and!; try (by intros (? & ? & ?)); [by intros _|]. by intros e w' [= _ <-]. }
  destruct (JSString.truthy (IUserCreate.username userData)) eqn:Hname; step.
  2:{ split_and!; try (by intros (? & ? & ?)); [by intros _|]. by intros e w' [= _ <-]. }
  destruct (JSString.truthy (IUserCreate.password userData)) eqn:Hpassword; step.
  2:{ split_and!; try (by intros (? & ? & ?)); [by intros _|]. by intros e w' [= _ <-]. }
  destruct (IUserCreate.email userData) as [email|] eqn:Hemail'; [|done].
  destruct (IUserCreate.username userData) as [username|] eqn:Hname'; [|done].
  destruct (IUserCreate.password userData) as [password|] eqn:Hpassword'; [|done].
  step. rewrite bind_eq.
  destruct (emailExists_run email w) as [taken Hexists]. rewrite Hexists.
  destruct taken.
  { step. split_and!; try done.
    - intros Hmissing. by destruct Hmissing.
    - intros _ Hfree. exfalso.
      assert (Hnone : ∀ id user, users w !! id = Some user → IUser.email user ≠ email).
      { intros id user Hid <-. apply Hfree. by exists id, user. }
      apply emailExists_free in Hnone. congruence.
    - intros _ Hfree. exfalso.
      assert (Hnone : ∀ id user, users w !! id = Some user → IUser.email user ≠ email).
      { intros id user Hid <-. apply Hfree. by exists id, user. }
      apply emailExists_free in Hnone. congruence.
    - by intros e w' [= _ <-]. }
  assert (Hnone := proj2 (emailExists_free email w) Hexists).
  assert (Hfree : ¬ ∃ id user, users w !! id = Some user ∧ Some email = Some (IUser.email user)).
  { intros (id & user & Hid & [= ->]). by apply (Hnone id user). }
  step. rewrite bind_eq.
  destruct (usernameExists_run username w) as [taken Hexists']. rewrite Hexists'.
  destruct taken.
  { step. split_and!; try done.
    - intros Hmissing. by destruct Hmissing.
    - intros _ _ Hfree'. exfalso.
      assert (Hnone' : ∀ id user, users w !! id = Some user → IUser.username user ≠ username).
      { intros id user Hid <-. apply Hfree'. by exists id, user. }
      apply usernameExists_free in Hnone'. congruence.
    - by intros e w' [= _ <-]. }
  assert (Hnone' := proj2 (usernameExists_free username w) Hexists').
  assert (Hfree' : ¬ ∃ id user, users w !! id = Some user ∧
                                Some username = Some (IUser.username user)).
  { intros (id & user & Hid & [= ->]). by apply (Hnone' id user). }
  step. rewrite bind_eq.
  destruct (PasswordUtils.validatePassword password w) as [[r|e] w1] eqn:Hvalid.
  2:{ apply validatePassword_throw in Hvalid as [Hstatus ->].
      split_and!; try done.
      - intros Hmissing. by destruct Hmissing.
      - intros _ _ _ _. by exists e.
      - by intros e' w' [= _ <-]. }
  apply validatePassword_ok_strong in Hvalid as Hstrong.
  destruct (validatePassword_run password w) as [[e He]|Hok]; [congruence|].
  rewrite Hok in Hvalid. injection Hvalid as <- <-.
  rewrite bind_eq.
  split_and!; try done.
  - intros Hmissing. by destruct Hmissing.
  - intros _ _ _ Hweak. by destruct (Hweak password).
  - destruct (create_user_run bcrypt_hash users_user_id_seq userData w)
      as [(e & w' & -> & Husers & Htasks)
         |(u & m & p & _ & _ & _ & _ & _ & _ & _ & _ & _ & _ & _ & ->)].
    + by intros e' w'' [= _ <-].
    + done.
Qed.

(** After an insert of a row with an address that no row had, [findByEmail]
    finds that row. *)
Lemma findByEmail_inserted w w' id row :
  (∀ id' user, users w !! id' = Some user → IUser.email user ≠ IUser.email row) →
  users w' = <[id := row]> (users w) →
  UserRepository.findByEmail (IUser.email row) w' = (Ok (Some row), w').
Proof.
  intros Hnone Husers. unfold UserRepository.findByEmail, UserRepository.selectWhere. step.
  rewrite Husers.
  assert (Hall : ∀ user,
    user ∈ filter (λ u, IUser.email u = IUser.email row)
             (map_to_list (<[id := row]> (users w))).*2 ↔ user = row).
  { intros user. rewrite list_elem_of_filter, list_elem_of_fmap. split.
    - intros (Hemail & [id' user'] & -> & Hin%elem_of_map_to_list). cbn in *.
      destruct (decide (id' = id)) as [->|Hne].
      + rewrite lookup_insert_eq in Hin. by injection Hin.
      + rewrite lookup_insert_ne in Hin by done. by destruct (Hnone id' user').
    - intros ->. split; [done|]. exists (id, row). split; [done|].
      apply elem_of_map_to_list. by rewrite lookup_insert_eq. }
  destruct (filter _ _) as [|user rows].
  - assert (Hin : row ∈ @nil IUser.t) by by apply Hall. by apply elem_of_nil in Hin.
  - assert (user = row) as -> by (apply Hall; left). done.
Qed.

(** What a registration that succeeds has checked, stored and returned. *)
Lemma register_ok_run bcrypt_hash generateTokens users_user_id_seq userData w session w' :
  UserService.register bcrypt_hash generateTokens users_user_id_seq userData w
    = (Ok session, w') →
  ∃ username email password,
    IUserCreate.username userData = Some username ∧
    IUserCreate.email userData = Some email ∧
    IUserCreate.password userData = Some password ∧
    strongPassword password ∧
    let name := Sql.take 50 username in
    Sql.varchar 50 username = Some name ∧
    (String.length email ≤ 100)%nat ∧
    (∀ id user, users w !! id = Some user →
       IUser.email user ≠ email ∧ IUser.username user ≠ username ∧
       IUser.username user ≠ name) ∧
    users w !! users_user_id_seq = None ∧
    let row :=
      IUser.mk users_user_id_seq name email (bcrypt_hash password)
        (if JSString.truthy (IUserCreate.role userData)
         then IUserCreate.role userData else Some "user")
        (clock w (ticks w)) (clock w (ticks w)) in
    let tokens :=
      generateTokens (IUserTokenPayload.mk users_user_id_seq name email (IUser.role row)) in
    users w' = <[users_user_id_seq := row]> (users w) ∧
    tasks w' = tasks w ∧
    session = UserService.mkSession (SafeUser.of_user row) tokens.1 tokens.2.
Proof.
  unfold UserService.register. step.
  destruct (_ || _); step; [done|].
  rewrite bind_eq.
  destruct (emailExists_run (default EmptyString (IUserCreate.email userData)) w)
    as [taken Hexists]. rewrite Hexists.
  destruct taken; step; [done|].
  rewrite bind_eq.
  destruct (usernameExists_run (default EmptyString (IUserCreate.username userData)) w)
    as [taken Hexists']. rewrite Hexists'.
  destruct taken; step; [done|].
  rewrite bind_eq.
  destruct (validatePassword_run (default EmptyString (IUserCreate.password userData)) w)
    as [[e He]|He]; rewrite He; [done|].
  rewrite bind_eq.
  destruct (create_user_run bcrypt_hash users_user_id_seq userData w)
    as [(e & w0 & -> & _)
       |(username & email & password & Hname & Hemail & Hpassword & Hstrong & Hfree
         & Hfree' & Hkey & _ & Hkept & Hfits & Hunique & ->)]; [done|].
  step. intros [= <- <-]. exists username, email, password.
  split_and!; try done.
  intros id user Hid. split_and!.
  - by apply (proj2 (emailExists_free email w) Hfree id user).
  - by apply (proj2 (usernameExists_free username w) Hfree' id user).
  - by apply (Hunique id user).
Qed.

(** A registration with an address that a row has throws EMAIL_EXISTS. *)
Lemma register_email_taken bcrypt_hash generateTokens users_user_id_seq userData w id user :
  JSString.truthy (IUserCreate.email userData) = true →
  JSString.truthy (IUserCreate.username userData) = true →
  JSString.truthy (IUserCreate.password userData) = true →
  users w !! id = Some user →
  IUserCreate.email userData = Some (IUser.email user) →
  UserService.register bcrypt_hash generateTokens users_user_id_seq userData w
    = (Throw (ApiError.badRequest "Email is already in use" "EMAIL_EXISTS"), w).
Proof.
  intros Hemail Hname Hpassword Hid Htaken. unfold UserService.register.
  rewrite Hemail, Hname, Hpassword, Htaken. step.
  by rewrite bind_eq, (emailExists_taken _ w id user Hid eq_refl).
Qed.

(** X24.  A registration that succeeds stores one row, under the key of
    the sequence, and touches no task.  The row has the name of the
    payload as the column, of type [VARCHAR(50)], keeps it: its first 50
    characters, what is cut of a longer name being spaces.  It has the
    address of the payload, which is of at most 100 characters, the hash
    of its password, and the role of the payload, or the role user when
    the payload has none; the password passes the rules, and no row had
    the address or the name, as supplied or as kept, before.  The session
    carries the row without the hash, and the tokens made from its key,
    name, address and role. *)
Theorem register_success bcrypt_hash generateTokens users_user_id_seq userData w session w' :
  UserService.register bcrypt_hash generateTokens users_user_id_seq userData w
    = (Ok session, w') →
  ∃ username email password,
    IUserCreate.username userData = Some username ∧
    IUserCreate.email userData = Some email ∧
    IUserCreate.password userData = Some password ∧
    strongPassword password ∧
    let name := Sql.take 50 username in
    Sql.varchar 50 username = Some name ∧
    (String.length email ≤ 100)%nat ∧
    (∀ id user, users w !! id = Some user →
       IUser.email user ≠ email ∧ IUser.username user ≠ username ∧
       IUser.username user ≠ name) ∧
    users w !! users_user_id_seq = None ∧
    let row :=
      IUser.mk users_user_id_seq name email (bcrypt_hash password)
        (if JSString.truthy (IUserCreate.role userData)
         then IUserCreate.role userData else Some "user")
        (clock w (ticks w)) (clock w (ticks w)) in
    let tokens :=
      generateTokens (IUserTokenPayload.mk users_user_id_seq name email (IUser.role row)) in
    users w' = <[users_user_id_seq := row]> (users w) ∧
    tasks w' = tasks w ∧
    session = UserService.mkSession (SafeUser.of_user row) tokens.1 tokens.2.
Proof. apply register_ok_run. Qed.

Lemma register_success_witness :
  ∃ username email password,
    IUserCreate.username Fixture.carol = Some username ∧
    IUserCreate.email Fixture.carol = Some email ∧
    IUserCreate.password Fixture.carol = Some password ∧
    strongPassword password ∧
    let name := Sql.take 50 username in
    Sql.varchar 50 username = Some name ∧
    (String.length email ≤ 100)%nat ∧
    (∀ id user, users Fixture.world !! id = Some user →
       IUser.email user ≠ email ∧ IUser.username user ≠ username ∧
       IUser.username user ≠ name) ∧
    users Fixture.world !! 3 = None ∧
    let row :=
      IUser.mk 3 name email (Fixture.bcrypt_hash password)
        (if JSString.truthy (IUserCreate.role Fixture.carol)
         then IUserCreate.role Fixture.carol else Some "user")
        (clock Fixture.world (ticks Fixture.world))
        (clock Fixture.world (ticks Fixture.world)) in
    let tokens :=
      Fixture.generateTokens (IUserTokenPayload.mk 3 name email (IUser.role row)) in
    users Fixture.registered = <[3 := row]> (users Fixture.world) ∧
    tasks Fixture.registered = tasks Fixture.world ∧
    Fixture.carolSession = UserService.mkSession (SafeUser.of_user row) tokens.1 tokens.2.
Proof.
  assert (Hregister :
    UserService.register Fixture.bcrypt_hash Fixture.generateTokens 3 Fixture.carol
      Fixture.world = (Ok Fixture.carolSession, Fixture.registered))
    by (vm_compute; reflexivity).
  exact (register_success _ _ _ _ _ _ _ Hregister).
Defined.

(** Names that are longer than their column, of 50 characters.  A name of
    51 characters that ends in a space is registered without its last
    character; one that ends otherwise is rejected by the database, and
    nothing is stored. *)
Example register_long_names :
  let spaced := "dave                                               " in
  let dense := "daaaaaaaaaaaaaaaaaaaaaaaaaaaaaaaaaaaaaaaaaaaaaaaaaa" in
  let payload name :=
    IUserCreate.mk (Some name) (Some "dave@example.com") (Some "Chosen123!") None in
  let register name :=
    UserService.register Fixture.bcrypt_hash Fixture.generateTokens 3 (payload name)
      Fixture.world in
  String.length spaced = 51%nat ∧ String.length dense = 51%nat ∧
  (register spaced).1
  = Ok (UserService.mkSession
          (SafeUser.mk 3 "dave                                              " "dave@example.com"
             (Some "user") Fixture.now Fixture.now)
          ("access:" +:+ Sql.take 50 spaced) ("refresh:" +:+ Sql.take 50 spaced)) ∧
  register dense
  = (Throw (ApiError.mk "Error creating user" 500 "SERVER_ERROR"), Fixture.world).
Proof. split_and!; vm_compute; reflexivity. Qed.

(** X25.  After a registration that succeeds, a login with the address of
    the payload returns the new user exactly when the password passes the
    comparison with the hash of the registered password, and throws
    INVALID_CREDENTIALS otherwise; and a second registration with that
    address, whatever its name and password, throws EMAIL_EXISTS and
    writes nothing. *)
Theorem register_then_login (bcrypt_compare : string → string → bool) bcrypt_hash
    generateTokens users_user_id_seq userData w session w' email password :
  UserService.register bcrypt_hash generateTokens users_user_id_seq userData w
    = (Ok session, w') →
  IUserCreate.email userData = Some email →
  IUserCreate.password userData = Some password →
  (∀ attempt,
     if bcrypt_compare attempt (bcrypt_hash password)
     then ∃ session',
            UserService.login bcrypt_compare generateTokens email attempt w'
              = (Ok session', w') ∧
            UserService.user session' = UserService.user session
     else UserService.login bcrypt_compare generateTokens email attempt w'
            = (Throw invalidCredentials, w')) ∧
  (∀ again seq,
     IUserCreate.email again = Some email →
     JSString.truthy (IUserCreate.username again) = true →
     JSString.truthy (IUserCreate.password again) = true →
     UserService.register bcrypt_hash generateTokens seq again w'
       = (Throw (ApiError.badRequest "Email is already in use" "EMAIL_EXISTS"), w')).
Proof.
  intros Hregister Hemail Hpassword.
  assert (Htruthy : JSString.truthy (IUserCreate.email userData) = true).
  { destruct (JSString.truthy (IUserCreate.email userData)) eqn:Hfalsy; [done|].
    unfold UserService.register in Hregister. rewrite Hfalsy in Hregister. done. }
  destruct (register_ok_run _ _ _ _ _ _ _ Hregister)
    as (username & email' & password' & Hname & Hemail' & Hpassword' & Hstrong & Hkept
        & Hfits & Hfree & Hkey & Husers & Htasks & ->).
  simplify_eq. cbn zeta in Husers.
  set (row := IUser.mk _ _ _ _ _ _ _) in Husers.
  assert (Hfind : UserRepository.findByEmail email w' = (Ok (Some row), w')).
  { apply (findByEmail_inserted w w' users_user_id_seq row); [|done].
    intros id user Hid. by apply (Hfree id user). }
  split.
  - intros attempt. unfold UserService.login. rewrite bind_eq, Hfind. step.
    change (IUser.password_hash row) with (bcrypt_hash password).
    destruct (bcrypt_compare attempt (bcrypt_hash password)); step; [|done].
    eexists. split; reflexivity.
  - intros again seq Hagain Hname' Hpassword'.
    apply (register_email_taken _ _ _ _ _ users_user_id_seq row); try done.
    + by rewrite Hagain, <- Hemail.
    + by rewrite Husers, lookup_insert_eq.
Qed.

Lemma register_then_login_witness :
  (∀ attempt,
     if Fixture.bcrypt_compare attempt (Fixture.bcrypt_hash "Chosen123!")
     then ∃ session',
            UserService.login Fixture.bcrypt_compare Fixture.generateTokens
              "carol@example.com" attempt Fixture.registered
              = (Ok session', Fixture.registered) ∧
            UserService.user session' = UserService.user Fixture.carolSession
     else UserService.login Fixture.bcrypt_compare Fixture.generateTokens
            "carol@example.com" attempt Fixture.registered
            = (Throw invalidCredentials, Fixture.registered)) ∧
  (∀ again seq,
     IUserCreate.email again = Some "carol@example.com" →
     JSString.truthy (IUserCreate.username again) = true →
     JSString.truthy (IUserCreate.password again) = true →
     UserService.register Fixture.bcrypt_hash Fixture.generateTokens seq again
       Fixture.registered
       = (Throw (ApiError.badRequest "Email is already in use" "EMAIL_EXISTS"),
          Fixture.registered)).
Proof.
  assert (Hregister :
    UserService.register Fixture.bcrypt_hash Fixture.generateTokens 3 Fixture.carol
      Fixture.world = (Ok Fixture.carolSession, Fixture.registered))
    by (vm_compute; reflexivity).
  exact (register_then_login Fixture.bcrypt_compare _ _ _ _ _ _ _ _ _ Hregister
           eq_refl eq_refl).
Defined.

(** * Controllers *)

(** X26.  The handler [getTaskById] always replies, and writes nothing.
    It sends a task, with status 200, only when the request has a user
    with a key that is not 0, the task is the stored one, and the user
    owns it or has the role admin.  Without such a user the reply is the
    401 error NOT_AUTHORIZED.  For a user and a key without a task it is,
    whoever asks, the 404 error TASK_NOT_FOUND when the key is a value of
    the type of the column, and the 500 error of the rejected lookup,
    which the handler passes on, when it is not: the handler does not
    check the key that it parses.  For a task of somebody else and a user
    who is not an administrator it is the 403 error FORBIDDEN. *)
Theorem getTaskById_reply user taskId w :
  ∃ reply,
    TaskController.getTaskById user taskId w = (Ok reply, w) ∧
    match user with
    | None => reply = Next (ApiError.unauthorized "Not authorized" "NOT_AUTHORIZED")
    | Some caller =>
        if decide (IUserTokenPayload.id caller = 0) then
          reply = Next (ApiError.unauthorized "Not authorized" "NOT_AUTHORIZED")
        else
          match tasks w !! taskId with
          | None =>
              reply = Next (if Sql.isInt taskId
                            then ApiError.notFound "Task not found" "TASK_NOT_FOUND"
                            else findTaskFailed)
          | Some row =>
              if decide (TaskRow.user_id row = IUserTokenPayload.id caller
                         ∨ IUserTokenPayload.role caller = Some "admin")
              then reply = Json 200 (Task.fromDatabaseRow row)
              else reply = Next (ApiError.forbidden "Not authorized to access this task"
                                   "FORBIDDEN")
          end
    end.
Proof.
  unfold TaskController.getTaskById, catchNext, TaskService.getTaskById.
  destruct user as [caller|]; [|by eexists].
  case_bool_decide as Hzero; destruct (decide (IUserTokenPayload.id caller = 0));
    try done; [by eexists|].
  rewrite bind_eq, findById_run.
  destruct (tasks w !! taskId) as [row|]; step;
    [|destruct (Sql.isInt taskId); by eexists].
  change (ITask.user_id (Task.fromDatabaseRow row)) with (TaskRow.user_id row).
  destruct (decide _) as [Hmay|Hmay]; repeat case_bool_decide; cbn [andb];
    try (by eexists); exfalso.
  all: try (by destruct Hmay).
  all: apply Hmay; first [by left|by right].
Qed.

(** The replies of X26 to the same user for a key without a task, within
    and out of the type of the column. *)
Example getTaskById_absent_examples :
  let alice := Some (IUserTokenPayload.mk 1 "alice" "alice@example.com" (Some "user")) in
  TaskController.getTaskById alice 99 Fixture.world
    = (Ok (Next (ApiError.notFound "Task not found" "TASK_NOT_FOUND")), Fixture.world) ∧
  TaskController.getTaskById alice 2147483648 Fixture.world
    = (Ok (Next findTaskFailed), Fixture.world) ∧
  ApiError.statusCode findTaskFailed = 500.
Proof. split_and!; vm_compute; reflexivity. Qed.

(** X27.  Through the handler [updateUser], a user who updates their own
    profile, without being an administrator, sets their own role: the
    handler hands the body to [User.update], which leaves the role of the
    body in place.  For a body that the database accepts (a name and an
    address that no other row has, and a name, an address and a role
    that are not longer than their columns), the reply is the updated user with status
    200, and the stored role is the role of the body, whatever non-empty
    string of at most 20 characters it is. *)
Theorem handler_updateUser_sets_own_role caller userId body role user w :
  users w !! userId = Some user →
  IUserTokenPayload.id caller = userId →
  PartialIUser.role body = Some role →
  role ≠ EmptyString →
  updatable body userId w →
  ∃ user' w',
    UserController.updateUser (Some caller) userId body w
      = (Ok (Json 200 (SafeUser.of_user user')), w') ∧
    users w' !! userId = Some user' ∧
    IUser.role user' = Some role ∧
    SafeUser.role (SafeUser.of_user user') = Some role.
Proof.
  intros Huser Hself Hrole Hnonempty Hupdatable.
  unfold UserController.updateUser, catchNext, User.update.
  rewrite (bool_decide_false (IUserTokenPayload.id caller ≠ userId))
    by (intros Hne; by apply Hne).
  cbn [andb]. rewrite !bind_eq.
  destruct (update_user_accepts userId body user w Huser Hupdatable)
    as (user' & w' & -> & Hstored & _ & _ & _ & _ & Hnew & _).
  exists user', w'.
  assert (IUser.role user' = Some role) as Hwritten.
  { rewrite Hnew, Hrole. cbn. by rewrite bool_decide_false. }
  by split_and!.
Qed.

(** The example: alice, whose role is user, makes herself an
    administrator. *)
Lemma handler_updateUser_sets_own_role_witness :
  let caller := IUserTokenPayload.mk 1 "alice" "alice@example.com" (Some "user") in
  IUser.role Fixture.alice = Some "user" ∧
  ∃ user' w',
    UserController.updateUser (Some caller) 1 Fixture.promotion Fixture.world
      = (Ok (Json 200 (SafeUser.of_user user')), w') ∧
    users w' !! 1 = Some user' ∧
    IUser.role user' = Some "admin" ∧
    SafeUser.role (SafeUser.of_user user') = Some "admin".
Proof.
  intros caller. split; [reflexivity|].
  apply (handler_updateUser_sets_own_role caller 1 Fixture.promotion "admin" Fixture.alice
           Fixture.world); [reflexivity|reflexivity|reflexivity|discriminate|].
  split_and!; [| |cbn; lia..].
  - intros name [= <-] _ id other Hother Hid. unfold Fixture.world in Hother.
    cbn in Hother.
    repeat (apply lookup_insert_Some in Hother as [[_ <-]|[_ Hother]]; [done|]).
    by rewrite lookup_empty in Hother.
  - by intros email [=].
Defined.

(** X28.  The handler [updateUser] refuses, with the 403 error FORBIDDEN, a
    request without a user, and a request of a user who is neither the
    user of the profile nor an administrator, before the profile is
    looked up.  For a profile that does not exist, the others get the 404
    error USER_NOT_FOUND when the key is a value of the type of the
    column, and the 500 error of the rejected lookup when it is not.
    None of these writes anything. *)
Theorem handler_updateUser_refusals user userId body w :
  let allowed :=
    ∃ caller, user = Some caller ∧
              (IUserTokenPayload.id caller = userId
               ∨ IUserTokenPayload.role caller = Some "admin") in
  (¬ allowed →
   UserController.updateUser user userId body w
     = (Ok (Next (ApiError.forbidden "You are not authorized to update this profile"
                    "FORBIDDEN")), w)) ∧
  (allowed → users w !! userId = None →
   UserController.updateUser user userId body w
     = (Ok (Next (if Sql.isInt userId
                  then ApiError.notFound "User not found" "USER_NOT_FOUND"
                  else findUserFailed)), w)).
Proof.
  cbv zeta. unfold UserController.updateUser, catchNext, User.update. split.
  - intros Hrefused. destruct user as [caller|]; [|done].
    rewrite !bool_decide_true, andb_true_l; [done|..];
      intros ?; apply Hrefused; exists caller; eauto.
  - intros (caller & -> & Hmay) Hnone.
    assert (bool_decide (IUserTokenPayload.id caller ≠ userId)
            && bool_decide (IUserTokenPayload.role caller ≠ Some "admin") = false) as ->.
    { apply andb_false_iff.
      destruct Hmay as [Hown|Hadmin]; [left|right]; by apply bool_decide_eq_false; intros ?. }
    assert (Hupdate : UserRepository.update userId body w
              = (if Sql.isInt userId then Ok None else Throw findUserFailed, w)).
    { unfold UserRepository.update. rewrite bind_eq, findUserById_run, Hnone.
      by destruct (Sql.isInt userId). }
    rewrite !bind_eq, Hupdate. by destruct (Sql.isInt userId).
Qed.
